(** * Solignition deployer service: binary store, transaction builder,
      deployment / recovery orchestrator

    Shallow embedding of the deployer service (the file that defines
    [StateManager], [BinaryManager], [ProgramDeployer], [EventMonitor] and
    [DeployerOrchestrator]) and the properties of it that the
    specification states.

    Conventions of the embedding.
    - A [Buffer] is a [list byte]; its [length] is compared as a [Z].
    - JavaScript numbers that hold integers are [Z].  The amount of SOL
      that recovery computes ([afterBalance / LAMPORTS_PER_SOL], then
      [amount * LAMPORTS_PER_SOL]) is a [number]: an IEEE 754 binary64
      value, divided and multiplied with rounding to nearest, ties to
      even.
    - An [async] method is embedded twice.  As a [Prog] it is a state
      transformer that returns a [result] (a value, or the thrown [Error])
      together with the new state: the method from its call to its return,
      with nothing in between.  As a [Task] it has its suspension points,
      one at every awaited operation, and the process in which an event
      emitter starts handlers and the handlers in flight advance step by
      step is a [Node].  A task that is run to its end without giving way
      is the program ([refines]), and a run of events in which every
      handler has settled before the next event is emitted is [run].
    - The LevelDB store and the binary directory are finite maps whose
      writes always succeed; the clock, the key generator, the chain RPC
      client and the Anchor program methods form an interface ([Platform])
      over an abstract state of the outside world, so every theorem holds
      for every behaviour of the chain.  A timer leaves that state alone.
    - Logging and Prometheus metrics have no influence on control flow and
      are left out, except for the gauge of active loans, which the monitor
      sets at the end of each sweep.
    - The monitor keeps a journal of its own: its calls to the chain, the
      timers it arms and the events it emits.  An emitted event is handled
      by the orchestrator after the monitor's method has returned. *)

From Stdlib Require Import ZArith QArith Strings.Byte Floats.SpecFloat.
From Equations Require Import Equations.
From stdpp Require Import gmap strings pretty list fin_maps.

Local Open Scope string_scope.
Local Open Scope list_scope.
Local Open Scope Z_scope.

(** ** Bytes and buffers *)

#[global] Instance byte_eq_dec : EqDecision byte := Byte.byte_eq_dec.

Definition Buffer := list byte.

(** [buf.length] as a JavaScript number. *)
Definition buf_length (b : list byte) : Z := Z.of_nat (length b).

(** [buf.subarray(lo, hi)] / [buf.slice(lo, hi)] for [0 <= lo]. *)
Definition subarray (b : list byte) (lo hi : nat) : list byte :=
  take (hi - lo) (drop lo b).

(** [a.equals(b)]. *)
Definition buf_equals (a b : list byte) : bool := bool_decide (a = b).

Definition byte_of_Z (z : Z) : byte :=
  default x00 (Byte.of_N (Z.to_N (z mod 256))).

Definition Z_of_byte (b : byte) : Z := Z.of_N (Byte.to_N b).

(** [Buffer.from(new Uint32Array([n]).buffer)]: the four bytes of
    [n mod 2^32], least significant first. *)
Definition uint32_le (n : Z) : list byte :=
  let w := n mod 2 ^ 32 in
  [ byte_of_Z w; byte_of_Z (w / 2 ^ 8); byte_of_Z (w / 2 ^ 16); byte_of_Z (w / 2 ^ 24) ].

(** Reading such a field back. *)
Definition uint32_of_le (bs : list byte) : Z :=
  match bs with
  | [b0; b1; b2; b3] =>
      Z_of_byte b0 + 2 ^ 8 * Z_of_byte b1 + 2 ^ 16 * Z_of_byte b2 + 2 ^ 24 * Z_of_byte b3
  | _ => 0
  end.

(** ** Binary management: [BinaryManager.validateBinary] *)

Record Validation := { valid : bool; reason : option string }.

Definition elfMagic : list byte := [x7f; x45; x4c; x46].

Definition MAX_BINARY_SIZE : Z := 100 * 1024 * 1024.

Definition validateBinary (binaryData : list byte) : Validation :=
  if buf_length binaryData =? 0 then
    {| valid := false; reason := Some "Empty binary" |}
  else if negb (buf_equals (subarray binaryData 0 4) elfMagic) then
    {| valid := false; reason := Some "Invalid ELF header" |}
  else if buf_length binaryData >? MAX_BINARY_SIZE then
    {| valid := false; reason := Some "Binary too large (>100MB)" |}
  else
    {| valid := true; reason := None |}.

(** A verdict is "invalid with a [tag] reason" when it is invalid and its
    reason text starts with [tag]. *)
Definition invalid_with (tag : string) (v : Validation) : Prop :=
  valid v = false ∧ ∃ r, reason v = Some r ∧ String.prefix tag r = true.

(** ** Keys and instructions *)

Record PublicKey := { toBase58 : string }.

#[global] Instance PublicKey_eq_dec : EqDecision PublicKey.
Proof. solve_decision. Defined.

Record AccountMeta := {
  pubkey : PublicKey;
  isSigner : bool;
  isWritable : bool
}.

Record TransactionInstruction := {
  keys : list AccountMeta;
  ix_programId : PublicKey;
  ix_data : list byte
}.

Definition BPF_LOADER_DEPRECATED_PROGRAM_ID : PublicKey :=
  {| toBase58 := "BPFLoader1111111111111111111111111111111111" |}.

Definition SystemProgram_programId : PublicKey :=
  {| toBase58 := "11111111111111111111111111111111" |}.

(** ** Transaction builder helpers *)

Definition createInitializeBufferInstruction (buffer authority : PublicKey)
  : TransactionInstruction :=
  {| keys := [ {| pubkey := buffer; isSigner := false; isWritable := true |};
               {| pubkey := authority; isSigner := false; isWritable := false |} ];
     ix_programId := BPF_LOADER_DEPRECATED_PROGRAM_ID;
     ix_data := [x00] |}.

Definition chunkSize : nat := 900.

(** The body of one iteration of the loop of
    [createWriteBufferInstructions]: the instruction for the chunk that
    starts at [offset]. *)
Definition writeChunkInstruction (buffer authority : PublicKey)
    (data : list byte) (offset : nat) : TransactionInstruction :=
  let chunk := subarray data offset (Nat.min (offset + chunkSize) (length data)) in
  {| keys := [ {| pubkey := buffer; isSigner := false; isWritable := true |};
               {| pubkey := authority; isSigner := true; isWritable := false |} ];
     ix_programId := BPF_LOADER_DEPRECATED_PROGRAM_ID;
     ix_data := [x01] ++ uint32_le (Z.of_nat offset) ++ chunk |}.

(** [for (let offset = from; offset < data.length; offset += chunkSize)],
    the instructions in the order in which they are pushed. *)
Equations? writeLoop (buffer authority : PublicKey) (data : list byte)
    (offset : nat) : list TransactionInstruction
    by wf (length data - offset)%nat lt :=
  writeLoop buffer authority data offset with decide (offset < length data)%nat := {
    | left _ => writeChunkInstruction buffer authority data offset
                  :: writeLoop buffer authority data (offset + chunkSize)
    | right _ => [] }.
Proof. unfold chunkSize. lia. Qed.

Definition createWriteBufferInstructions (buffer authority : PublicKey)
    (data : list byte) : list TransactionInstruction :=
  writeLoop buffer authority data 0.

(** The fields of a write instruction's payload:
    one tag byte, four offset bytes, then the chunk. *)
Definition ix_offset_field (ix : TransactionInstruction) : list byte :=
  take 4 (drop 1 (ix_data ix)).

Definition ix_offset (ix : TransactionInstruction) : Z :=
  uint32_of_le (ix_offset_field ix).

Definition ix_chunk (ix : TransactionInstruction) : list byte :=
  drop 5 (ix_data ix).

Definition createDeployWithMaxDataLenInstruction
    (payer programId buffer upgradeAuthority : PublicKey) (lamports dataLen : Z)
  : TransactionInstruction :=
  {| keys := [ {| pubkey := payer; isSigner := true; isWritable := true |};
               {| pubkey := programId; isSigner := true; isWritable := true |};
               {| pubkey := buffer; isSigner := false; isWritable := true |};
               {| pubkey := upgradeAuthority; isSigner := false; isWritable := false |};
               {| pubkey := SystemProgram_programId; isSigner := false; isWritable := false |} ];
     ix_programId := BPF_LOADER_DEPRECATED_PROGRAM_ID;
     ix_data := [x02] ++ uint32_le dataLen |}.

Definition createCloseAccountInstruction
    (account recipient authority : PublicKey) (program : option PublicKey)
  : TransactionInstruction :=
  let keys0 :=
    [ {| pubkey := account; isSigner := false; isWritable := true |};
      {| pubkey := recipient; isSigner := false; isWritable := true |};
      {| pubkey := authority; isSigner := true; isWritable := false |} ] in
  let keys1 :=
    match program with
    | Some p => keys0 ++ [ {| pubkey := p; isSigner := false; isWritable := true |} ]
    | None => keys0
    end in
  {| keys := keys1;
     ix_programId := BPF_LOADER_DEPRECATED_PROGRAM_ID;
     ix_data := [x04] |}.

(** The instructions that go into a transaction: the service's own
    loader instructions and the two it takes ready-made from the SDK. *)
Inductive Instruction :=
| LoaderInstruction (ix : TransactionInstruction)
| SystemProgram_createAccount
    (fromPubkey newAccountPubkey : PublicKey) (lamports space : Z) (owner : PublicKey)
| ComputeBudgetProgram_setComputeUnitLimit (units : Z).

(** ** Errors, results and programs *)

(** A JavaScript [Error] object. *)
Record Error := { message : string }.

(** [String(error)]. *)
Definition String_of_Error (e : Error) : string :=
  if decide (message e = "") then "Error" else "Error: " +:+ message e.

Inductive result (A : Type) :=
| Ok (a : A)
| Throw (e : Error).
Arguments Ok {A} a.
Arguments Throw {A} e.

(** An [async] computation over a state [S]: it ends normally or by
    throwing; the state changes made before a throw stay. *)
Definition Prog (S A : Type) : Type := S → result A * S.

Definition prog_ret {S A} (a : A) : Prog S A := λ s, (Ok a, s).

Definition prog_bind {S A B} (f : A → Prog S B) (m : Prog S A) : Prog S B :=
  λ s, match m s with
       | (Ok a, s') => f a s'
       | (Throw e, s') => (Throw e, s')
       end.

#[global] Instance Prog_ret {S} : MRet (Prog S) := @prog_ret S.
#[global] Instance Prog_bind {S} : MBind (Prog S) := @prog_bind S.

Definition throw {S A} (e : Error) : Prog S A := λ s, (Throw e, s).

(** [try { m } catch (error) { h error }]. *)
Definition try_catch {S A} (m : Prog S A) (h : Error → Prog S A) : Prog S A :=
  λ s, match m s with
       | (Ok a, s') => (Ok a, s')
       | (Throw e, s') => h e s'
       end.

(** ** Data model *)

Inductive Status :=
| pending | deploying | deployed | recovering | recovered | failed.

#[global] Instance Status_eq_dec : EqDecision Status.
Proof. solve_decision. Defined.

Record DeploymentRecord := {
  loanId : string;
  borrower : string;
  programId : option string;
  bufferAccount : option string;
  deployTxSignature : option string;
  setDeployedTxSignature : option string;
  recoveryTxSignature : option string;
  status : Status;
  error : option string;
  createdAt : Z;
  updatedAt : Z;
  binaryHash : option string;
  principal : string
}.

(** Field assignments [deployment.f = v]. *)
Definition set_status (v : Status) (d : DeploymentRecord) : DeploymentRecord :=
  {| loanId := loanId d; borrower := borrower d; programId := programId d;
     bufferAccount := bufferAccount d; deployTxSignature := deployTxSignature d;
     setDeployedTxSignature := setDeployedTxSignature d;
     recoveryTxSignature := recoveryTxSignature d; status := v; error := error d;
     createdAt := createdAt d; updatedAt := updatedAt d; binaryHash := binaryHash d;
     principal := principal d |}.

Definition set_updatedAt (v : Z) (d : DeploymentRecord) : DeploymentRecord :=
  {| loanId := loanId d; borrower := borrower d; programId := programId d;
     bufferAccount := bufferAccount d; deployTxSignature := deployTxSignature d;
     setDeployedTxSignature := setDeployedTxSignature d;
     recoveryTxSignature := recoveryTxSignature d; status := status d; error := error d;
     createdAt := createdAt d; updatedAt := v; binaryHash := binaryHash d;
     principal := principal d |}.

Definition set_error (v : string) (d : DeploymentRecord) : DeploymentRecord :=
  {| loanId := loanId d; borrower := borrower d; programId := programId d;
     bufferAccount := bufferAccount d; deployTxSignature := deployTxSignature d;
     setDeployedTxSignature := setDeployedTxSignature d;
     recoveryTxSignature := recoveryTxSignature d; status := status d; error := Some v;
     createdAt := createdAt d; updatedAt := updatedAt d; binaryHash := binaryHash d;
     principal := principal d |}.

Definition set_binaryHash (v : string) (d : DeploymentRecord) : DeploymentRecord :=
  {| loanId := loanId d; borrower := borrower d; programId := programId d;
     bufferAccount := bufferAccount d; deployTxSignature := deployTxSignature d;
     setDeployedTxSignature := setDeployedTxSignature d;
     recoveryTxSignature := recoveryTxSignature d; status := status d; error := error d;
     createdAt := createdAt d; updatedAt := updatedAt d; binaryHash := Some v;
     principal := principal d |}.

Definition set_programId (v : string) (d : DeploymentRecord) : DeploymentRecord :=
  {| loanId := loanId d; borrower := borrower d; programId := Some v;
     bufferAccount := bufferAccount d; deployTxSignature := deployTxSignature d;
     setDeployedTxSignature := setDeployedTxSignature d;
     recoveryTxSignature := recoveryTxSignature d; status := status d; error := error d;
     createdAt := createdAt d; updatedAt := updatedAt d; binaryHash := binaryHash d;
     principal := principal d |}.

Definition set_bufferAccount (v : string) (d : DeploymentRecord) : DeploymentRecord :=
  {| loanId := loanId d; borrower := borrower d; programId := programId d;
     bufferAccount := Some v; deployTxSignature := deployTxSignature d;
     setDeployedTxSignature := setDeployedTxSignature d;
     recoveryTxSignature := recoveryTxSignature d; status := status d; error := error d;
     createdAt := createdAt d; updatedAt := updatedAt d; binaryHash := binaryHash d;
     principal := principal d |}.

Definition set_deployTxSignature (v : string) (d : DeploymentRecord) : DeploymentRecord :=
  {| loanId := loanId d; borrower := borrower d; programId := programId d;
     bufferAccount := bufferAccount d; deployTxSignature := Some v;
     setDeployedTxSignature := setDeployedTxSignature d;
     recoveryTxSignature := recoveryTxSignature d; status := status d; error := error d;
     createdAt := createdAt d; updatedAt := updatedAt d; binaryHash := binaryHash d;
     principal := principal d |}.

Definition set_setDeployedTxSignature (v : string) (d : DeploymentRecord)
  : DeploymentRecord :=
  {| loanId := loanId d; borrower := borrower d; programId := programId d;
     bufferAccount := bufferAccount d; deployTxSignature := deployTxSignature d;
     setDeployedTxSignature := Some v;
     recoveryTxSignature := recoveryTxSignature d; status := status d; error := error d;
     createdAt := createdAt d; updatedAt := updatedAt d; binaryHash := binaryHash d;
     principal := principal d |}.

Definition set_recoveryTxSignature (v : string) (d : DeploymentRecord)
  : DeploymentRecord :=
  {| loanId := loanId d; borrower := borrower d; programId := programId d;
     bufferAccount := bufferAccount d; deployTxSignature := deployTxSignature d;
     setDeployedTxSignature := setDeployedTxSignature d;
     recoveryTxSignature := Some v; status := status d; error := error d;
     createdAt := createdAt d; updatedAt := updatedAt d; binaryHash := binaryHash d;
     principal := principal d |}.

(** The part of a [loanRequested] event that the orchestrator reads. *)
Record LoanRequested := {
  ev_loanId : string;
  ev_borrower : string;
  ev_principal : string
}.

(** The fields of [config] that the modelled code reads. *)
Record DeployerConfig := {
  binaryStoragePath : string;
  maxRetries : Z;
  retryDelayMs : Z
}.

(** The fields of a [ProgramDeployer]: wallets by their public key, and the
    program-derived addresses computed when it is constructed. *)
Record ProgramDeployer := {
  deployerWallet : PublicKey;
  adminWallet : option PublicKey;
  authorityPda : PublicKey;
  deployerPda : PublicKey;
  vaultPda : PublicKey;
  configPda : PublicKey
}.

Record AccountInfo := { account_data : list byte; account_lamports : Z }.

Definition LAMPORTS_PER_SOL : Z := 1000000000.

(** ** JavaScript numbers

    A [number] is an IEEE 754 binary64 value.  The service divides and
    multiplies numbers at one place only, where it converts a balance in
    lamports to SOL and back; these operations round to nearest, ties to
    even, which is the arithmetic of [SpecFloat] at 53 bits of precision
    and a maximal exponent of 1024. *)
Definition number : Type := spec_float.

(** An integer read as a number: itself up to [2^53], and the nearest
    number beyond. *)
Definition Number_of_Z (z : Z) : number := binary_normalize 53 1024 z 0 false.

Definition Number_div (x y : number) : number := SFdiv 53 1024 x y.

Definition Number_mul (x y : number) : number := SFmul 53 1024 x y.

(** The integer part of a number, rounded towards zero; there is none for
    NaN and the infinities. *)
Definition Number_trunc (x : number) : option Z :=
  match x with
  | S754_zero _ => Some 0
  | S754_finite sign m e =>
      let magnitude :=
        match e with
        | Z0 => Zpos m
        | Zpos p => Zpos m * 2 ^ Zpos p
        | Zneg p => Zpos m / 2 ^ Zpos p
        end in
      Some (if sign then - magnitude else magnitude)
  | S754_infinity _ | S754_nan => None
  end.

(** [new anchor.BN(x)] for a number [x]: the integer part of [x], and an
    assertion failure from [2^53] on and for what is not finite. *)
Definition BN_of_number (x : number) : result Z :=
  match Number_trunc x with
  | Some z =>
      if Z.abs z <? 2 ^ 53 then Ok z else Throw {| message := "Assertion failed" |}
  | None => Throw {| message := "Assertion failed" |}
  end.

(** ** The platform the service runs on

    Everything the service obtains from outside its own code: the clock,
    key generation, the RPC [Connection], the two Anchor methods it calls,
    and pure library functions.  [W] is the state of that outside world. *)
Class Platform (W : Type) := {
  Date_now : W → Z * W;
  Keypair_generate : W → PublicKey * W;
  getBalance : PublicKey → W → result Z * W;
  getMinimumBalanceForRentExemption : Z → W → result Z * W;
  getAccountInfo : PublicKey → W → result (option AccountInfo) * W;
  sendAndConfirmTransaction : list Instruction → list PublicKey → W → result string * W;
  methods_setDeployedProgram : string → PublicKey → W → result string * W;
  methods_returnReclaimedSol : string → Z → W → result string * W;
  (** [createHash('sha256').update(b).digest('hex')] *)
  sha256_hex : list byte → string;
  (** [path.join(dir, name)] *)
  path_join : string → string → string;
  (** [new PublicKey(s)] for a base58 string, which throws on bad input *)
  PublicKey_of_string : string → result PublicKey;
  (** [new PublicKey(bytes)], which throws unless there are 32 bytes *)
  PublicKey_of_bytes : list byte → result PublicKey
}.

(** What the service does to the outside, in order. *)
Inductive Effect :=
| EDbPut (key : string) (r : DeploymentRecord)
| ESetTimeout (ms : Z)
| EReadFile (path : string)
| EWriteFile (path : string) (data : list byte)
| EGetBalance (pk : PublicKey)
| EGetMinimumBalanceForRentExemption (size : Z)
| EGetAccountInfo (pk : PublicKey)
| ESendTransaction (tx : list Instruction) (signers : list PublicKey)
| ESetDeployedProgram (loan : string) (program : PublicKey)
| EReturnReclaimedSol (loan : string) (amountLamports : Z).

(** The whole system: the LevelDB store, the binary directory, the outside
    world, and the effects performed so far (oldest first). *)
Record Sys (W : Type) := {
  db : gmap string DeploymentRecord;
  files : gmap string (list byte);
  world : W;
  trace : list Effect
}.
Arguments db {W} s.
Arguments files {W} s.
Arguments world {W} s.
Arguments trace {W} s.

Section Service.

Context {W : Type} `{!Platform W}.
Variable config : DeployerConfig.
Variable programDeployer : ProgramDeployer.

(** *** Primitive steps *)

(** A call that reaches the outside world: it is recorded, and the world
    moves on. *)
Definition call {A} (e : Effect) (op : W → result A * W) : Prog (Sys W) A :=
  λ s, let r := op (world s) in
       (r.1, {| db := db s; files := files s; world := r.2; trace := trace s ++ [e] |}).

(** [Date.now()] and [Keypair.generate()]: they read the platform and leave
    no mark outside the process. *)
Definition ask {A} (op : W → A * W) : Prog (Sys W) A :=
  λ s, let r := op (world s) in
       (Ok r.1, {| db := db s; files := files s; world := r.2; trace := trace s |}).

(** [await new Promise(resolve => setTimeout(resolve, ms))]. *)
Definition sleep (ms : Z) : Prog (Sys W) unit :=
  λ s, (Ok tt, {| db := db s; files := files s; world := world s;
                  trace := trace s ++ [ESetTimeout ms] |}).

Definition fs_readFile (path : string) : Prog (Sys W) (list byte) :=
  λ s, let s' := {| db := db s; files := files s; world := world s;
                    trace := trace s ++ [EReadFile path] |} in
       match files s !! path with
       | Some b => (Ok b, s')
       | None => (Throw {| message := "ENOENT: no such file or directory, open '" +:+ path +:+ "'" |}, s')
       end.

(** [fs.writeFile(path, data)] creates the file or replaces its content. *)
Definition fs_writeFile (path : string) (data : list byte) : Prog (Sys W) unit :=
  λ s, (Ok tt, {| db := db s; files := <[path := data]> (files s); world := world s;
                  trace := trace s ++ [EWriteFile path data] |}).

(** *** [StateManager] *)

Definition deployment_key (loan : string) : string := "deployment:" +:+ loan.

Definition getDeployment (loan : string) : Prog (Sys W) (option DeploymentRecord) :=
  λ s, (Ok (db s !! deployment_key loan), s).

Definition saveDeployment (record : DeploymentRecord) : Prog (Sys W) unit :=
  λ s, (Ok tt, {| db := <[deployment_key (loanId record) := record]> (db s);
                  files := files s; world := world s;
                  trace := trace s ++ [EDbPut (deployment_key (loanId record)) record] |}).

(** [getAllDeployments]: the values under the keys that start with
    ["deployment:"].  (LevelDB iterates in key order; the order of the list
    is not modelled.) *)
Definition getAllDeployments : Prog (Sys W) (list DeploymentRecord) :=
  λ s, (Ok (filter (λ kv, String.prefix "deployment:" kv.1 = true)
                   (map_to_list (db s))).*2,
        s).

(** *** [BinaryManager] *)

Definition binary_path (loan hash : string) : string :=
  path_join (binaryStoragePath config) (loan +:+ "_" +:+ hash +:+ ".so").

Definition storeBinary (loan : string) (binaryData : list byte) : Prog (Sys W) string :=
  let hash := sha256_hex binaryData in
  let filePath := binary_path loan hash in
  fs_writeFile filePath binaryData;;
  mret hash.

Definition getBinary (loan hash : string) : Prog (Sys W) (list byte) :=
  fs_readFile (binary_path loan hash).

(** *** [ProgramDeployer] *)

Definition deployTransaction (bufferKey programKey : PublicKey)
    (rentExemption : Z) (binaryData : list byte) : list Instruction :=
  let programAccountSize := buf_length binaryData + 1000 in
  let createBufferIx :=
    SystemProgram_createAccount (deployerWallet programDeployer) bufferKey
      rentExemption programAccountSize BPF_LOADER_DEPRECATED_PROGRAM_ID in
  let initBufferIx :=
    createInitializeBufferInstruction bufferKey (deployerWallet programDeployer) in
  let writeInstructions :=
    createWriteBufferInstructions bufferKey (deployerWallet programDeployer) binaryData in
  let deployIx :=
    createDeployWithMaxDataLenInstruction (deployerWallet programDeployer) programKey
      bufferKey (authorityPda programDeployer) rentExemption (buf_length binaryData) in
  [ ComputeBudgetProgram_setComputeUnitLimit 400000;
    createBufferIx;
    LoaderInstruction initBufferIx ]
  ++ map LoaderInstruction writeInstructions
  ++ [ LoaderInstruction deployIx ].

(** [deployProgram]; its [catch] only counts the failure and rethrows. *)
Definition deployProgram (loan : string) (binaryData : list byte)
  : Prog (Sys W) (PublicKey * PublicKey * string) :=
  deployerBalance ← call (EGetBalance (deployerPda programDeployer))
                         (getBalance (deployerPda programDeployer));
  bufferKeypair ← ask Keypair_generate;
  programKeypair ← ask Keypair_generate;
  let programAccountSize := buf_length binaryData + 1000 in
  rentExemption ← call (EGetMinimumBalanceForRentExemption programAccountSize)
                       (getMinimumBalanceForRentExemption programAccountSize);
  let tx := deployTransaction bufferKeypair programKeypair rentExemption binaryData in
  let signers := [deployerWallet programDeployer; bufferKeypair; programKeypair] in
  signature ← call (ESendTransaction tx signers) (sendAndConfirmTransaction tx signers);
  mret (programKeypair, bufferKeypair, signature).

Definition setDeployedProgram (loan : string) (programPubkey : PublicKey)
  : Prog (Sys W) string :=
  match adminWallet programDeployer with
  | None => throw {| message := "Admin wallet not configured for set_deployed_program" |}
  | Some _ =>
      call (ESetDeployedProgram loan programPubkey)
           (methods_setDeployedProgram loan programPubkey)
  end.

(** [closeProgram] returns [reclaimedSol], a number of SOL, and the
    signature of the closing transaction. *)
Definition closeProgram (loan : string) (program : PublicKey)
  : Prog (Sys W) (number * string) :=
  programAccountInfo ← call (EGetAccountInfo program) (getAccountInfo program);
  match programAccountInfo with
  | None => throw {| message := "Program account not found" |}
  | Some info =>
      programDataAddress ←
        (λ s, (PublicKey_of_bytes (subarray (account_data info) 4 36), s));
      let closeIx :=
        createCloseAccountInstruction programDataAddress (deployerPda programDeployer)
          (authorityPda programDeployer) (Some program) in
      let tx := [LoaderInstruction closeIx] in
      let signers := [deployerWallet programDeployer] in
      signature ← call (ESendTransaction tx signers) (sendAndConfirmTransaction tx signers);
      afterBalance ← call (EGetBalance (deployerPda programDeployer))
                          (getBalance (deployerPda programDeployer));
      mret (Number_div (Number_of_Z afterBalance) (Number_of_Z LAMPORTS_PER_SOL), signature)
  end.

Definition returnReclaimedSol (loan : string) (amount : number) : Prog (Sys W) string :=
  amountLamports ←
    (λ s, (BN_of_number (Number_mul amount (Number_of_Z LAMPORTS_PER_SOL)), s));
  call (EReturnReclaimedSol loan amountLamports)
       (methods_returnReclaimedSol loan amountLamports).

(** *** [DeployerOrchestrator]

    The methods below that work on the [deployment] object run over the
    pair of that object and the system: the object is mutated in place, and
    what was assigned before a throw is still there afterwards. *)

Definition on_sys {A} (m : Prog (Sys W) A) : Prog (DeploymentRecord * Sys W) A :=
  λ st, let r := m st.2 in (r.1, (st.1, r.2)).

Definition assign (f : DeploymentRecord → DeploymentRecord)
  : Prog (DeploymentRecord * Sys W) unit :=
  λ st, (Ok tt, (f st.1, st.2)).

Definition this_deployment : Prog (DeploymentRecord * Sys W) DeploymentRecord :=
  λ st, (Ok st.1, st).

(** [await this.stateManager.saveDeployment(deployment)]. *)
Definition save_this : Prog (DeploymentRecord * Sys W) unit :=
  λ st, on_sys (saveDeployment st.1) st.

Definition fetchBinaryForLoan (loan who : string) : Prog (Sys W) (list byte) :=
  let dummyBinaryPath := path_join (binaryStoragePath config) "test-program.so" in
  try_catch (fs_readFile dummyBinaryPath)
    (λ _, throw {| message := "Binary not found for loan. Implement binary retrieval logic." |}).

Definition processDeployment : Prog (DeploymentRecord * Sys W) unit :=
  deployment ← this_deployment;
  let loan := loanId deployment in
  let who := borrower deployment in
  assign (set_status deploying);;
  now ← on_sys (ask Date_now);
  assign (set_updatedAt now);;
  save_this;;
  binaryData ← on_sys (fetchBinaryForLoan loan who);
  let validation := validateBinary binaryData in
  if negb (valid validation) then
    throw {| message := "Binary validation failed: "
                        +:+ default "undefined" (reason validation) |}
  else
    hash ← on_sys (storeBinary loan binaryData);
    assign (set_binaryHash hash);;
    '(programKey, bufferKey, signature) ← on_sys (deployProgram loan binaryData);
    assign (set_programId (toBase58 programKey));;
    assign (set_bufferAccount (toBase58 bufferKey));;
    assign (set_deployTxSignature signature);;
    setTx ← on_sys (setDeployedProgram loan programKey);
    assign (set_setDeployedTxSignature setTx);;
    assign (set_status deployed);;
    now ← on_sys (ask Date_now);
    assign (set_updatedAt now);;
    save_this.

(** [retryDelayMs * Math.pow(2, attempts - 1)]. *)
Definition backoff (attempts : Z) : Z :=
  retryDelayMs config * 2 ^ (attempts - 1).

(** The [while (attempts < config.maxRetries)] loop of
    [processDeploymentWithRetries], entered with the given [attempts]. *)
Equations? retryLoop (attempts : Z) (st : DeploymentRecord * Sys W)
    : result unit * (DeploymentRecord * Sys W)
    by wf (Z.to_nat (maxRetries config - attempts)) lt :=
  retryLoop attempts st with decide (attempts < maxRetries config) := {
    | right _ => (Ok tt, st)
    | left _ with processDeployment st := {
        | (Ok _, st1) => (Ok tt, st1)
        | (Throw e, st1) with decide (attempts + 1 >= maxRetries config) := {
            | left _ =>
                (assign (set_status failed);;
                 assign (set_error (String_of_Error e));;
                 save_this) st1
            | right _ =>
                retryLoop (attempts + 1)
                          (on_sys (sleep (backoff (attempts + 1))) st1).2 } } }.
Proof. lia. Qed.

Definition processDeploymentWithRetries : Prog (DeploymentRecord * Sys W) unit :=
  retryLoop 0.

(** A method called on the local object [d]: the object is not seen again
    once the method has returned. *)
Definition with_object {A} (d : DeploymentRecord)
    (m : Prog (DeploymentRecord * Sys W) A) : Prog (Sys W) A :=
  λ s, let r := m (d, s) in (r.1, r.2.2).

(** The guard [deployment && deployment.status !== 'failed']. *)
Definition already_processing (existing : option DeploymentRecord) : bool :=
  match existing with
  | Some d => bool_decide (status d ≠ failed)
  | None => false
  end.

Definition handleLoanRequested (event : LoanRequested) : Prog (Sys W) unit :=
  existing ← getDeployment (ev_loanId event);
  if already_processing existing then (mret tt : Prog (Sys W) unit)
  else
    created ← ask Date_now;
    updated ← ask Date_now;
    let deployment :=
      {| loanId := ev_loanId event; borrower := ev_borrower event;
         programId := None; bufferAccount := None; deployTxSignature := None;
         setDeployedTxSignature := None; recoveryTxSignature := None;
         status := pending; error := None;
         createdAt := created; updatedAt := updated;
         binaryHash := None; principal := ev_principal event |} in
    saveDeployment deployment;;
    with_object deployment processDeploymentWithRetries.

(** JavaScript truthiness of an optional string: [undefined] and the empty
    string are falsy. *)
Definition truthy (o : option string) : bool :=
  match o with
  | Some v => bool_decide (v ≠ "")
  | None => false
  end.

(** The guard [!deployment || deployment.status !== 'deployed']. *)
Definition not_deployed (existing : option DeploymentRecord) : bool :=
  match existing with
  | Some d => bool_decide (status d ≠ deployed)
  | None => true
  end.

(** The [try] block of [processRecovery]. *)
Definition recoveryBody (loan : string) : Prog (DeploymentRecord * Sys W) unit :=
  assign (set_status recovering);;
  now ← on_sys (ask Date_now);
  assign (set_updatedAt now);;
  save_this;;
  deployment ← this_deployment;
  if truthy (programId deployment) then
    program ← (λ st, (PublicKey_of_string (default "" (programId deployment)), st));
    '(reclaimedSol, signature) ← on_sys (closeProgram loan program);
    returnTx ← on_sys (returnReclaimedSol loan reclaimedSol);
    assign (set_recoveryTxSignature signature);;
    assign (set_status recovered);;
    now ← on_sys (ask Date_now);
    assign (set_updatedAt now);;
    save_this
  else (mret tt : Prog (DeploymentRecord * Sys W) unit).

Definition processRecovery (loan : string) : Prog (Sys W) unit :=
  existing ← getDeployment loan;
  if not_deployed existing then (mret tt : Prog (Sys W) unit)
  else
    match existing with
    | Some deployment =>
        with_object deployment
          (try_catch (recoveryBody loan)
             (λ e, assign (set_status failed);;
                   assign (set_error (String_of_Error e));;
                   save_this))
    | None => mret tt
    end.

Definition handleLoanRecovered (loan : string) : Prog (Sys W) unit :=
  processRecovery loan.

Definition handleLoanExpired (loan : string) : Prog (Sys W) unit :=
  processRecovery loan.

(** The three events the orchestrator subscribes to, and a run of the
    orchestrator over a sequence of them in which every handler has
    returned before the next event is emitted.  (Events that are emitted
    while a handler is in flight are the subject of [Node], further down.)
    A handler never lets an exception escape to the emitter's caller in
    this model, but if it did the run would go on with the next event. *)
Inductive Event :=
| loanRequested (event : LoanRequested)
| loanRecovered (loan : string)
| loanExpired (loan : string).

Definition handle (ev : Event) : Prog (Sys W) unit :=
  match ev with
  | loanRequested event => handleLoanRequested event
  | loanRecovered loan => handleLoanRecovered loan
  | loanExpired loan => handleLoanExpired loan
  end.

Fixpoint run (evs : list Event) (s : Sys W) : Sys W :=
  match evs with
  | [] => s
  | ev :: rest => run rest (handle ev s).2
  end.

End Service.

(** ** A simulated platform

    A small executable platform on which the service can be run: a clock
    that ticks at every reading, a key generator that counts, a ledger of
    balances and program accounts, and a number of transaction submissions
    that are going to fail.  It submits a transaction without verifying
    its signatures; the platform [StrictPlatform], further down, verifies
    them first.  Both are used to run the service on concrete inputs; the
    theorems themselves hold for every platform. *)

Record SimWorld := {
  clock : Z;
  keys_made : nat;
  lamports : gmap string Z;
  programs : gmap string (list byte);
  tx_failures : nat;
  tx_sent : nat
}.

(** Addresses of the simulated chain are 32 characters long. *)
Definition sim_address (name : string) : string :=
  String.string_of_list_byte
    (take 32 (String.list_byte_of_string name ++ replicate 32 "."%byte)).

Definition sim_balance (w : SimWorld) (address : string) : Z :=
  default 0 (lamports w !! address).

Definition sim_transfer (source target : string) (amount : Z)
    (ledger : gmap string Z) : gmap string Z :=
  let ledger1 := <[source := default 0 (ledger !! source) - amount]> ledger in
  <[target := default 0 (ledger1 !! target) + amount]> ledger1.

(** What one instruction of a confirmed transaction does to the ledger:
    account creation funds the new account, deployment makes the program
    account point at its data account (the simulation keeps the data in
    the funded buffer), closing moves the whole balance of the data account
    to the recipient. *)
Definition sim_execute (ix : Instruction) (w : SimWorld) : SimWorld :=
  match ix with
  | SystemProgram_createAccount source fresh amount _ _ =>
      {| clock := clock w; keys_made := keys_made w;
         lamports := sim_transfer (toBase58 source) (toBase58 fresh) amount (lamports w);
         programs := programs w; tx_failures := tx_failures w; tx_sent := tx_sent w |}
  | LoaderInstruction {| keys := [_; program; buffer; _; _]; ix_data := tag :: _ |} =>
      if decide (tag = x02) then
        {| clock := clock w; keys_made := keys_made w; lamports := lamports w;
           programs := <[toBase58 (pubkey program) :=
                           [x02; x00; x00; x00]
                           ++ String.list_byte_of_string (toBase58 (pubkey buffer))]> (programs w);
           tx_failures := tx_failures w; tx_sent := tx_sent w |}
      else w
  | LoaderInstruction {| keys := [account; recipient; _; program]; ix_data := [tag] |} =>
      if decide (tag = x04) then
        {| clock := clock w; keys_made := keys_made w;
           lamports := sim_transfer (toBase58 (pubkey account)) (toBase58 (pubkey recipient))
                         (sim_balance w (toBase58 (pubkey account))) (lamports w);
           programs := delete (toBase58 (pubkey program)) (programs w);
           tx_failures := tx_failures w; tx_sent := tx_sent w |}
      else w
  | _ => w
  end.

Definition sim_send (tx : list Instruction) (signers : list PublicKey) (w : SimWorld)
  : result string * SimWorld :=
  match tx_failures w with
  | S n =>
      (Throw {| message := "Transaction simulation failed" |},
       {| clock := clock w; keys_made := keys_made w; lamports := lamports w;
          programs := programs w; tx_failures := n; tx_sent := tx_sent w |})
  | O =>
      let w1 := foldl (λ acc ix, sim_execute ix acc) w tx in
      (Ok ("signature-" +:+ pretty (tx_sent w)),
       {| clock := clock w1; keys_made := keys_made w1; lamports := lamports w1;
          programs := programs w1; tx_failures := O; tx_sent := S (tx_sent w1) |})
  end.

#[global] Instance SimPlatform : Platform SimWorld := {|
  Date_now w :=
    (clock w,
     {| clock := clock w + 1; keys_made := keys_made w; lamports := lamports w;
        programs := programs w; tx_failures := tx_failures w; tx_sent := tx_sent w |});
  Keypair_generate w :=
    ({| toBase58 := sim_address ("key-" +:+ pretty (keys_made w)) |},
     {| clock := clock w; keys_made := S (keys_made w); lamports := lamports w;
        programs := programs w; tx_failures := tx_failures w; tx_sent := tx_sent w |});
  getBalance pk w := (Ok (sim_balance w (toBase58 pk)), w);
  getMinimumBalanceForRentExemption size w := (Ok ((size + 128) * 6960), w);
  getAccountInfo pk w :=
    (Ok (data ← programs w !! toBase58 pk;
         Some {| account_data := data; account_lamports := sim_balance w (toBase58 pk) |}),
     w);
  sendAndConfirmTransaction := sim_send;
  methods_setDeployedProgram loan program w := (Ok ("set-deployed-" +:+ loan), w);
  methods_returnReclaimedSol loan amount w :=
    (Ok ("return-" +:+ loan),
     {| clock := clock w; keys_made := keys_made w;
        lamports := sim_transfer (sim_address "deployer-pda") (sim_address "vault-pda")
                      amount (lamports w);
        programs := programs w; tx_failures := tx_failures w; tx_sent := tx_sent w |});
  sha256_hex data := "digest-" +:+ pretty (length data);
  path_join dir name := dir +:+ "/" +:+ name;
  PublicKey_of_string text :=
    if decide (text = "") then Throw {| message := "Invalid public key input" |}
    else Ok {| toBase58 := text |};
  PublicKey_of_bytes bytes :=
    if decide (length bytes = 32%nat) then Ok {| toBase58 := String.string_of_list_byte bytes |}
    else Throw {| message := "Invalid public key input" |}
|}.

Definition sim_config (retries : Z) : DeployerConfig :=
  {| binaryStoragePath := "./binaries"; maxRetries := retries; retryDelayMs := 5000 |}.

Definition sim_deployer : ProgramDeployer :=
  {| deployerWallet := {| toBase58 := sim_address "deployer-wallet" |};
     adminWallet := Some {| toBase58 := sim_address "admin-wallet" |};
     authorityPda := {| toBase58 := sim_address "authority-pda" |};
     deployerPda := {| toBase58 := sim_address "deployer-pda" |};
     vaultPda := {| toBase58 := sim_address "vault-pda" |};
     configPda := {| toBase58 := sim_address "config-pda" |} |}.

Definition sim_binary : list byte := [x7f; x45; x4c; x46; x02; x01; x01; x00].

(** A system whose binary directory holds the test program, whose deployer
    wallet is funded, whose intermediary address holds [idle] lamports, and
    whose next [failing] transaction submissions fail. *)
Definition sim_start (idle : Z) (failing : nat) : Sys SimWorld :=
  {| db := ∅;
     files := {[ "./binaries/test-program.so" := sim_binary ]};
     world := {| clock := 1700000000000; keys_made := 0;
                 lamports := {[ sim_address "deployer-wallet" := 50 * LAMPORTS_PER_SOL;
                                sim_address "deployer-pda" := idle ]};
                 programs := ∅; tx_failures := failing; tx_sent := 0 |};
     trace := [] |}.

Definition loan42 : LoanRequested :=
  {| ev_loanId := "42"; ev_borrower := "Bxyz"; ev_principal := "5000000000" |}.

(** The record of loan 42 as [handleLoanRequested] creates it. *)
Definition pending42 : DeploymentRecord :=
  {| loanId := "42"; borrower := "Bxyz";
     programId := None; bufferAccount := None; deployTxSignature := None;
     setDeployedTxSignature := None; recoveryTxSignature := None;
     status := pending; error := None;
     createdAt := 1700000000000; updatedAt := 1700000000001;
     binaryHash := None; principal := "5000000000" |}.

(** A deployer without admin wallet: [setDeployedProgram] always throws. *)
Definition sim_deployer_without_admin : ProgramDeployer :=
  {| deployerWallet := {| toBase58 := sim_address "deployer-wallet" |};
     adminWallet := None;
     authorityPda := {| toBase58 := sim_address "authority-pda" |};
     deployerPda := {| toBase58 := sim_address "deployer-pda" |};
     vaultPda := {| toBase58 := sim_address "vault-pda" |};
     configPda := {| toBase58 := sim_address "config-pda" |} |}.

(** The system after loan 42 has been deployed at the first attempt, the
    intermediary address holding [idle] lamports from before. *)
Definition sim_deployed (idle : Z) : Sys SimWorld :=
  (handleLoanRequested (sim_config 3) sim_deployer loan42 (sim_start idle 0)).2.

(** The address of the program deployed for loan 42 in [sim_deployed]. *)
Definition sim_program42 : PublicKey := {| toBase58 := sim_address "key-1" |}.

(** A store holding a record of loan 7 that is [deployed] but names no
    program. *)
Definition deployed_without_program : DeploymentRecord :=
  {| loanId := "7"; borrower := "Bxyz";
     programId := None; bufferAccount := None; deployTxSignature := None;
     setDeployedTxSignature := None; recoveryTxSignature := None;
     status := deployed; error := None;
     createdAt := 1700000000000; updatedAt := 1700000000001;
     binaryHash := None; principal := "5000000000" |}.

Definition sim_orphan : Sys SimWorld :=
  {| db := {[ "deployment:7" := deployed_without_program ]};
     files := ∅;
     world := {| clock := 1700000000500; keys_made := 0; lamports := ∅;
                 programs := ∅; tx_failures := 0; tx_sent := 0 |};
     trace := [] |}.


(** An input of 100 MiB + 1 bytes with a valid header, kept symbolic. *)
Definition oversized : list byte :=
  elfMagic ++ replicate (Z.to_nat 104857597) x00.

(** A binary of two full chunks and a rest of 5 bytes. *)
Definition three_chunks : list byte := replicate 1805 x2a.

(** ** Observations on traces and stores

    The vocabulary in which the properties below are stated. *)

(** The delays of the timers set, in order. *)
Definition sleeps (t : list Effect) : list Z :=
  omap (λ e, match e with ESetTimeout ms => Some ms | _ => None end) t.

(** A deployment attempt starts by persisting the record as [deploying]. *)
Definition starts_attempt (loan : string) (e : Effect) : bool :=
  match e with
  | EDbPut key r =>
      bool_decide (key = deployment_key loan) && bool_decide (status r = deploying)
  | _ => false
  end.

Definition attempts_started (loan : string) (t : list Effect) : nat :=
  length (filter (λ e, starts_attempt loan e = true) t).

(** The attempts and the timers of a trace, in the order in which they
    happen. *)
Inductive Mark :=
| Attempt
| Sleep (ms : Z).

Definition mark (loan : string) (e : Effect) : option Mark :=
  match e with
  | EDbPut _ _ => if starts_attempt loan e then Some Attempt else None
  | ESetTimeout ms => Some (Sleep ms)
  | _ => None
  end.

Definition schedule (loan : string) (t : list Effect) : list Mark :=
  omap (mark loan) t.

(** [n] attempts, the first of them being attempt number [attempt], with a
    sleep of [delay * 2^(k-1)] between attempt [k] and the next one. *)
Fixpoint backoff_schedule (delay : Z) (attempt : Z) (n : nat) : list Mark :=
  match n with
  | O => []
  | S n' =>
      Attempt ::
      match n' with
      | O => []
      | S _ => Sleep (delay * 2 ^ (attempt - 1)) :: backoff_schedule delay (attempt + 1) n'
      end
  end.

(** The amounts passed to the "return reclaimed SOL" instruction. *)
Definition returned_amounts (t : list Effect) : list Z :=
  omap (λ e, match e with EReturnReclaimedSol _ amount => Some amount | _ => None end) t.

(** Effects that reach the chain or the binary directory, as opposed to
    writes to the store and timers. *)
Definition outside_effect (e : Effect) : Prop :=
  match e with
  | EDbPut _ _ | ESetTimeout _ => False
  | _ => True
  end.

(** The store that results from performing the writes of a trace. *)
Definition replay (t : list Effect) (m : gmap string DeploymentRecord)
  : gmap string DeploymentRecord :=
  foldl (λ acc e, match e with EDbPut key r => <[key := r]> acc | _ => acc end) m t.

(** The invariant of a record: a [deployed] record names its program and
    carries both deployment signatures; a [recovered] record carries the
    recovery signature. *)
Definition record_ok (r : DeploymentRecord) : Prop :=
  (status r = deployed →
     is_Some (programId r) ∧ is_Some (deployTxSignature r)
     ∧ is_Some (setDeployedTxSignature r))
  ∧ (status r = recovered → is_Some (recoveryTxSignature r)).

Definition store_ok (m : gmap string DeploymentRecord) : Prop :=
  ∀ key r, m !! key = Some r → record_ok r.

(** Every record is filed under the key made from its own [loanId]. *)
Definition store_keyed (m : gmap string DeploymentRecord) : Prop :=
  ∀ key r, m !! key = Some r → key = deployment_key (loanId r).

(** The records of a loan in the store. *)
Definition records_of (loan : string) (m : gmap string DeploymentRecord)
  : gmap string DeploymentRecord :=
  filter (λ kr, loanId kr.2 = loan) m.

(** What a handler working on [loan] may do: write well-formed records of
    that loan under its key, and anything that is not a write. *)
Definition about (loan : string) (e : Effect) : Prop :=
  match e with
  | EDbPut key r => key = deployment_key loan ∧ loanId r = loan ∧ record_ok r
  | _ => True
  end.

(** The loan an event is about. *)
Definition target (ev : Event) : string :=
  match ev with
  | loanRequested event => ev_loanId event
  | loanRecovered loan => loan
  | loanExpired loan => loan
  end.

(** Whether an event sets the orchestrator to work on a record in the
    given state. *)
Definition triggers (ev : Event) (r : DeploymentRecord) : bool :=
  match ev with
  | loanRequested _ => bool_decide (status r = failed)
  | loanRecovered _ | loanExpired _ => bool_decide (status r = deployed)
  end.

Section Trajectory.

Context {W : Type} `{!Platform W}.
Variable config : DeployerConfig.
Variable programDeployer : ProgramDeployer.

(** The state in which the retry loop makes its next attempt after [k]
    attempts that failed, the first of them being attempt number
    [attempts + 1], made in state [st]. *)
Fixpoint after_failures (k : nat) (attempts : Z) (st : DeploymentRecord * Sys W)
  : DeploymentRecord * Sys W :=
  match k with
  | O => st
  | S k' =>
      after_failures k' (attempts + 1)
        (on_sys (sleep (backoff config (attempts + 1)))
                (processDeployment config programDeployer st).2).2
  end.

Definition attempt_fails (st : DeploymentRecord * Sys W) : Prop :=
  ∃ e, (processDeployment config programDeployer st).1 = Throw e.

Definition attempt_succeeds (st : DeploymentRecord * Sys W) : Prop :=
  (processDeployment config programDeployer st).1 = Ok tt.

(** The deployment fails exactly [k] times and then succeeds. *)
Definition fails_then_succeeds (k : nat) (st : DeploymentRecord * Sys W) : Prop :=
  (∀ j, (j < k)%nat → attempt_fails (after_failures j 0 st))
  ∧ attempt_succeeds (after_failures k 0 st).

(** The deployment fails at each of the first [n] attempts. *)
Definition keeps_failing (n : nat) (st : DeploymentRecord * Sys W) : Prop :=
  ∀ j, (j < n)%nat → attempt_fails (after_failures j 0 st).

(** The effects performed between two states of the system all satisfy
    [P], and the store has changed by the writes among them and by nothing
    else. *)
Definition performs (P : Effect → Prop) (s s' : Sys W) : Prop :=
  ∃ t, trace s' = trace s ++ t ∧ Forall P t ∧ db s' = replay t (db s).

(** The effects performed after state [s], up to state [s']. *)
Definition since (s s' : Sys W) : list Effect :=
  drop (length (trace s)) (trace s').

(** The records of a loan among those that [getAllDeployments] lists. *)
Definition deployments_of (loan : string) (s : Sys W) : list DeploymentRecord :=
  match (getAllDeployments s).1 with
  | Ok all => filter (λ r, loanId r = loan) all
  | Throw _ => []
  end.

(** A computation that neither writes to the store nor sets a timer. *)
Definition quiet {A} (m : Prog (Sys W) A) : Prop :=
  ∀ s, performs outside_effect s (m s).2.

Definition is_throw {A} (r : result A) : Prop :=
  match r with
  | Ok _ => False
  | Throw _ => True
  end.

End Trajectory.

(** ** The event monitor: [EventMonitor]

    What the monitor obtains from outside its own code, besides the clock:
    the loan accounts of the lending program, the transactions it fetches
    by signature, the Anchor event parser and the log subscription. *)

(** The enumeration [LoanState]. *)
Definition LoanState_Active : Z := 0.
Definition LoanState_Repaid : Z := 1.
Definition LoanState_Recovered : Z := 2.

(** The fields of a loan account that the monitor reads; [startTs] and
    [duration] are big numbers ([BN]), [loan_state] is the value that the
    code compares with [LoanState.Active]. *)
Record LoanAccount := {
  startTs : Z;
  duration : Z;
  loan_state : Z
}.

(** An event decoded from the logs of a transaction: the two kinds that the
    monitor passes on, with the fields it reads from them, and every other
    kind by its name. *)
Inductive ProgramEvent :=
| LoanRequestedEvent (data : LoanRequested)
| LoanRecoveredEvent (loan : string)
| OtherEvent (name : string).

Class MonitorPlatform (W : Type) := {
  (** [program.account['loan'].fetch(getLoanPda(loanId))]; a failure to
      derive the address counts as a failure of the fetch *)
  account_loan_fetch : string → W → result LoanAccount * W;
  (** [connection.getParsedTransaction(signature, ...)]: nothing when the
      transaction or its [meta] is missing, else [meta.logMessages], which
      may be null *)
  getParsedTransaction : string → W → result (option (option (list string))) * W;
  (** [eventParser.parseLogs(logs)], a generator: the events it yields and
      the error, if any, with which it then stops *)
  parseLogs : list string → list ProgramEvent * option Error;
  (** [connection.onLogs(programId, callback, 'confirmed')] returns the
      number of the subscription *)
  connection_onLogs : W → Z * W;
  connection_removeOnLogsListener : Z → W → result unit * W
}.

(** What the monitor does, in order: its calls to the chain, the timers it
    arms, the events it emits and the gauge it sets. *)
Inductive MonitorEffect :=
| MOnLogs (id : Z)
| MRemoveOnLogsListener (id : Z)
| MSetInterval (ms : Z)
| MFetchLoan (loan : string)
| MGetParsedTransaction (signature : string)
| MEmit (ev : Event)
| MSetActiveLoans (n : Z).

(** The monitor together with the system it watches: its two fields
    [isRunning] and [subscriptionId], and what it has done so far. *)
Record Monitor (W : Type) := {
  sys : Sys W;
  isRunning : bool;
  subscriptionId : option Z;
  journal : list MonitorEffect
}.
Arguments sys {W} m.
Arguments isRunning {W} m.
Arguments subscriptionId {W} m.
Arguments journal {W} m.

(** [bn.toNumber()], which refuses numbers of more than 53 bits. *)
Definition BN_toNumber (z : Z) : result Z :=
  if Z.abs z <? 2 ^ 53 then Ok z
  else Throw {| message := "Number can only safely store up to 53 bits" |}.

(** [hay.includes(needle)]. *)
Fixpoint includes (needle hay : string) : bool :=
  String.prefix needle hay
  || match hay with
     | EmptyString => false
     | String _ rest => includes needle rest
     end.

(** JavaScript truthiness of an optional number: [undefined] and [0] are
    falsy. *)
Definition truthy_number (o : option Z) : bool :=
  match o with
  | Some n => negb (n =? 0)
  | None => false
  end.

Module EventMonitor.
Section Monitor.

Context {W : Type} `{!Platform W} `{!MonitorPlatform W}.
Variable pollIntervalMs : Z.

(** A method of the state manager or the clock, used by the monitor. *)
Definition in_sys {A} (m : Prog (Sys W) A) : Prog (Monitor W) A :=
  λ mon, let r := m (sys mon) in
         (r.1, {| sys := r.2; isRunning := isRunning mon;
                  subscriptionId := subscriptionId mon; journal := journal mon |}).

(** A call of the monitor to the chain. *)
Definition rpc {A} (e : MonitorEffect) (op : W → result A * W) : Prog (Monitor W) A :=
  λ mon, let r := op (world (sys mon)) in
         (r.1, {| sys := {| db := db (sys mon); files := files (sys mon);
                            world := r.2; trace := trace (sys mon) |};
                  isRunning := isRunning mon; subscriptionId := subscriptionId mon;
                  journal := journal mon ++ [e] |}).

Definition note (e : MonitorEffect) : Prog (Monitor W) unit :=
  λ mon, (Ok tt, {| sys := sys mon; isRunning := isRunning mon;
                    subscriptionId := subscriptionId mon;
                    journal := journal mon ++ [e] |}).

(** [this.emit(name, payload)]. *)
Definition emit (ev : Event) : Prog (Monitor W) unit := note (MEmit ev).

Definition start : Prog (Monitor W) unit :=
  λ mon,
    if isRunning mon then (Ok tt, mon)
    else
      let r := connection_onLogs (world (sys mon)) in
      (Ok tt, {| sys := {| db := db (sys mon); files := files (sys mon);
                           world := r.2; trace := trace (sys mon) |};
                 isRunning := true;
                 subscriptionId := Some r.1;
                 journal := journal mon ++ [MOnLogs r.1; MSetInterval pollIntervalMs] |}).

Definition stop : Prog (Monitor W) unit :=
  λ mon,
    let mon1 := {| sys := sys mon; isRunning := false;
                   subscriptionId := subscriptionId mon; journal := journal mon |} in
    if truthy_number (subscriptionId mon1) then
      rpc (MRemoveOnLogsListener (default 0 (subscriptionId mon1)))
          (connection_removeOnLogsListener (default 0 (subscriptionId mon1))) mon1
    else (Ok tt, mon1).

(** The loop [for (const event of events)] of the monitor's
    [handleLoanRequested]. *)
Fixpoint emitLoanRequested (events : list ProgramEvent) : Prog (Monitor W) unit :=
  match events with
  | [] => mret tt
  | event :: rest =>
      match event with
      | LoanRequestedEvent data => emit (loanRequested data)
      | _ => mret tt
      end;;
      emitLoanRequested rest
  end.

Fixpoint emitLoanRecovered (events : list ProgramEvent) : Prog (Monitor W) unit :=
  match events with
  | [] => mret tt
  | event :: rest =>
      match event with
      | LoanRecoveredEvent loan => emit (loanRecovered loan)
      | _ => mret tt
      end;;
      emitLoanRecovered rest
  end.

(** Iterating over what the parser yields: the loop body sees the events
    yielded, then the parser's error, if any, is thrown. *)
Definition for_parsed (logMessages : list string)
    (body : list ProgramEvent → Prog (Monitor W) unit) : Prog (Monitor W) unit :=
  let events := parseLogs logMessages in
  body events.1;;
  match events.2 with
  | Some e => throw e
  | None => mret tt
  end.

Definition handleLoanRequested (signature : string) : Prog (Monitor W) unit :=
  try_catch
    (tx ← rpc (MGetParsedTransaction signature) (getParsedTransaction signature);
     match tx with
     | None => mret tt
     | Some logMessages =>
         try_catch (for_parsed (default [] logMessages) emitLoanRequested)
                   (λ _, mret tt)
     end)
    (λ _, mret tt).

Definition handleLoanRecovered (signature : string) : Prog (Monitor W) unit :=
  try_catch
    (tx ← rpc (MGetParsedTransaction signature) (getParsedTransaction signature);
     match tx with
     | None => mret tt
     | Some logMessages =>
         try_catch (for_parsed (default [] logMessages) emitLoanRecovered)
                   (λ _, mret tt)
     end)
    (λ _, mret tt).

Fixpoint processLogs (signature : string) (logMessages : list string)
  : Prog (Monitor W) unit :=
  match logMessages with
  | [] => mret tt
  | log :: rest =>
      (if includes "Program log: LoanRequested" log then handleLoanRequested signature
       else if includes "Program log: LoanRecovered" log then handleLoanRecovered signature
       else mret tt);;
      processLogs signature rest
  end.

(** The callback that [start] hands to [onLogs]. *)
Definition onLogsCallback (signature : string) (logMessages : list string)
  : Prog (Monitor W) unit :=
  try_catch (processLogs signature logMessages) (λ _, mret tt).

(** The body of the loop of [checkExpiredLoans], with its [try]. *)
Definition checkLoan (deployment : DeploymentRecord) : Prog (Monitor W) unit :=
  try_catch
    (loan ← rpc (MFetchLoan (loanId deployment)) (account_loan_fetch (loanId deployment));
     ms ← in_sys (ask Date_now);
     let now := (inject_Z ms / 1000)%Q in
     startNumber ← (λ mon, (BN_toNumber (startTs loan), mon));
     durationNumber ← (λ mon, (BN_toNumber (duration loan), mon));
     let expiry := startNumber + durationNumber in
     if Qle_bool (inject_Z expiry) now && (loan_state loan =? LoanState_Active)
     then emit (loanExpired (loanId deployment))
     else mret tt)
    (λ _, mret tt).

Fixpoint checkLoans (activeLoans : list DeploymentRecord) : Prog (Monitor W) unit :=
  match activeLoans with
  | [] => mret tt
  | deployment :: rest => checkLoan deployment;; checkLoans rest
  end.

Definition checkExpiredLoans : Prog (Monitor W) unit :=
  deployments ← in_sys getAllDeployments;
  let activeLoans := filter (λ d, status d = deployed) deployments in
  checkLoans activeLoans;;
  note (MSetActiveLoans (Z.of_nat (length activeLoans))).

(** The function that [startPolling] hands to [setInterval]. *)
Definition pollingCycle : Prog (Monitor W) unit :=
  λ mon,
    if negb (isRunning mon) then (Ok tt, mon)
    else try_catch checkExpiredLoans (λ _, mret tt) mon.

End Monitor.
End EventMonitor.

(** ** The health server: [HealthServer]

    The answers of the two routes that read the store: the status code and
    the fields of the JSON body ([timestamp] as the clock reading in
    milliseconds instead of its ISO text). *)

Inductive Response :=
| Health (activeLoans totalDeployments timestamp : Z)
| Unhealthy (error : string)
| DeploymentFound (record : DeploymentRecord)
| DeploymentNotFound (error : string)
| DeploymentError (error : string).

Definition status_code (r : Response) : Z :=
  match r with
  | Health _ _ _ | DeploymentFound _ => 200
  | DeploymentNotFound _ => 404
  | Unhealthy _ | DeploymentError _ => 500
  end.

Section Routes.

Context {W : Type} `{!Platform W}.

(** [GET /health]. *)
Definition route_health : Prog (Sys W) Response :=
  try_catch
    (deployments ← getAllDeployments;
     let activeCount := length (filter (λ d, status d = deployed) deployments) in
     timestamp ← ask Date_now;
     mret (Health (Z.of_nat activeCount) (Z.of_nat (length deployments)) timestamp))
    (λ e, mret (Unhealthy (String_of_Error e))).

(** [GET /deployments/:loanId]. *)
Definition route_deployment (loan : string) : Prog (Sys W) Response :=
  try_catch
    (deployment ← getDeployment loan;
     match deployment with
     | None => mret (DeploymentNotFound "Deployment not found")
     | Some record => mret (DeploymentFound record)
     end)
    (λ e, mret (DeploymentError (String_of_Error e))).

End Routes.

(** ** The monitor wired to the orchestrator *)

(** The events emitted, in order. *)
Definition emitted (j : list MonitorEffect) : list Event :=
  omap (λ e, match e with MEmit ev => Some ev | _ => None end) j.

Definition fetched_loans (j : list MonitorEffect) : list string :=
  omap (λ e, match e with MFetchLoan loan => Some loan | _ => None end) j.

Definition fetched_transactions (j : list MonitorEffect) : list string :=
  omap (λ e, match e with MGetParsedTransaction signature => Some signature | _ => None end) j.

Definition intervals (j : list MonitorEffect) : list Z :=
  omap (λ e, match e with MSetInterval ms => Some ms | _ => None end) j.

Definition subscribed (j : list MonitorEffect) : list Z :=
  omap (λ e, match e with MOnLogs id => Some id | _ => None end) j.

Definition unsubscribed (j : list MonitorEffect) : list Z :=
  omap (λ e, match e with MRemoveOnLogsListener id => Some id | _ => None end) j.

(** What the monitor did after [mon], up to [mon']. *)
Definition journal_since {W} (mon mon' : Monitor W) : list MonitorEffect :=
  drop (length (journal mon)) (journal mon').

(** The lines of a log notification that make [processLogs] fetch the
    transaction. *)
Definition marker_line (log : string) : bool :=
  includes "Program log: LoanRequested" log || includes "Program log: LoanRecovered" log.

Definition requested_of (event : ProgramEvent) : option Event :=
  match event with
  | LoanRequestedEvent data => Some (loanRequested data)
  | _ => None
  end.

Definition recovered_of (event : ProgramEvent) : option Event :=
  match event with
  | LoanRecoveredEvent loan => Some (loanRecovered loan)
  | _ => None
  end.

Section Wiring.

Context {W : Type} `{!Platform W} `{!MonitorPlatform W}.
Variable config : DeployerConfig.
Variable programDeployer : ProgramDeployer.

(** The orchestrator's handlers run on the events that the monitor emitted
    between [mon] and [mon'], one after the other. *)
Definition deliver (mon mon' : Monitor W) : Monitor W :=
  {| sys := run config programDeployer (emitted (journal_since mon mon')) (sys mon');
     isRunning := isRunning mon';
     subscriptionId := subscriptionId mon';
     journal := journal mon' |}.

(** One sweep for expired loans, and the handling of what it reports. *)
Definition sweep (mon : Monitor W) : Monitor W :=
  deliver mon (EventMonitor.checkExpiredLoans mon).2.

End Wiring.

(** ** Further observations on traces *)

(** The statuses with which records are written, in order. *)
Definition written_statuses (t : list Effect) : list Status :=
  omap (λ e, match e with EDbPut _ r => Some (status r) | _ => None end) t.

(** Effects that change the chain: transactions and program method calls. *)
Definition chain_write (e : Effect) : Prop :=
  match e with
  | ESendTransaction _ _ | ESetDeployedProgram _ _ | EReturnReclaimedSol _ _ => True
  | _ => False
  end.

(** The histories of statuses that the handling of one event can write. *)
Definition deployment_history (h : list Status) : Prop :=
  h = []
  ∨ h = [pending]
  ∨ ∃ n : nat, (1 <= n)%nat
       ∧ (h = pending :: replicate n deploying ++ [deployed]
          ∨ h = pending :: replicate n deploying ++ [failed]).

Definition recovery_history (h : list Status) : Prop :=
  h = [] ∨ h = [recovering] ∨ h = [recovering; recovered] ∨ h = [recovering; failed].


(** The number of 900-byte chunks of a binary. *)
Definition chunks_of (data : list byte) : nat :=
  Z.to_nat ((buf_length data + 899) / 900).

(** A write to the record of a loan. *)
Definition writes_to (loan : string) (e : Effect) : Prop :=
  match e with
  | EDbPut key _ => key = deployment_key loan
  | _ => False
  end.

(** The record that a successful attempt on [d] persists. *)
Definition deployed_record (d : DeploymentRecord) (now now' : Z)
    (hash : string) (programKey bufferKey : PublicKey) (signature setTx : string)
  : DeploymentRecord :=
  set_updatedAt now'
    (set_status deployed
       (set_setDeployedTxSignature setTx
          (set_deployTxSignature signature
             (set_bufferAccount (toBase58 bufferKey)
                (set_programId (toBase58 programKey)
                   (set_binaryHash hash
                      (set_updatedAt now (set_status deploying d)))))))).


(** Effects that stay on the machine of the service: writes to the store,
    timers, and reads of the binary directory. *)
Definition local_effect (e : Effect) : Prop :=
  match e with
  | EDbPut _ _ | ESetTimeout _ | EReadFile _ => True
  | _ => False
  end.

(** The test program is missing, or it is there and fails validation;
    [text] is the message of the error that the attempt then throws. *)
Definition unusable_binary (file : option (list byte)) (text : string) : Prop :=
  match file with
  | None => text = "Binary not found for loan. Implement binary retrieval logic."
  | Some binaryData =>
      ∃ why, validateBinary binaryData = {| valid := false; reason := Some why |}
             ∧ text = "Binary validation failed: " +:+ why
  end.

(** The record as [processRecovery] first writes it, and the system as
    that write leaves it. *)
Definition recovering_record {W} `{!Platform W} (d : DeploymentRecord) (s : Sys W)
  : DeploymentRecord :=
  set_updatedAt (Date_now (world s)).1 (set_status recovering d).

Definition recovery_entered {W} `{!Platform W} (d : DeploymentRecord) (s : Sys W) : Sys W :=
  {| db := <[deployment_key (loanId d) := recovering_record d s]> (db s);
     files := files s;
     world := (Date_now (world s)).2;
     trace := trace s ++ [EDbPut (deployment_key (loanId d)) (recovering_record d s)] |}.

(** The events that ask for the recovery of a loan. *)
Definition recovery_event (loan : string) (ev : Event) : Prop :=
  ev = loanRecovered loan ∨ ev = loanExpired loan.

(** The transaction with which [closeProgram] closes a program whose data
    account is [programData]. *)
Definition closeTransaction (programDeployer : ProgramDeployer)
    (programData program : PublicKey) : list Instruction :=
  [LoaderInstruction
     (createCloseAccountInstruction programData (deployerPda programDeployer)
        (authorityPda programDeployer) (Some program))].

(** The accounts that an instruction marks as signers.  (The SDK's
    [SystemProgram.createAccount] marks both the funding account and the
    new account; its compute-budget instruction has no accounts.) *)
Definition required_signers (ix : Instruction) : list PublicKey :=
  match ix with
  | LoaderInstruction i => pubkey <$> filter (λ k, isSigner k = true) (keys i)
  | SystemProgram_createAccount fromPubkey newAccountPubkey _ _ _ =>
      [fromPubkey; newAccountPubkey]
  | ComputeBudgetProgram_setComputeUnitLimit _ => []
  end.

(** Every account that an instruction of [tx] marks as signer is among
    [signers]. *)
Definition signers_cover (tx : list Instruction) (signers : list PublicKey) : Prop :=
  ∀ ix pk, ix ∈ tx → pk ∈ required_signers ix → pk ∈ signers.

(** A platform that verifies signatures before it submits a transaction,
    as the SDK's [sendAndConfirmTransaction] does: a transaction that
    marks an account as signer without having its signature is thrown
    back. *)
Definition checks_signatures (W : Type) `{!Platform W} : Prop :=
  ∀ (tx : list Instruction) (signers : list PublicKey) (w : W),
    ¬ signers_cover tx signers → is_throw (sendAndConfirmTransaction tx signers w).1.

(** [signers_cover], computed. *)
Definition signed_by_all (tx : list Instruction) (signers : list PublicKey) : bool :=
  forallb (λ ix, forallb (λ pk, bool_decide (pk ∈ signers)) (required_signers ix)) tx.

(** The lamports that recovery passes on when the balance it read is
    [balance]: [new BN(balance / LAMPORTS_PER_SOL * LAMPORTS_PER_SOL)]. *)
Definition lamports_passed (balance : Z) : result Z :=
  BN_of_number
    (Number_mul (Number_div (Number_of_Z balance) (Number_of_Z LAMPORTS_PER_SOL))
                (Number_of_Z LAMPORTS_PER_SOL)).

(** The length field of a deploy instruction, read back. *)
Definition ix_dataLen (ix : TransactionInstruction) : Z :=
  uint32_of_le (drop 1 (ix_data ix)).

(** The records that [getAllDeployments] lists in a state, and those of
    them that are [deployed]. *)
Definition listed_records {W} `{!Platform W} (s : Sys W) : list DeploymentRecord :=
  match (getAllDeployments s).1 with
  | Ok all => all
  | Throw _ => []
  end.

Definition deployed_records {W} `{!Platform W} (s : Sys W) : list DeploymentRecord :=
  filter (λ d, status d = deployed) (listed_records s).

(** The monitor has only watched between [mon] and [mon']: the store, the
    binary directory, the trace of the service and the monitor's own fields
    are as before, and its journal has grown by [j]. *)
Definition watched {W} (mon mon' : Monitor W) (j : list MonitorEffect) : Prop :=
  db (sys mon') = db (sys mon)
  ∧ files (sys mon') = files (sys mon)
  ∧ trace (sys mon') = trace (sys mon)
  ∧ isRunning mon' = isRunning mon
  ∧ subscriptionId mon' = subscriptionId mon
  ∧ journal mon' = journal mon ++ j.

(** The condition under which [checkExpiredLoans] reports a loan, given
    the loan account and the clock reading in milliseconds. *)
Definition expired (loan : LoanAccount) (ms : Z) : Prop :=
  Z.abs (startTs loan) < 2 ^ 53
  ∧ Z.abs (duration loan) < 2 ^ 53
  ∧ loan_state loan = LoanState_Active
  ∧ 1000 * (startTs loan + duration loan) <= ms.

(** The events that the monitor takes from transaction logs. *)
Definition from_logs (ev : Event) : Prop :=
  match ev with
  | loanRequested _ | loanRecovered _ => True
  | loanExpired _ => False
  end.

(** The monitor after it has done [j] more. *)
Definition journal_add {W} (mon : Monitor W) (j : list MonitorEffect) : Monitor W :=
  {| sys := sys mon; isRunning := isRunning mon; subscriptionId := subscriptionId mon;
     journal := journal mon ++ j |}.

(** What the monitor's [handleLoanRequested] and [handleLoanRecovered]
    emit for a transaction, given what fetching it returned: the events of
    the kind [pick] selects among those that the parser yields. *)
Definition picked_events {W} `{!MonitorPlatform W} (pick : ProgramEvent → option Event)
    (tx : result (option (option (list string)))) : list Event :=
  match tx with
  | Ok (Some logMessages) => omap pick (parseLogs (default [] logMessages)).1
  | _ => []
  end.

(** The binary directory that results from performing the file writes of
    a trace. *)
Definition replay_files (t : list Effect) (m : gmap string (list byte))
  : gmap string (list byte) :=
  foldl (λ acc e, match e with EWriteFile path data => <[path := data]> acc | _ => acc end)
        m t.

Definition no_file_write (e : Effect) : Prop :=
  match e with
  | EWriteFile _ _ => False
  | _ => True
  end.

(** A file write that stores a binary which passes validation under the
    name made from a loan and the digest of the binary. *)
Definition stores_validated {W} `{!Platform W} (config : DeployerConfig) (e : Effect) : Prop :=
  match e with
  | EWriteFile path data =>
      valid (validateBinary data) = true
      ∧ ∃ loan, path = binary_path config loan (sha256_hex data)
  | _ => True
  end.

(** A computation over a state that holds the system: its effects all
    satisfy [P], and the binary directory has changed by the file writes
    among them and by nothing else. *)
Definition tidy {W S A} (proj : S → Sys W) (P : Effect → Prop) (m : Prog S A) : Prop :=
  ∀ st, ∃ t, trace (proj (m st).2) = trace (proj st) ++ t
             ∧ files (proj (m st).2) = replay_files t (files (proj st))
             ∧ Forall P t.

(** A system with the record of a loan removed from the store. *)
Definition without_record {W} (loan : string) (s : Sys W) : Sys W :=
  {| db := delete (deployment_key loan) (db s); files := files s;
     world := world s; trace := trace s |}.

(** The record as a deployment attempt first writes it, and the system as
    the attempt leaves it once it has stored the binary it found. *)
Definition deploying_record {W} `{!Platform W} (d : DeploymentRecord) (s : Sys W)
  : DeploymentRecord :=
  set_updatedAt (Date_now (world s)).1 (set_status deploying d).

Definition binary_stored {W} `{!Platform W} (config : DeployerConfig)
    (d : DeploymentRecord) (s : Sys W) (binaryData : list byte) : Sys W :=
  let key := deployment_key (loanId d) in
  let source := path_join (binaryStoragePath config) "test-program.so" in
  let target := binary_path config (loanId d) (sha256_hex binaryData) in
  {| db := <[key := deploying_record d s]> (db s);
     files := <[target := binaryData]> (files s);
     world := (Date_now (world s)).2;
     trace := trace s ++ [EDbPut key (deploying_record d s); EReadFile source;
                          EWriteFile target binaryData] |}.

(** The object of an attempt after the deployment transaction was
    confirmed. *)
Definition program_deployed {W} `{!Platform W} (d : DeploymentRecord) (s : Sys W)
    (hash : string) (programKey bufferKey : PublicKey) (signature : string)
  : DeploymentRecord :=
  set_deployTxSignature signature
    (set_bufferAccount (toBase58 bufferKey)
       (set_programId (toBase58 programKey)
          (set_binaryHash hash (deploying_record d s)))).

(** ** A simulated platform for the monitor

    The simulated chain of above, together with the loan accounts of the
    lending program, the transactions that can be fetched by signature
    (their log messages), and a counter of log subscriptions, which are
    numbered from 0. *)

Record MonitorWorld := {
  chain : SimWorld;
  subscriptions : Z;
  loan_accounts : gmap string LoanAccount;
  confirmed : gmap string (list string)
}.

Definition on_chain {A} (op : SimWorld → A * SimWorld) (w : MonitorWorld)
  : A * MonitorWorld :=
  let r := op (chain w) in
  (r.1, {| chain := r.2; subscriptions := subscriptions w;
           loan_accounts := loan_accounts w; confirmed := confirmed w |}).

#[global] Instance MonitorWorld_Platform : Platform MonitorWorld := {|
  Date_now := on_chain Date_now;
  Keypair_generate := on_chain Keypair_generate;
  getBalance pk := on_chain (getBalance pk);
  getMinimumBalanceForRentExemption size := on_chain (getMinimumBalanceForRentExemption size);
  getAccountInfo pk := on_chain (getAccountInfo pk);
  sendAndConfirmTransaction tx signers := on_chain (sendAndConfirmTransaction tx signers);
  methods_setDeployedProgram loan program := on_chain (methods_setDeployedProgram loan program);
  methods_returnReclaimedSol loan amount := on_chain (methods_returnReclaimedSol loan amount);
  sha256_hex := sha256_hex (W := SimWorld);
  path_join := path_join (W := SimWorld);
  PublicKey_of_string := PublicKey_of_string (W := SimWorld);
  PublicKey_of_bytes := PublicKey_of_bytes (W := SimWorld)
|}.

(** The simulated parser decodes the lines that start with
    ["Program data: "]: a request or a recovery of the loan whose number
    follows the kind. *)
Definition sim_parse (log : string) : option ProgramEvent :=
  if String.prefix "Program data: LoanRequested " log then
    Some (LoanRequestedEvent
            {| ev_loanId := String.substring 28 (String.length log - 28) log;
               ev_borrower := "Bxyz"; ev_principal := "5000000000" |})
  else if String.prefix "Program data: LoanRecovered " log then
    Some (LoanRecoveredEvent (String.substring 28 (String.length log - 28) log))
  else if String.prefix "Program data: " log then
    Some (OtherEvent (String.substring 14 (String.length log - 14) log))
  else None.

#[global] Instance MonitorWorld_MonitorPlatform : MonitorPlatform MonitorWorld := {|
  account_loan_fetch loan w :=
    (match loan_accounts w !! loan with
     | Some account => Ok account
     | None => Throw {| message := "Account does not exist or has no data" |}
     end, w);
  getParsedTransaction signature w :=
    (Ok (logMessages ← confirmed w !! signature; Some (Some logMessages)), w);
  parseLogs logMessages := (omap sim_parse logMessages, None);
  connection_onLogs w :=
    (subscriptions w,
     {| chain := chain w; subscriptions := subscriptions w + 1;
        loan_accounts := loan_accounts w; confirmed := confirmed w |});
  connection_removeOnLogsListener id w := (Ok tt, w)
|}.

(** The log messages of the transaction that requested loan 42. *)
Definition request42_logs : list string :=
  [ "Program SoLigNiTiOn invoke [1]";
    "Program log: Instruction: RequestLoan";
    "Program log: LoanRequested";
    "Program data: LoanRequested 42";
    "Program SoLigNiTiOn success" ].

(** A system on the monitor's platform: the test program is in the binary
    directory; loan 42 started at second 1,699,990,000 and runs for 3600
    seconds, so it has expired when the clock starts, at millisecond
    1,700,000,000,000; loan 8 runs for a year. *)
Definition watch_start : Sys MonitorWorld :=
  {| db := ∅;
     files := {[ "./binaries/test-program.so" := sim_binary ]};
     world := {| chain := world (sim_start 0 0);
                 subscriptions := 0;
                 loan_accounts :=
                   {[ "42" := {| startTs := 1699990000; duration := 3600;
                                 loan_state := LoanState_Active |};
                      "8" := {| startTs := 1699990000; duration := 31536000;
                                loan_state := LoanState_Active |} ]};
                 confirmed := {[ "signature-request-42" := request42_logs ]} |};
     trace := [] |}.

Definition loan8 : LoanRequested :=
  {| ev_loanId := "8"; ev_borrower := "Bxyz"; ev_principal := "1000000000" |}.

(** Loans 42 and 8 have been deployed. *)
Definition watch_deployed : Sys MonitorWorld :=
  run (sim_config 3) sim_deployer [loanRequested loan42; loanRequested loan8] watch_start.

Definition sim_monitor (s : Sys MonitorWorld) : Monitor MonitorWorld :=
  {| sys := s; isRunning := false; subscriptionId := None; journal := [] |}.

(** A system whose test program is not a program. *)
Definition sim_bad_binary : Sys SimWorld :=
  {| db := ∅;
     files := {[ "./binaries/test-program.so" := [x23; x21; x2f; x62; x69; x6e] ]};
     world := world (sim_start 0 0);
     trace := [] |}.

(** The record of a loan in a state (the fresh record of loan 42 if there
    is none). *)
Definition record_of {W} (loan : string) (s : Sys W) : DeploymentRecord :=
  default pending42 (db s !! deployment_key loan).


(** Loan 42 after its deployment failed for want of a usable binary. *)
Definition sim_failed : Sys SimWorld :=
  (handleLoanRequested (sim_config 3) sim_deployer loan42 sim_bad_binary).2.

(** Loan 42 is on record as deployed, and its program has vanished from
    the chain. *)
Definition sim_vanished : Sys SimWorld :=
  {| db := db (sim_deployed 0);
     files := files (sim_deployed 0);
     world := {| clock := clock (world (sim_deployed 0));
                 keys_made := keys_made (world (sim_deployed 0));
                 lamports := lamports (world (sim_deployed 0));
                 programs := ∅;
                 tx_failures := 0;
                 tx_sent := tx_sent (world (sim_deployed 0)) |};
     trace := trace (sim_deployed 0) |}.

(** A binary of six bytes; its buffer is funded with 7,892,640 lamports. *)
Definition sim_short_binary : list byte := [x7f; x45; x4c; x46; x02; x01].

(** The system after loan 42 has been deployed with that binary, the
    intermediary address being empty. *)
Definition sim_deployed_short : Sys SimWorld :=
  (handleLoanRequested (sim_config 3) sim_deployer loan42
     {| db := ∅;
        files := {[ "./binaries/test-program.so" := sim_short_binary ]};
        world := world (sim_start 0 0);
        trace := [] |}).2.

(** *** A platform that verifies signatures

    The simulated platform submits every transaction it is given.  The
    platform below behaves like it, except that its
    [sendAndConfirmTransaction] verifies first, as the SDK does, that
    every account marked as signer has signed. *)
Record StrictWorld := { lenient : SimWorld }.

Definition strictly {A} (op : SimWorld → A * SimWorld) (w : StrictWorld)
  : A * StrictWorld :=
  let r := op (lenient w) in (r.1, {| lenient := r.2 |}).

#[global] Instance StrictPlatform : Platform StrictWorld := {|
  Date_now := strictly Date_now;
  Keypair_generate := strictly Keypair_generate;
  getBalance pk := strictly (getBalance pk);
  getMinimumBalanceForRentExemption size := strictly (getMinimumBalanceForRentExemption size);
  getAccountInfo pk := strictly (getAccountInfo pk);
  sendAndConfirmTransaction tx signers w :=
    if signed_by_all tx signers then strictly (sim_send tx signers) w
    else (Throw {| message := "Signature verification failed" |}, w);
  methods_setDeployedProgram loan program := strictly (methods_setDeployedProgram loan program);
  methods_returnReclaimedSol loan amount := strictly (methods_returnReclaimedSol loan amount);
  sha256_hex := sha256_hex (W := SimWorld);
  path_join := path_join (W := SimWorld);
  PublicKey_of_string := PublicKey_of_string (W := SimWorld);
  PublicKey_of_bytes := PublicKey_of_bytes (W := SimWorld)
|}.

(** A system of the simulated platform, on the platform that verifies
    signatures. *)
Definition strict (s : Sys SimWorld) : Sys StrictWorld :=
  {| db := db s; files := files s; world := {| lenient := world s |}; trace := trace s |}.

(** ** Asynchronous execution

    A [Prog] runs a method from its call to its return.  In the service
    every method is [async]: it runs until it awaits an operation of the
    store, the binary directory, the chain or a timer, and goes on when
    that operation has completed; in between, other handlers run.  A
    [Task] is a method in that form: it has settled with a result, or it
    has code to run at once ([Sync]), or it is suspended at an [await]
    ([Awaiting]).  In both cases [effect] is what the step does to the
    state and [next] is what remains to be done, given the state in which
    the step was taken.

    An awaited operation takes effect when the task is resumed, as one
    step, and the code that follows it up to the next [await] runs along
    with it.  Every operation of the outside is one step, also
    [sendAndConfirmTransaction], which sends and then waits.  An [await]
    of a value that is at hand, as the result of [validateBinary] is, is
    no suspension. *)
Inductive Task (S A : Type) : Type :=
| Settled (r : result A)
| Sync (next : S → Task S A) (effect : S → S)
| Awaiting (next : S → Task S A) (effect : S → S).
Arguments Settled {S A} r.
Arguments Sync {S A} next effect.
Arguments Awaiting {S A} next effect.

(** [await op], for an operation [op] of the outside. *)
Definition await {S A} (op : Prog S A) : Task S A :=
  Awaiting (λ s, Settled (op s).1) (λ s, (op s).2).

(** Code that runs without suspension. *)
Definition sync {S A} (op : Prog S A) : Task S A :=
  Sync (λ s, Settled (op s).1) (λ s, (op s).2).

Fixpoint task_bind {S A B} (f : A → Task S B) (m : Task S A) : Task S B :=
  match m with
  | Settled (Ok a) => f a
  | Settled (Throw e) => Settled (Throw e)
  | Sync next effect => Sync (λ s, task_bind f (next s)) effect
  | Awaiting next effect => Awaiting (λ s, task_bind f (next s)) effect
  end.

#[global] Instance Task_ret {S} : MRet (Task S) := λ A a, Settled (Ok a).
#[global] Instance Task_bind {S} : MBind (Task S) := @task_bind S.

Definition task_throw {S A} (e : Error) : Task S A := Settled (Throw e).

Fixpoint task_try_catch {S A} (m : Task S A) (h : Error → Task S A) : Task S A :=
  match m with
  | Settled (Ok a) => Settled (Ok a)
  | Settled (Throw e) => h e
  | Sync next effect => Sync (λ s, task_try_catch (next s) h) effect
  | Awaiting next effect => Awaiting (λ s, task_try_catch (next s) h) effect
  end.

(** A task run to its end without giving way to any other. *)
Fixpoint finish {S A} (t : Task S A) (s : S) : result A * S :=
  match t with
  | Settled r => (r, s)
  | Sync next effect => finish (next s) (effect s)
  | Awaiting next effect => finish (next s) (effect s)
  end.

(** A task run up to its next [await]. *)
Fixpoint settle {S A} (t : Task S A) (s : S) : Task S A * S :=
  match t with
  | Sync next effect => settle (next s) (effect s)
  | _ => (t, s)
  end.

(** A task of the service, called from a method that holds a [deployment]
    object; and a method called on the local object [d]. *)
Fixpoint task_on_sys {W A} (t : Task (Sys W) A) : Task (DeploymentRecord * Sys W) A :=
  match t with
  | Settled r => Settled r
  | Sync next effect => Sync (λ st, task_on_sys (next st.2)) (λ st, (st.1, effect st.2))
  | Awaiting next effect =>
      Awaiting (λ st, task_on_sys (next st.2)) (λ st, (st.1, effect st.2))
  end.

Fixpoint task_with_object {W A} (d : DeploymentRecord)
    (t : Task (DeploymentRecord * Sys W) A) : Task (Sys W) A :=
  match t with
  | Settled r => Settled r
  | Sync next effect =>
      Sync (λ s, task_with_object (effect (d, s)).1 (next (d, s))) (λ s, (effect (d, s)).2)
  | Awaiting next effect =>
      Awaiting (λ s, task_with_object (effect (d, s)).1 (next (d, s)))
               (λ s, (effect (d, s)).2)
  end.

(** *** The methods of the service as tasks

    The same methods as above, with their suspension points: every call
    of the store, the binary directory, the chain and the timer is
    awaited, as in the source; reading the clock, generating a key and
    assigning to the [deployment] object are not. *)
Module Async.
Section Methods.

Context {W : Type} `{!Platform W}.
Variable config : DeployerConfig.
Variable programDeployer : ProgramDeployer.

Definition storeBinary (loan : string) (binaryData : list byte) : Task (Sys W) string :=
  let hash := sha256_hex binaryData in
  let filePath := binary_path config loan hash in
  await (fs_writeFile filePath binaryData);;
  mret hash.

Definition deployProgram (loan : string) (binaryData : list byte)
  : Task (Sys W) (PublicKey * PublicKey * string) :=
  deployerBalance ← await (call (EGetBalance (deployerPda programDeployer))
                                (getBalance (deployerPda programDeployer)));
  bufferKeypair ← sync (ask Keypair_generate);
  programKeypair ← sync (ask Keypair_generate);
  let programAccountSize := buf_length binaryData + 1000 in
  rentExemption ← await (call (EGetMinimumBalanceForRentExemption programAccountSize)
                              (getMinimumBalanceForRentExemption programAccountSize));
  let tx := deployTransaction programDeployer bufferKeypair programKeypair rentExemption
              binaryData in
  let signers := [deployerWallet programDeployer; bufferKeypair; programKeypair] in
  signature ← await (call (ESendTransaction tx signers) (sendAndConfirmTransaction tx signers));
  mret (programKeypair, bufferKeypair, signature).

Definition setDeployedProgram (loan : string) (programPubkey : PublicKey)
  : Task (Sys W) string :=
  match adminWallet programDeployer with
  | None => task_throw {| message := "Admin wallet not configured for set_deployed_program" |}
  | Some _ =>
      await (call (ESetDeployedProgram loan programPubkey)
                  (methods_setDeployedProgram loan programPubkey))
  end.

Definition closeProgram (loan : string) (program : PublicKey)
  : Task (Sys W) (number * string) :=
  programAccountInfo ← await (call (EGetAccountInfo program) (getAccountInfo program));
  match programAccountInfo with
  | None => task_throw {| message := "Program account not found" |}
  | Some info =>
      programDataAddress ←
        sync (λ s, (PublicKey_of_bytes (subarray (account_data info) 4 36), s));
      let closeIx :=
        createCloseAccountInstruction programDataAddress (deployerPda programDeployer)
          (authorityPda programDeployer) (Some program) in
      let tx := [LoaderInstruction closeIx] in
      let signers := [deployerWallet programDeployer] in
      signature ← await (call (ESendTransaction tx signers)
                              (sendAndConfirmTransaction tx signers));
      afterBalance ← await (call (EGetBalance (deployerPda programDeployer))
                                 (getBalance (deployerPda programDeployer)));
      mret (Number_div (Number_of_Z afterBalance) (Number_of_Z LAMPORTS_PER_SOL), signature)
  end.

Definition returnReclaimedSol (loan : string) (amount : number) : Task (Sys W) string :=
  amountLamports ←
    sync (λ s, (BN_of_number (Number_mul amount (Number_of_Z LAMPORTS_PER_SOL)), s));
  await (call (EReturnReclaimedSol loan amountLamports)
              (methods_returnReclaimedSol loan amountLamports)).

Definition fetchBinaryForLoan (loan who : string) : Task (Sys W) (list byte) :=
  let dummyBinaryPath := path_join (binaryStoragePath config) "test-program.so" in
  task_try_catch (await (fs_readFile dummyBinaryPath))
    (λ _, task_throw
            {| message := "Binary not found for loan. Implement binary retrieval logic." |}).

Definition processDeployment : Task (DeploymentRecord * Sys W) unit :=
  deployment ← sync this_deployment;
  let loan := loanId deployment in
  let who := borrower deployment in
  sync (assign (set_status deploying));;
  now ← sync (on_sys (ask Date_now));
  sync (assign (set_updatedAt now));;
  await save_this;;
  binaryData ← task_on_sys (fetchBinaryForLoan loan who);
  let validation := validateBinary binaryData in
  if negb (valid validation) then
    task_throw {| message := "Binary validation failed: "
                             +:+ default "undefined" (reason validation) |}
  else
    hash ← task_on_sys (storeBinary loan binaryData);
    sync (assign (set_binaryHash hash));;
    '(programKey, bufferKey, signature) ← task_on_sys (deployProgram loan binaryData);
    sync (assign (set_programId (toBase58 programKey)));;
    sync (assign (set_bufferAccount (toBase58 bufferKey)));;
    sync (assign (set_deployTxSignature signature));;
    setTx ← task_on_sys (setDeployedProgram loan programKey);
    sync (assign (set_setDeployedTxSignature setTx));;
    sync (assign (set_status deployed));;
    now ← sync (on_sys (ask Date_now));
    sync (assign (set_updatedAt now));;
    await save_this.

(** The [while] loop; [fuel] bounds the number of its rounds, which
    [maxRetries] bounds in the source. *)
Fixpoint retryLoop (fuel : nat) (attempts : Z) : Task (DeploymentRecord * Sys W) unit :=
  match fuel with
  | O => mret tt
  | S fuel' =>
      if decide (attempts < maxRetries config) then
        task_try_catch processDeployment
          (λ e,
             if decide (attempts + 1 >= maxRetries config) then
               sync (assign (set_status failed));;
               sync (assign (set_error (String_of_Error e)));;
               await save_this
             else
               await (on_sys (sleep (backoff config (attempts + 1))));;
               retryLoop fuel' (attempts + 1))
      else mret tt
  end.

Definition processDeploymentWithRetries : Task (DeploymentRecord * Sys W) unit :=
  retryLoop (Z.to_nat (maxRetries config)) 0.

Definition handleLoanRequested (event : LoanRequested) : Task (Sys W) unit :=
  existing ← await (getDeployment (ev_loanId event));
  if already_processing existing then mret tt
  else
    created ← sync (ask Date_now);
    updated ← sync (ask Date_now);
    let deployment :=
      {| loanId := ev_loanId event; borrower := ev_borrower event;
         programId := None; bufferAccount := None; deployTxSignature := None;
         setDeployedTxSignature := None; recoveryTxSignature := None;
         status := pending; error := None;
         createdAt := created; updatedAt := updated;
         binaryHash := None; principal := ev_principal event |} in
    await (saveDeployment deployment);;
    task_with_object deployment processDeploymentWithRetries.

Definition recoveryBody (loan : string) : Task (DeploymentRecord * Sys W) unit :=
  sync (assign (set_status recovering));;
  now ← sync (on_sys (ask Date_now));
  sync (assign (set_updatedAt now));;
  await save_this;;
  deployment ← sync this_deployment;
  if truthy (programId deployment) then
    program ← sync (λ st, (PublicKey_of_string (default "" (programId deployment)), st));
    '(reclaimedSol, signature) ← task_on_sys (closeProgram loan program);
    returnTx ← task_on_sys (returnReclaimedSol loan reclaimedSol);
    sync (assign (set_recoveryTxSignature signature));;
    sync (assign (set_status recovered));;
    now ← sync (on_sys (ask Date_now));
    sync (assign (set_updatedAt now));;
    await save_this
  else mret tt.

Definition processRecovery (loan : string) : Task (Sys W) unit :=
  existing ← await (getDeployment loan);
  if not_deployed existing then mret tt
  else
    match existing with
    | Some deployment =>
        task_with_object deployment
          (task_try_catch (recoveryBody loan)
             (λ e, sync (assign (set_status failed));;
                   sync (assign (set_error (String_of_Error e)));;
                   await save_this))
    | None => mret tt
    end.

Definition handleLoanRecovered (loan : string) : Task (Sys W) unit :=
  processRecovery loan.

Definition handleLoanExpired (loan : string) : Task (Sys W) unit :=
  processRecovery loan.

(** The listener that [setupEventHandlers] registers for an event. *)
Definition handle (ev : Event) : Task (Sys W) unit :=
  match ev with
  | loanRequested event => handleLoanRequested event
  | loanRecovered loan => handleLoanRecovered loan
  | loanExpired loan => handleLoanExpired loan
  end.

End Methods.
End Async.

(** *** The process: an event emitter and the handlers in flight

    [emit] calls the listener and does not wait for it: the handler runs
    up to its first [await] and is kept among the handlers in flight.
    From then on the handlers advance one step at a time, in whatever
    order their operations complete: [Resume i] lets the operation that
    handler [i] awaits take effect and runs the handler up to its next
    [await].  The schedules in which the operations take effect in the
    order in which they were issued are among these. *)
Record Node (W : Type) := {
  inflight : list (Task (Sys W) unit);
  shared : Sys W
}.
Arguments inflight {W} n.
Arguments shared {W} n.

Inductive Action :=
| Emit (ev : Event)
| Resume (i : nat).

Section Process.

Context {W : Type} `{!Platform W}.
Variable config : DeployerConfig.
Variable programDeployer : ProgramDeployer.

Definition spawn (t : Task (Sys W) unit) (n : Node W) : Node W :=
  let r := settle t (shared n) in
  {| inflight := inflight n ++ [r.1]; shared := r.2 |}.

Definition resume (i : nat) (n : Node W) : Node W :=
  match inflight n !! i with
  | Some (Awaiting next effect) =>
      let r := settle (next (shared n)) (effect (shared n)) in
      {| inflight := <[i := r.1]> (inflight n); shared := r.2 |}
  | _ => n
  end.

Definition act (a : Action) (n : Node W) : Node W :=
  match a with
  | Emit ev => spawn (Async.handle config programDeployer ev) n
  | Resume i => resume i n
  end.

Definition exec (actions : list Action) (n : Node W) : Node W :=
  foldl (λ acc a, act a acc) n actions.

End Process.

(** A task does, when nothing comes in between, what a program does. *)
Definition refines {S A} (t : Task S A) (p : Prog S A) : Prop :=
  ∀ s, finish t s = p s.

(** The number of suspensions of a task that is run to its end without
    giving way. *)
Fixpoint awaits {S A} (t : Task S A) (s : S) : nat :=
  match t with
  | Settled _ => O
  | Sync next effect => awaits (next s) (effect s)
  | Awaiting next effect => Datatypes.S (awaits (next s) (effect s))
  end.

(** The process with no handler in flight. *)
Definition quiescent {W} (s : Sys W) : Node W := {| inflight := []; shared := s |}.

(** A process in which one more handler has settled. *)
Definition and_settled {W} (r : result unit) (n : Node W) : Node W :=
  {| inflight := inflight n ++ [Settled r]; shared := shared n |}.

(** The actions in which every handler is resumed until it has settled
    before the next event is emitted; [i] is the number of handlers that
    came before. *)
Fixpoint one_at_a_time {W} `{!Platform W} (config : DeployerConfig)
    (programDeployer : ProgramDeployer) (evs : list Event) (i : nat) (s : Sys W)
  : list Action :=
  match evs with
  | [] => []
  | ev :: rest =>
      Emit ev
      :: replicate (awaits (Async.handle config programDeployer ev) s) (Resume i)
      ++ one_at_a_time config programDeployer rest (Datatypes.S i)
           (handle config programDeployer ev s).2
  end.

(** A sequence of deployment attempts starts with the record persisted
    as [pending]. *)
Definition starts_sequence (loan : string) (e : Effect) : bool :=
  match e with
  | EDbPut key r =>
      bool_decide (key = deployment_key loan) && bool_decide (status r = pending)
  | _ => false
  end.

Definition sequences_started (loan : string) (t : list Effect) : nat :=
  length (filter (λ e, starts_sequence loan e = true) t).

(** ** Properties of the binary validator *)

Example validate_elf :
  validateBinary [x7f; x45; x4c; x46; x02; x01] = {| valid := true; reason := None |}.
Proof. reflexivity. Qed.

Example write_small :
  map ix_chunk (createWriteBufferInstructions BPF_LOADER_DEPRECATED_PROGRAM_ID
                  SystemProgram_programId [x7f; x45; x4c]) = [[x7f; x45; x4c]].
Proof. reflexivity. Qed.

Lemma buf_length_zero (b : list byte) : buf_length b = 0 ↔ b = [].
Proof.
  unfold buf_length. destruct b; simpl; split; intros; try done; lia.
Qed.

Lemma MAX_BINARY_SIZE_value : MAX_BINARY_SIZE = 104857600.
Proof. reflexivity. Qed.

Lemma validateBinary_empty : validateBinary [] = {| valid := false; reason := Some "Empty binary" |}.
Proof. reflexivity. Qed.

Lemma validateBinary_bad_header (b : list byte) :
  b ≠ [] → take 4 b ≠ elfMagic →
  validateBinary b = {| valid := false; reason := Some "Invalid ELF header" |}.
Proof.
  intros Hne Hmagic. unfold validateBinary.
  destruct (Z.eqb_spec (buf_length b) 0) as [Hz|_].
  - apply buf_length_zero in Hz. contradiction.
  - unfold buf_equals, subarray. rewrite drop_0.
    rewrite bool_decide_eq_false_2 by assumption. reflexivity.
Qed.

Lemma validateBinary_too_large (b : list byte) :
  take 4 b = elfMagic → buf_length b > 104857600 →
  validateBinary b = {| valid := false; reason := Some "Binary too large (>100MB)" |}.
Proof.
  intros Hmagic Hbig. unfold validateBinary.
  destruct (Z.eqb_spec (buf_length b) 0) as [Hz|_]; [lia|].
  unfold buf_equals, subarray. rewrite drop_0.
  rewrite bool_decide_eq_true_2 by assumption. simpl negb. cbv iota.
  rewrite MAX_BINARY_SIZE_value.
  destruct (Z.gtb_spec (buf_length b) 104857600); [reflexivity | lia].
Qed.

Lemma validateBinary_ok (b : list byte) :
  take 4 b = elfMagic → buf_length b <= 104857600 →
  validateBinary b = {| valid := true; reason := None |}.
Proof.
  intros Hmagic Hsmall. unfold validateBinary.
  destruct (Z.eqb_spec (buf_length b) 0) as [Hz|_].
  - apply buf_length_zero in Hz. subst b. discriminate Hmagic.
  - unfold buf_equals, subarray. rewrite drop_0.
    rewrite bool_decide_eq_true_2 by assumption. simpl negb. cbv iota.
    rewrite MAX_BINARY_SIZE_value.
    destruct (Z.gtb_spec (buf_length b) 104857600); [lia | reflexivity].
Qed.

Lemma short_has_no_magic (b : list byte) : (length b < 4)%nat → take 4 b ≠ elfMagic.
Proof.
  intros Hlen Heq. apply (f_equal length) in Heq.
  rewrite length_take in Heq. change (length elfMagic) with 4%nat in Heq. lia.
Qed.

(** C7. [validateBinary] returns, for every byte sequence: invalid with
    reason "Empty binary" when it is empty; otherwise invalid with reason
    "Invalid ELF header" when its first four bytes are not 7F 45 4C 46,
    which includes every non-empty input of fewer than four bytes;
    otherwise invalid with a reason that starts with "Binary too large"
    (the full text is "Binary too large (>100MB)") when it has more than
    104,857,600 bytes; and valid, without a reason, in every other case.
    The first failing check, in the order empty, header, size, gives the
    reason. *)
Theorem validateBinary_correct (b : list byte) :
  (b = [] → invalid_with "Empty binary" (validateBinary b)
            ∧ reason (validateBinary b) = Some "Empty binary") ∧
  (b ≠ [] → take 4 b ≠ elfMagic →
            invalid_with "Invalid ELF header" (validateBinary b)
            ∧ reason (validateBinary b) = Some "Invalid ELF header") ∧
  (b ≠ [] → (length b < 4)%nat →
            invalid_with "Invalid ELF header" (validateBinary b)) ∧
  (take 4 b = elfMagic → buf_length b > 104857600 →
            invalid_with "Binary too large" (validateBinary b)
            ∧ reason (validateBinary b) = Some "Binary too large (>100MB)") ∧
  (take 4 b = elfMagic → buf_length b <= 104857600 →
            validateBinary b = {| valid := true; reason := None |}).
Proof.
  repeat split.
  - subst b. reflexivity.
  - subst b. eexists. split; reflexivity.
  - subst b. reflexivity.
  - rewrite validateBinary_bad_header by assumption. reflexivity.
  - rewrite validateBinary_bad_header by assumption. eexists. split; reflexivity.
  - rewrite validateBinary_bad_header by assumption. reflexivity.
  - rewrite validateBinary_bad_header by auto using short_has_no_magic. reflexivity.
  - rewrite validateBinary_bad_header by auto using short_has_no_magic.
    eexists. split; reflexivity.
  - rewrite validateBinary_too_large by assumption. reflexivity.
  - rewrite validateBinary_too_large by assumption. eexists. split; reflexivity.
  - rewrite validateBinary_too_large by assumption. reflexivity.
  - apply validateBinary_ok; assumption.
Qed.

Lemma oversized_length : buf_length oversized = 104857601.
Proof.
  unfold oversized, buf_length.
  rewrite length_app, length_replicate, Nat2Z.inj_add, Z2Nat.id by lia.
  reflexivity.
Qed.

Lemma validateBinary_correct_witness :
  reason (validateBinary []) = Some "Empty binary"
  ∧ reason (validateBinary [x00; x01; x02; x03; x04; x05; x06; x07; x08; x09])
    = Some "Invalid ELF header"
  ∧ invalid_with "Invalid ELF header" (validateBinary [x7f; x45])
  ∧ reason (validateBinary oversized) = Some "Binary too large (>100MB)"
  ∧ validateBinary sim_binary = {| valid := true; reason := None |}.
Proof.
  split; [| split; [| split; [| split]]].
  - apply (validateBinary_correct []). reflexivity.
  - apply (validateBinary_correct [x00; x01; x02; x03; x04; x05; x06; x07; x08; x09]);
      discriminate.
  - apply (validateBinary_correct [x7f; x45]); [discriminate | simpl; lia].
  - apply (validateBinary_correct oversized);
      [reflexivity | rewrite oversized_length; lia].
  - apply (validateBinary_correct sim_binary); [reflexivity | vm_compute; discriminate].
Defined.

(** ** Properties of the buffer-write instruction builder *)

Lemma Z_of_byte_of_Z (z : Z) : Z_of_byte (byte_of_Z z) = z mod 256.
Proof.
  unfold Z_of_byte, byte_of_Z.
  assert (Hrange : 0 <= z mod 256 < 256) by (apply Z.mod_pos_bound; lia).
  destruct (Byte.of_N (Z.to_N (z mod 256))) as [y|] eqn:Hy.
  - apply Byte.to_of_N in Hy. simpl. rewrite Hy. lia.
  - apply Byte.of_N_None_iff in Hy. lia.
Qed.

(** Reading a [Uint32] field back gives the number modulo [2^32]. *)
Lemma uint32_of_le_uint32_le (n : Z) : uint32_of_le (uint32_le n) = n mod 2 ^ 32.
Proof.
  unfold uint32_of_le, uint32_le. rewrite !Z_of_byte_of_Z.
  assert (Hrange : 0 <= n mod 2 ^ 32 < 2 ^ 32) by (apply Z.mod_pos_bound; lia).
  generalize dependent (n mod 2 ^ 32). intros w Hw.
  change (2 ^ 8) with 256. change (2 ^ 16) with 65536.
  change (2 ^ 24) with 16777216. change (2 ^ 32) with 4294967296 in Hw.
  Z.div_mod_to_equations. lia.
Qed.

Lemma writeLoop_step (buffer authority : PublicKey) (data : list byte) (offset : nat) :
  writeLoop buffer authority data offset
  = if decide (offset < length data)%nat
    then writeChunkInstruction buffer authority data offset
           :: writeLoop buffer authority data (offset + chunkSize)
    else [].
Proof.
  rewrite writeLoop_equation_1. destruct (decide (offset < length data)%nat); reflexivity.
Qed.

Lemma ix_chunk_write (buffer authority : PublicKey) (data : list byte) (offset : nat) :
  ix_chunk (writeChunkInstruction buffer authority data offset)
  = take chunkSize (drop offset data).
Proof.
  unfold ix_chunk, writeChunkInstruction, subarray, uint32_le. cbn [ix_data app drop].
  rewrite drop_0.
  destruct (decide (offset + chunkSize <= length data)%nat).
  - f_equal. lia.
  - rewrite !take_ge; [reflexivity | rewrite length_drop; lia | rewrite length_drop; lia].
Qed.

Lemma ix_offset_field_write (buffer authority : PublicKey) (data : list byte) (offset : nat) :
  ix_offset_field (writeChunkInstruction buffer authority data offset)
  = uint32_le (Z.of_nat offset).
Proof. reflexivity. Qed.


(** The [i]-th instruction pushed by the loop entered at [offset] is the one
    for the chunk that starts [i] chunks further on. *)
Lemma writeLoop_lookup (buffer authority : PublicKey) (data : list byte) (i : nat) :
  ∀ (offset : nat) (ix : TransactionInstruction),
    writeLoop buffer authority data offset !! i = Some ix →
    ix = writeChunkInstruction buffer authority data (offset + i * chunkSize).
Proof.
  induction i as [|i IH]; intros offset ix; rewrite writeLoop_step;
    destruct (decide (offset < length data)%nat); simpl; try discriminate.
  - intros [= <-]. f_equal. unfold chunkSize. lia.
  - intros Hlook. apply IH in Hlook. subst ix. f_equal. unfold chunkSize. lia.
Qed.


(** The loop entered at [offset] pushes one instruction per started chunk
    of what is left. *)
Lemma writeLoop_length (buffer authority : PublicKey) (data : list byte) (n : nat) :
  ∀ offset : nat,
    (length data - offset <= n)%nat →
    Z.of_nat (length (writeLoop buffer authority data offset))
    = (Z.of_nat (length data - offset) + 899) / 900.
Proof.
  induction n as [|n IH]; intros offset Hn; rewrite writeLoop_step;
    destruct (decide (offset < length data)%nat); simpl length.
  - lia.
  - replace (length data - offset)%nat with 0%nat by lia. reflexivity.
  - rewrite Nat2Z.inj_succ, IH by (unfold chunkSize; lia). unfold chunkSize.
    destruct (decide (offset + 900 <= length data)%nat).
    + replace (Z.of_nat (length data - offset))
        with (Z.of_nat (length data - (offset + 900)) + 1 * 900) by lia.
      rewrite <- Z.add_assoc, (Z.add_comm (1 * 900)), Z.add_assoc, Z.div_add by lia.
      lia.
    + replace (length data - (offset + 900))%nat with 0%nat by lia.
      assert (Hsmall : 1 <= Z.of_nat (length data - offset) < 900) by lia.
      set (r := Z.of_nat (length data - offset)) in *. clearbody r.
      assert ((r + 899) / 900 = 1) as ->
        by (symmetry; apply (Z.div_unique _ _ _ (r - 1)); lia).
      reflexivity.
  - replace (length data - offset)%nat with 0%nat by lia. reflexivity.
Qed.



Example three_chunks_offsets :
  map ix_offset (createWriteBufferInstructions BPF_LOADER_DEPRECATED_PROGRAM_ID
                   SystemProgram_programId three_chunks) = [0; 900; 1800].
Proof. vm_compute. reflexivity. Qed.

Example three_chunks_sizes :
  map (λ ix, length (ix_chunk ix))
      (createWriteBufferInstructions BPF_LOADER_DEPRECATED_PROGRAM_ID
         SystemProgram_programId three_chunks) = [900; 900; 5]%nat.
Proof. vm_compute. reflexivity. Qed.

(** ** Traces, stores and the monad *)

Lemma sleeps_app (t1 t2 : list Effect) : sleeps (t1 ++ t2) = sleeps t1 ++ sleeps t2.
Proof. apply omap_app. Qed.

Lemma returned_amounts_app (t1 t2 : list Effect) :
  returned_amounts (t1 ++ t2) = returned_amounts t1 ++ returned_amounts t2.
Proof. apply omap_app. Qed.

Lemma attempts_started_app (loan : string) (t1 t2 : list Effect) :
  attempts_started loan (t1 ++ t2)
  = (attempts_started loan t1 + attempts_started loan t2)%nat.
Proof. unfold attempts_started. rewrite filter_app, length_app. reflexivity. Qed.

Lemma schedule_app (loan : string) (t1 t2 : list Effect) :
  schedule loan (t1 ++ t2) = schedule loan t1 ++ schedule loan t2.
Proof. apply omap_app. Qed.

Lemma schedule_outside (loan : string) (t : list Effect) :
  Forall outside_effect t → schedule loan t = [].
Proof.
  induction 1 as [|e t He _ IH]; [reflexivity|].
  destruct e; simpl in *; try contradiction; exact IH.
Qed.

Lemma schedule_put (loan : string) (r : DeploymentRecord) :
  schedule loan [EDbPut (deployment_key loan) r]
  = if decide (status r = deploying) then [Attempt] else [].
Proof.
  unfold schedule. cbn [omap mark starts_attempt list_omap].
  rewrite bool_decide_eq_true_2 by reflexivity.
  destruct (decide (status r = deploying)) as [Hs|Hs].
  - rewrite bool_decide_eq_true_2 by exact Hs. reflexivity.
  - rewrite bool_decide_eq_false_2 by exact Hs. reflexivity.
Qed.

Lemma replay_app (t1 t2 : list Effect) (m : gmap string DeploymentRecord) :
  replay (t1 ++ t2) m = replay t2 (replay t1 m).
Proof. apply foldl_app. Qed.

Lemma sleeps_outside (t : list Effect) : Forall outside_effect t → sleeps t = [].
Proof.
  induction 1 as [|e t He _ IH]; [reflexivity|].
  destruct e; simpl in *; try contradiction; exact IH.
Qed.

Lemma attempts_started_outside (loan : string) (t : list Effect) :
  Forall outside_effect t → attempts_started loan t = 0%nat.
Proof.
  unfold attempts_started. induction 1 as [|e t He _ IH]; [reflexivity|].
  destruct e; simpl in He; try contradiction;
    (rewrite filter_cons_False; [exact IH | simpl; discriminate]).
Qed.

Lemma replay_outside (t : list Effect) (m : gmap string DeploymentRecord) :
  Forall outside_effect t → replay t m = m.
Proof.
  intros Ht. revert m. induction Ht as [|e t He _ IH]; intros m; [reflexivity|].
  destruct e; simpl in He; try contradiction; apply IH.
Qed.

Lemma outside_about (loan : string) (e : Effect) : outside_effect e → about loan e.
Proof. destruct e; simpl; tauto. Qed.

Lemma deployment_key_inj (a b : string) : deployment_key a = deployment_key b → a = b.
Proof. unfold deployment_key. intros H. simplify_eq/=. reflexivity. Qed.

(** Writes about one loan leave the records of every other loan alone. *)
Lemma replay_about_other (loan other : string) (t : list Effect)
    (m : gmap string DeploymentRecord) :
  Forall (about loan) t → other ≠ loan →
  replay t m !! deployment_key other = m !! deployment_key other.
Proof.
  intros Ht Hne. revert m. induction Ht as [|e t He _ IH]; intros m; [reflexivity|].
  simpl. rewrite IH. destruct e; try reflexivity.
  destruct He as (-> & _ & _).
  apply lookup_insert_ne. intros Heq. apply deployment_key_inj in Heq. congruence.
Qed.

Lemma replay_store_ok (loan : string) (t : list Effect) (m : gmap string DeploymentRecord) :
  Forall (about loan) t → store_ok m → store_ok (replay t m).
Proof.
  intros Ht. revert m. induction Ht as [|e t He _ IH]; intros m Hm; [exact Hm|].
  simpl. apply IH. destruct e; try exact Hm.
  destruct He as (_ & _ & Hok).
  intros k r0. rewrite lookup_insert. case_decide; [intros [= <-]; exact Hok | apply Hm].
Qed.

Lemma replay_store_keyed (loan : string) (t : list Effect) (m : gmap string DeploymentRecord) :
  Forall (about loan) t → store_keyed m → store_keyed (replay t m).
Proof.
  intros Ht. revert m. induction Ht as [|e t He _ IH]; intros m Hm; [exact Hm|].
  simpl. apply IH. destruct e; try exact Hm.
  destruct He as (-> & Hloan & _).
  intros k r0. rewrite lookup_insert.
  case_decide; [intros [= <-]; congruence | apply Hm].
Qed.

(** Once a loan has a record, writes never remove it. *)
Lemma replay_is_Some (t : list Effect) (m : gmap string DeploymentRecord) (key : string) :
  is_Some (m !! key) → is_Some (replay t m !! key).
Proof.
  revert m. induction t as [|e t IH]; intros m Hm; [exact Hm|].
  simpl. apply IH. destruct e; try exact Hm.
  rewrite lookup_insert. case_decide; [eauto | exact Hm].
Qed.

Section Footprints.

Context {W : Type} `{!Platform W}.
Variable config : DeployerConfig.
Variable programDeployer : ProgramDeployer.

Lemma performs_refl (P : Effect → Prop) (s : Sys W) : performs P s s.
Proof. exists []. rewrite app_nil_r. auto. Qed.

Lemma performs_trans (P : Effect → Prop) (s1 s2 s3 : Sys W) :
  performs P s1 s2 → performs P s2 s3 → performs P s1 s3.
Proof.
  intros (t1 & Ht1 & HP1 & Hdb1) (t2 & Ht2 & HP2 & Hdb2).
  exists (t1 ++ t2). rewrite Ht2, Ht1, Hdb2, Hdb1, replay_app, app_assoc.
  split; [reflexivity | split; [apply Forall_app; auto | reflexivity]].
Qed.

Lemma performs_weaken (P Q : Effect → Prop) (s s' : Sys W) :
  (∀ e, P e → Q e) → performs P s s' → performs Q s s'.
Proof.
  intros HPQ (t & Ht & HP & Hdb). exists t.
  split; [exact Ht | split; [eapply Forall_impl; eauto | exact Hdb]].
Qed.

Lemma performs_outside_one (e : Effect) (s s' : Sys W) :
  outside_effect e → trace s' = trace s ++ [e] → db s' = db s →
  performs outside_effect s s'.
Proof.
  intros He Ht Hdb. exists [e].
  split; [exact Ht | split; [auto |]].
  rewrite Hdb. symmetry. apply (replay_outside [e]). auto.
Qed.

Lemma quiet_db {A} (m : Prog (Sys W) A) (s : Sys W) : quiet m → db (m s).2 = db s.
Proof. intros Hq. destruct (Hq s) as (t & _ & Ht & ->). apply replay_outside, Ht. Qed.

Lemma quiet_ret {A} (a : A) : quiet (mret a : Prog (Sys W) A).
Proof. intros s. apply performs_refl. Qed.

Lemma quiet_throw {A} (e : Error) : quiet (throw e : Prog (Sys W) A).
Proof. intros s. apply performs_refl. Qed.

Lemma quiet_pure {A} (r : result A) : quiet (λ s : Sys W, (r, s)).
Proof. intros s. apply performs_refl. Qed.

Lemma quiet_bind {A B} (m : Prog (Sys W) A) (f : A → Prog (Sys W) B) :
  quiet m → (∀ a, quiet (f a)) → quiet (m ≫= f).
Proof.
  intros Hm Hf s. unfold mbind, Prog_bind, prog_bind.
  specialize (Hm s). destruct (m s) as [[a|e] s1]; simpl in *.
  - eapply performs_trans; [exact Hm | apply Hf].
  - exact Hm.
Qed.

Lemma quiet_try_catch {A} (m : Prog (Sys W) A) (h : Error → Prog (Sys W) A) :
  quiet m → (∀ e, quiet (h e)) → quiet (try_catch m h).
Proof.
  intros Hm Hh s. unfold try_catch.
  specialize (Hm s). destruct (m s) as [[a|e] s1]; simpl in *.
  - exact Hm.
  - eapply performs_trans; [exact Hm | apply Hh].
Qed.

Lemma quiet_call {A} (e : Effect) (op : W → result A * W) :
  outside_effect e → quiet (call e op).
Proof.
  intros He s. apply (performs_outside_one e); [exact He | reflexivity | reflexivity].
Qed.

Lemma quiet_ask {A} (op : W → A * W) : quiet (ask op).
Proof. intros s. exists []. simpl. rewrite app_nil_r. auto. Qed.

Lemma quiet_fs_readFile (path : string) :
  quiet (fs_readFile path : Prog (Sys W) (list byte)).
Proof.
  intros s. apply (performs_outside_one (EReadFile path)); [exact I | |];
    unfold fs_readFile; destruct (files s !! path); reflexivity.
Qed.

Lemma quiet_fs_writeFile (path : string) (data : list byte) :
  quiet (fs_writeFile path data : Prog (Sys W) unit).
Proof.
  intros s. apply (performs_outside_one (EWriteFile path data)); [exact I | |]; reflexivity.
Qed.

Lemma quiet_fetchBinaryForLoan (loan who : string) :
  quiet (fetchBinaryForLoan config loan who).
Proof.
  apply quiet_try_catch; [apply quiet_fs_readFile | intros; apply quiet_throw].
Qed.

Lemma quiet_storeBinary (loan : string) (data : list byte) :
  quiet (storeBinary config loan data).
Proof.
  apply quiet_bind; [apply quiet_fs_writeFile | intros; apply quiet_ret].
Qed.

Lemma quiet_deployProgram (loan : string) (data : list byte) :
  quiet (deployProgram programDeployer loan data).
Proof.
  unfold deployProgram.
  repeat first [ apply quiet_bind; [| intros] | apply quiet_call; exact I
               | apply quiet_ask | apply quiet_ret ].
Qed.

Lemma quiet_setDeployedProgram (loan : string) (program : PublicKey) :
  quiet (setDeployedProgram programDeployer loan program).
Proof.
  unfold setDeployedProgram. destruct (adminWallet programDeployer).
  - apply quiet_call. exact I.
  - apply quiet_throw.
Qed.

Lemma quiet_closeProgram (loan : string) (program : PublicKey) :
  quiet (closeProgram programDeployer loan program).
Proof.
  unfold closeProgram.
  apply quiet_bind; [apply quiet_call; exact I |].
  intros [info|]; [| apply quiet_throw].
  repeat first [ apply quiet_bind; [| intros] | apply quiet_call; exact I
               | apply quiet_pure | apply quiet_ret ].
Qed.

Lemma quiet_returnReclaimedSol (loan : string) (amount : number) :
  quiet (returnReclaimedSol loan amount).
Proof.
  unfold returnReclaimedSol.
  apply quiet_bind; [apply quiet_pure | intros; apply quiet_call; exact I].
Qed.

End Footprints.

Section Orchestrator.

Context {W : Type} `{!Platform W}.
Variable config : DeployerConfig.
Variable programDeployer : ProgramDeployer.

Lemma quiet_run {A} (m : Prog (Sys W) A) (s : Sys W) :
  quiet m →
  ∃ t, trace (m s).2 = trace s ++ t ∧ Forall outside_effect t ∧ db (m s).2 = db s.
Proof.
  intros Hq. destruct (Hq s) as (t & Ht & Ho & Hdb). exists t.
  rewrite Hdb, replay_outside by exact Ho. auto.
Qed.

(** Runs the next call of a quiet component in the goal, and records what
    it did to the trace and that it left the store alone. *)
Ltac run_component lem :=
  match goal with
  | |- context [?m ?s] =>
      lazymatch type of (m s) with
      | (result _ * Sys _)%type =>
          let t := fresh "t" in
          let Ht := fresh "Ht" in
          let Ho := fresh "Ho" in
          let Hdb := fresh "Hdb" in
          destruct (quiet_run m s lem) as (t & Ht & Ho & Hdb);
          destruct (m s) as [[?|?] ?]; cbn [fst snd] in Ht, Hdb |- *
      end
  end.

(** Brings the facts gathered by [run_component] into the goal. *)
Ltac gather :=
  cbn [fst snd is_throw trace db] in *;
  repeat match goal with
         | H : trace ?s = _ |- _ => rewrite H; clear H
         | H : db ?s = _ |- _ => rewrite H; clear H
         end;
  rewrite <- ?app_assoc.

Ltac attempt_failed ts :=
  exists ts; gather;
  split; [rewrite ?Forall_app; repeat split; assumption
        | split; [reflexivity | right; auto]].

Lemma processDeployment_run (d : DeploymentRecord) (s : Sys W) :
  ∃ (now : Z) (t : list Effect),
    let key := deployment_key (loanId d) in
    let d1 := set_updatedAt now (set_status deploying d) in
    let r := processDeployment config programDeployer (d, s) in
    Forall outside_effect t
    ∧ loanId r.2.1 = loanId d
    ∧ ((r.1 = Ok tt ∧ status r.2.1 = deployed ∧ record_ok r.2.1
        ∧ trace r.2.2 = trace s ++ EDbPut key d1 :: t ++ [EDbPut key r.2.1]
        ∧ db r.2.2 = <[key := r.2.1]> (db s))
       ∨ (is_throw r.1
          ∧ trace r.2.2 = trace s ++ EDbPut key d1 :: t
          ∧ db r.2.2 = <[key := d1]> (db s))).
Proof.
  exists (Date_now (world s)).1.
  unfold processDeployment.
  unfold mbind, Prog_bind, prog_bind, mret, Prog_ret, prog_ret, this_deployment,
    assign, save_this, on_sys, saveDeployment, ask, throw.
  cbn -[fetchBinaryForLoan storeBinary deployProgram setDeployedProgram validateBinary
        deployment_key].
  run_component (quiet_fetchBinaryForLoan config (loanId d) (borrower d));
    [| attempt_failed t].
  destruct (valid (validateBinary a)); cbn [negb]; [| attempt_failed t].
  cbn [fst snd].
  run_component (quiet_storeBinary config (loanId d) a); [| attempt_failed (t ++ t0)].
  run_component (quiet_deployProgram programDeployer (loanId d) a);
    [| attempt_failed (t ++ t0 ++ t1)].
  destruct a1 as [[programKey bufferKey] signature].
  cbn [fst snd].
  run_component (quiet_setDeployedProgram programDeployer (loanId d) programKey);
    [| attempt_failed (t ++ t0 ++ t1 ++ t2)].
  exists (t ++ t0 ++ t1 ++ t2). gather.
  cbn [loanId set_updatedAt set_status set_setDeployedTxSignature set_deployTxSignature
       set_bufferAccount set_programId set_binaryHash].
  rewrite insert_insert_eq.
  split; [rewrite ?Forall_app; repeat split; assumption | split; [reflexivity | left]].
  split; [reflexivity | split; [reflexivity | split; [| split; reflexivity]]].
  split; cbn [status programId deployTxSignature setDeployedTxSignature];
    [eauto | discriminate].
Qed.

(** One turn of the [while] loop. *)
Lemma retryLoop_step (attempts : Z) (st : DeploymentRecord * Sys W) :
  retryLoop config programDeployer attempts st
  = if decide (attempts < maxRetries config) then
      match processDeployment config programDeployer st with
      | (Ok _, st1) => (Ok tt, st1)
      | (Throw e, st1) =>
          if decide (attempts + 1 >= maxRetries config) then
            (assign (set_status failed);;
             assign (set_error (String_of_Error e));;
             save_this) st1
          else
            retryLoop config programDeployer (attempts + 1)
              (on_sys (sleep (backoff config (attempts + 1))) st1).2
      end
    else (Ok tt, st).
Proof.
  rewrite retryLoop_equation_1.
  destruct (decide (attempts < maxRetries config)); [| reflexivity].
  cbn [retryLoop_unfold_clause_1].
  destruct (processDeployment config programDeployer st) as [[[]|e] st1];
    cbn [retryLoop_unfold_clause_1_clause_2]; [reflexivity |].
  destruct (decide (attempts + 1 >= maxRetries config)); reflexivity.
Qed.

Lemma attempts_started_put (loan : string) (r : DeploymentRecord) :
  attempts_started loan [EDbPut (deployment_key loan) r]
  = if decide (status r = deploying) then 1%nat else 0%nat.
Proof.
  unfold attempts_started. destruct (decide (status r = deploying)) as [Hs|Hs].
  - rewrite filter_cons_True; [reflexivity |].
    simpl. rewrite !bool_decide_eq_true_2 by auto. reflexivity.
  - rewrite filter_cons_False; [reflexivity |].
    simpl. rewrite (bool_decide_eq_false_2 (status r = deploying)) by auto.
    rewrite andb_false_r. discriminate.
Qed.

(** What one deployment attempt does, in the vocabulary of traces. *)
Lemma processDeployment_summary (d : DeploymentRecord) (s : Sys W) :
  let loan := loanId d in
  let r := processDeployment config programDeployer (d, s) in
  loanId r.2.1 = loan
  ∧ (r.1 = Ok tt ∨ is_throw r.1)
  ∧ (r.1 = Ok tt →
       status r.2.1 = deployed ∧ record_ok r.2.1
       ∧ db r.2.2 !! deployment_key loan = Some r.2.1)
  ∧ ∃ t, trace r.2.2 = trace s ++ t
         ∧ Forall (about loan) t
         ∧ db r.2.2 = replay t (db s)
         ∧ attempts_started loan t = 1%nat
         ∧ sleeps t = []
         ∧ schedule loan t = [Attempt].
Proof.
  destruct (processDeployment_run d s) as (now & t & Ho & Hloan & Hcases).
  cbv zeta in *.
  destruct (processDeployment config programDeployer (d, s)) as [res [d' s']].
  cbn [fst snd] in *.
  set (d1 := set_updatedAt now (set_status deploying d)) in *.
  assert (Hd1 : about (loanId d) (EDbPut (deployment_key (loanId d)) d1)).
  { split; [reflexivity | split; [reflexivity |]]. split; discriminate. }
  assert (Hat : Forall (about (loanId d)) t)
    by (eapply Forall_impl; [exact Ho | apply outside_about]).
  assert (Hstart : attempts_started (loanId d) [EDbPut (deployment_key (loanId d)) d1]
                   = 1%nat) by (rewrite attempts_started_put; reflexivity).
  split; [exact Hloan |].
  destruct Hcases as [(Hres & Hst & Hok & Htr & Hdb) | (Hres & Htr & Hdb)].
  - split; [left; exact Hres |].
    split; [intros _; rewrite Hdb, lookup_insert_eq; auto |].
    exists (EDbPut (deployment_key (loanId d)) d1
            :: t ++ [EDbPut (deployment_key (loanId d)) d']).
    split; [exact Htr |].
    split.
    { constructor; [exact Hd1 |]. apply Forall_app. split; [exact Hat |].
      constructor; [| constructor]. split; [reflexivity | split; assumption]. }
    split.
    { change (replay (?e :: ?l) ?m) with (replay l (replay [e] m)).
      rewrite replay_app, (replay_outside t) by exact Ho. simpl.
      rewrite insert_insert_eq. exact Hdb. }
    split.
    { change (?e :: ?l ++ ?l') with ([e] ++ l ++ l').
      rewrite !attempts_started_app, Hstart, (attempts_started_outside _ t) by exact Ho.
      rewrite attempts_started_put, Hst. reflexivity. }
    split.
    { change (?e :: ?l ++ ?l') with ([e] ++ l ++ l').
      rewrite !sleeps_app, (sleeps_outside t) by exact Ho. reflexivity. }
    change (?e :: ?l ++ ?l') with ([e] ++ l ++ l').
    rewrite !schedule_app, (schedule_outside _ t), !schedule_put, Hst by exact Ho.
    reflexivity.
  - split; [right; exact Hres |].
    split; [intros ->; contradiction |].
    exists (EDbPut (deployment_key (loanId d)) d1 :: t).
    split; [exact Htr |].
    split; [constructor; assumption |].
    split.
    { change (replay (?e :: ?l) ?m) with (replay l (replay [e] m)).
      rewrite replay_outside by exact Ho. exact Hdb. }
    split.
    { change (?e :: ?l) with ([e] ++ l).
      rewrite attempts_started_app, Hstart, (attempts_started_outside _ t) by exact Ho.
      reflexivity. }
    split.
    { change (?e :: ?l) with ([e] ++ l).
      rewrite sleeps_app, (sleeps_outside t) by exact Ho. reflexivity. }
    change (?e :: ?l) with ([e] ++ l).
    rewrite schedule_app, (schedule_outside _ t), schedule_put by exact Ho.
    reflexivity.
Qed.

(** Without an admin wallet every deployment attempt fails, in whatever
    state it is made. *)
Lemma processDeployment_without_admin (st : DeploymentRecord * Sys W) :
  adminWallet programDeployer = None →
  attempt_fails config programDeployer st.
Proof.
  intros Hnone. destruct st as [d s]. unfold attempt_fails, processDeployment.
  unfold mbind, Prog_bind, prog_bind, mret, Prog_ret, prog_ret, this_deployment,
    assign, save_this, on_sys, saveDeployment, ask, throw.
  cbn -[fetchBinaryForLoan storeBinary deployProgram setDeployedProgram validateBinary
        deployment_key].
  destruct (fetchBinaryForLoan _ _ _ _) as [[binaryData|e] s1]; cbn [fst snd]; [| eauto].
  destruct (valid (validateBinary binaryData)); cbn [negb fst snd]; [| eauto].
  destruct (storeBinary _ _ _ _) as [[hash|e] s2]; cbn [fst snd]; [| eauto].
  destruct (deployProgram _ _ _ _) as [[[[programKey bufferKey] signature]|e] s3];
    cbn [fst snd]; [| eauto].
  unfold setDeployedProgram. rewrite Hnone. cbn [throw fst snd]. eauto.
Qed.

Lemma about_failed (loan : string) (d : DeploymentRecord) (text : string) :
  loanId d = loan →
  about loan (EDbPut (deployment_key (loanId d)) (set_error text (set_status failed d))).
Proof.
  intros <-. split; [reflexivity | split; [reflexivity |]]. split; discriminate.
Qed.

Lemma backoff_shift (a : Z) (m : nat) :
  map (λ j : nat, backoff config (a + 1 + Z.of_nat j)) (seq 1 m)
  = map (λ j : nat, backoff config (a + Z.of_nat j)) (seq 2 m).
Proof.
  rewrite <- (fmap_S_seq 1 m). change (map ?f (S <$> ?l)) with (f <$> (S <$> l)).
  rewrite <- list_fmap_compose. apply list_fmap_ext. intros _ j _. simpl.
  f_equal. lia.
Qed.

(** The retry loop, whatever the platform does: it returns normally; it
    works on one loan only; it starts at most as many attempts as are left,
    and at least one if any is left; and between consecutive attempts it
    sleeps [backoff] of the number of attempts made. *)
Lemma retryLoop_run (n : nat) :
  ∀ (attempts : Z) (st : DeploymentRecord * Sys W),
    maxRetries config - attempts <= Z.of_nat n →
    let loan := loanId st.1 in
    let r := retryLoop config programDeployer attempts st in
    r.1 = Ok tt
    ∧ loanId r.2.1 = loan
    ∧ ∃ t, trace r.2.2 = trace st.2 ++ t
           ∧ Forall (about loan) t
           ∧ db r.2.2 = replay t (db st.2)
           ∧ Z.of_nat (attempts_started loan t) <= Z.max 0 (maxRetries config - attempts)
           ∧ (attempts < maxRetries config → (1 <= attempts_started loan t)%nat)
           ∧ sleeps t = map (λ j : nat, backoff config (attempts + Z.of_nat j))
                            (seq 1 (attempts_started loan t - 1))
           ∧ schedule loan t
             = backoff_schedule (retryDelayMs config) (attempts + 1)
                 (attempts_started loan t).
Proof.
  induction n as [|n IH]; intros attempts [d s] Hn; cbv zeta; cbn [fst snd];
    rewrite retryLoop_step;
    (destruct (decide (attempts < maxRetries config)) as [Hlt|Hge];
     [| cbn [fst snd]; split; [reflexivity | split; [reflexivity |]];
        exists []; rewrite app_nil_r;
        split; [reflexivity | split; [apply Forall_nil | split; [reflexivity |]]];
        change (attempts_started _ []) with 0%nat;
        split; [lia | split; [lia | split; reflexivity]]]).
  - lia.
  - pose proof (processDeployment_summary d s)
      as (Hloan & Hres & Hok & t & Ht & Hab & Hdb & Hst & Hsl & Hsc).
    cbv zeta in *.
    destruct (processDeployment config programDeployer (d, s)) as [res [d' s']].
    cbn [fst snd] in *.
    destruct res as [[]|e].
    + cbn [fst snd]. split; [reflexivity | split; [exact Hloan |]].
      exists t. rewrite Hst.
      repeat split; try assumption; try reflexivity; lia.
    + destruct (decide (attempts + 1 >= maxRetries config)) as [Hlast|Hmore].
      * unfold mbind, Prog_bind, prog_bind, assign, save_this, on_sys, saveDeployment.
        cbn [fst snd db trace]. split; [reflexivity | split; [exact Hloan |]].
        exists (t ++ [EDbPut (deployment_key (loanId d'))
                        (set_error (String_of_Error e) (set_status failed d'))]).
        pose proof (about_failed (loanId d) d' (String_of_Error e) Hloan) as Hfail.
        rewrite Ht, Hdb, replay_app, attempts_started_app, sleeps_app, schedule_app,
          Hst, Hsl, Hsc, <- app_assoc.
        change (loanId (set_error ?x (set_status ?y ?r))) with (loanId r).
        rewrite Hloan in *. rewrite attempts_started_put, schedule_put.
        rewrite !decide_False by discriminate.
        repeat split; try reflexivity; try lia.
        apply Forall_app. split; [exact Hab |].
        constructor; [exact Hfail | constructor].
      * specialize (IH (attempts + 1)
                      (on_sys (sleep (backoff config (attempts + 1))) (d', s')).2).
        cbn [on_sys sleep fst snd db trace] in IH. cbv zeta in IH.
        destruct IH as (Hr & Hl & t2 & Ht2 & Hab2 & Hdb2 & Hle & Hone & Hsl2 & Hsc2); [lia |].
        rewrite Hloan in *.
        split; [exact Hr | split; [exact Hl |]].
        exists (t ++ [ESetTimeout (backoff config (attempts + 1))] ++ t2).
        cbn [on_sys sleep fst snd db trace].
        rewrite Ht2, Hdb2, Ht, Hdb, !replay_app, !attempts_started_app, !sleeps_app,
          !schedule_app, Hst, Hsl, Hsl2, Hsc, Hsc2, <- !app_assoc.
        specialize (Hone ltac:(lia)).
        change (attempts_started (loanId d) [ESetTimeout _]) with 0%nat.
        change (sleeps [ESetTimeout ?ms]) with [ms].
        change (schedule (loanId d) [ESetTimeout ?ms]) with [Sleep ms].
        change (replay [ESetTimeout _] ?m) with m.
        repeat split; try reflexivity; try lia.
        -- rewrite !Forall_app. repeat split; try assumption.
           constructor; [exact I | constructor].
        -- replace (1 + (0 + attempts_started (loanId d) t2) - 1)%nat
             with (S (attempts_started (loanId d) t2 - 1)) by lia.
           cbn [seq map app]. rewrite backoff_shift. reflexivity.
        -- destruct (attempts_started (loanId d) t2) as [|m] eqn:Hm; [lia |].
           unfold backoff. cbn [Nat.add app backoff_schedule]. reflexivity.
Qed.

Lemma since_app (s s' : Sys W) (t : list Effect) :
  trace s' = trace s ++ t → since s s' = t.
Proof. intros Ht. unfold since. rewrite Ht. apply drop_app_length. Qed.

Lemma String_of_Error_nonempty (e : Error) : String_of_Error e ≠ "".
Proof.
  unfold String_of_Error. destruct (decide (message e = "")); discriminate.
Qed.

(** The loop when the deployment fails [k] times and then succeeds, with
    attempts to spare. *)
Lemma retryLoop_fails_then_succeeds (k : nat) :
  ∀ (attempts : Z) (st : DeploymentRecord * Sys W),
    attempts + Z.of_nat k < maxRetries config →
    (∀ j, (j < k)%nat →
          attempt_fails config programDeployer
            (after_failures config programDeployer j attempts st)) →
    attempt_succeeds config programDeployer
      (after_failures config programDeployer k attempts st) →
    let loan := loanId st.1 in
    let r := retryLoop config programDeployer attempts st in
    status r.2.1 = deployed
    ∧ record_ok r.2.1
    ∧ db r.2.2 !! deployment_key loan = Some r.2.1
    ∧ ∃ t, trace r.2.2 = trace st.2 ++ t
           ∧ attempts_started loan t = S k
           ∧ sleeps t = map (λ j : nat, backoff config (attempts + Z.of_nat j)) (seq 1 k).
Proof.
  induction k as [|k IH]; intros attempts [d s] Hlt Hfail Hsucc; cbv zeta;
    cbn [fst snd]; rewrite retryLoop_step, decide_True by lia;
    pose proof (processDeployment_summary d s)
      as (Hloan & _ & Hok & t & Ht & _ & _ & Hst & Hsl & _); cbv zeta in Hloan, Hok, Ht.
  - unfold attempt_succeeds in Hsucc. cbn [after_failures] in Hsucc. clear Hfail.
    destruct (processDeployment config programDeployer (d, s)) as [res [d' s']].
    cbn [fst snd] in *. subst res.
    destruct (Hok eq_refl) as (Hdep & Hrec & Hlook). cbn [fst snd].
    split; [exact Hdep | split; [exact Hrec | split; [exact Hlook |]]].
    exists t. auto.
  - destruct (Hfail 0%nat ltac:(lia)) as [e He]. cbn [after_failures] in He.
    specialize (IH (attempts + 1)
                  (on_sys (sleep (backoff config (attempts + 1)))
                          (processDeployment config programDeployer (d, s)).2).2
                  ltac:(lia) (λ j Hj, Hfail (S j) ltac:(lia)) Hsucc).
    clear Hfail Hsucc.
    destruct (processDeployment config programDeployer (d, s)) as [res [d' s']].
    cbn [fst snd] in *. subst res.
    rewrite decide_False by lia.
    cbn [on_sys sleep fst snd db trace] in IH |- *. cbv zeta in IH.
    destruct IH as (Hdep & Hrec & Hlook & t2 & Ht2 & Hst2 & Hsl2).
    + rewrite Hloan in *.
      split; [assumption | split; [assumption | split; [assumption |]]].
      exists (t ++ [ESetTimeout (backoff config (attempts + 1))] ++ t2).
      rewrite Ht2, Ht, !attempts_started_app, !sleeps_app, Hst, Hst2, Hsl, Hsl2,
        <- !app_assoc.
      change (attempts_started (loanId d) [ESetTimeout _]) with 0%nat.
      change (sleeps [ESetTimeout ?ms]) with [ms].
      split; [reflexivity | split; [reflexivity |]].
      cbn [seq map app]. rewrite backoff_shift. reflexivity.
Qed.

(** The loop when the deployment fails at every attempt that is left. *)
Lemma retryLoop_keeps_failing (n : nat) :
  ∀ (attempts : Z) (st : DeploymentRecord * Sys W),
    maxRetries config - attempts = Z.of_nat (S n) →
    (∀ j, (j < S n)%nat →
          attempt_fails config programDeployer
            (after_failures config programDeployer j attempts st)) →
    let loan := loanId st.1 in
    let r := retryLoop config programDeployer attempts st in
    status r.2.1 = failed
    ∧ (∃ text, error r.2.1 = Some text ∧ text ≠ "")
    ∧ db r.2.2 !! deployment_key loan = Some r.2.1
    ∧ ∃ t, trace r.2.2 = trace st.2 ++ t
           ∧ attempts_started loan t = S n
           ∧ sleeps t = map (λ j : nat, backoff config (attempts + Z.of_nat j)) (seq 1 n).
Proof.
  induction n as [|n IH]; intros attempts [d s] Hleft Hfail; cbv zeta;
    cbn [fst snd]; rewrite retryLoop_step, decide_True by lia;
    pose proof (processDeployment_summary d s)
      as (Hloan & _ & _ & t & Ht & _ & _ & Hst & Hsl & _); cbv zeta in Hloan, Ht;
    destruct (Hfail 0%nat ltac:(lia)) as [e He]; cbn [after_failures] in He.
  - clear Hfail.
    destruct (processDeployment config programDeployer (d, s)) as [res [d' s']].
    cbn [fst snd] in *. subst res.
    rewrite decide_True by lia.
    unfold mbind, Prog_bind, prog_bind, assign, save_this, on_sys, saveDeployment.
    cbn [fst snd db trace].
    change (loanId (set_error ?x (set_status ?y ?r))) with (loanId r).
    rewrite Hloan.
    split; [reflexivity |].
    split; [eexists; split; [reflexivity | apply String_of_Error_nonempty] |].
    split; [apply lookup_insert_eq |].
    eexists. rewrite Ht, <- app_assoc. split; [reflexivity |].
    rewrite attempts_started_app, sleeps_app, Hst, Hsl, attempts_started_put.
    rewrite decide_False by discriminate. split; reflexivity.
  - specialize (IH (attempts + 1)
                  (on_sys (sleep (backoff config (attempts + 1)))
                          (processDeployment config programDeployer (d, s)).2).2
                  ltac:(lia) (λ j Hj, Hfail (S j) ltac:(lia))).
    clear Hfail.
    destruct (processDeployment config programDeployer (d, s)) as [res [d' s']].
    cbn [fst snd] in *. subst res.
    rewrite decide_False by lia.
    cbn [on_sys sleep fst snd db trace] in IH |- *. cbv zeta in IH.
    destruct IH as (Hfin & Herr & Hlook & t2 & Ht2 & Hst2 & Hsl2).
    + rewrite Hloan in *.
      split; [assumption | split; [assumption | split; [assumption |]]].
      exists (t ++ [ESetTimeout (backoff config (attempts + 1))] ++ t2).
      rewrite Ht2, Ht, !attempts_started_app, !sleeps_app, Hst, Hst2, Hsl, Hsl2,
        <- !app_assoc.
      change (attempts_started (loanId d) [ESetTimeout _]) with 0%nat.
      change (sleeps [ESetTimeout ?ms]) with [ms].
      split; [reflexivity | split; [reflexivity |]].
      cbn [seq map app]. rewrite backoff_shift. reflexivity.
Qed.

(** What the [try] block of [processRecovery] does. *)
Lemma recoveryBody_run (loan : string) (d : DeploymentRecord) (s : Sys W) :
  ∃ (now : Z) (t : list Effect),
    let key := deployment_key (loanId d) in
    let d1 := set_updatedAt now (set_status recovering d) in
    let r := recoveryBody programDeployer loan (d, s) in
    Forall outside_effect t
    ∧ loanId r.2.1 = loanId d
    ∧ ((r.1 = Ok tt ∧ truthy (programId d) = false ∧ r.2.1 = d1
        ∧ trace r.2.2 = trace s ++ [EDbPut key d1]
        ∧ db r.2.2 = <[key := d1]> (db s))
       ∨ (r.1 = Ok tt ∧ truthy (programId d) = true
          ∧ status r.2.1 = recovered ∧ is_Some (recoveryTxSignature r.2.1)
          ∧ trace r.2.2 = trace s ++ EDbPut key d1 :: t ++ [EDbPut key r.2.1]
          ∧ db r.2.2 = <[key := r.2.1]> (db s))
       ∨ (is_throw r.1 ∧ truthy (programId d) = true ∧ r.2.1 = d1
          ∧ trace r.2.2 = trace s ++ EDbPut key d1 :: t
          ∧ db r.2.2 = <[key := d1]> (db s))).
Proof.
  exists (Date_now (world s)).1.
  unfold recoveryBody.
  unfold mbind, Prog_bind, prog_bind, mret, Prog_ret, prog_ret, this_deployment,
    assign, save_this, on_sys, saveDeployment, ask, throw.
  cbn -[closeProgram returnReclaimedSol deployment_key truthy].
  destruct (truthy (programId d)) eqn:Htruthy.
  2:{ exists []. cbn [fst snd trace db]. split; [constructor |].
      split; [reflexivity | left]. repeat split; reflexivity. }
  destruct (PublicKey_of_string (default "" (programId d))) as [program|e].
  2:{ exists []. cbn [fst snd trace db is_throw]. split; [constructor |].
      split; [reflexivity | right; right]. repeat split; reflexivity. }
  cbn [fst snd].
  run_component (quiet_closeProgram programDeployer loan program).
  2:{ exists t. gather. split; [assumption |].
      split; [reflexivity | right; right]. repeat split; reflexivity. }
  destruct a as [reclaimedSol signature]. cbn [fst snd].
  run_component (quiet_returnReclaimedSol loan reclaimedSol).
  2:{ exists (t ++ t0). gather.
      split; [rewrite Forall_app; split; assumption |].
      split; [reflexivity | right; right]. repeat split; reflexivity. }
  exists (t ++ t0). gather.
  cbn [loanId set_updatedAt set_status set_recoveryTxSignature].
  rewrite insert_insert_eq.
  split; [rewrite Forall_app; split; assumption |].
  split; [reflexivity | right; left].
  cbn [status recoveryTxSignature]. repeat split; try reflexivity. eauto.
Qed.

Lemma about_put (loan : string) (r : DeploymentRecord) :
  loanId r = loan → record_ok r → about loan (EDbPut (deployment_key loan) r).
Proof. intros Hl Hr. split; [reflexivity | split; assumption]. Qed.

Lemma record_ok_other (r : DeploymentRecord) :
  status r ≠ deployed → status r ≠ recovered → record_ok r.
Proof. intros H1 H2. split; intros; contradiction. Qed.

Lemma processRecovery_step (loan : string) (s : Sys W) :
  processRecovery programDeployer loan s
  = if not_deployed (db s !! deployment_key loan) then (Ok tt, s)
    else match db s !! deployment_key loan with
         | Some deployment =>
             with_object deployment
               (try_catch (recoveryBody programDeployer loan)
                  (λ e, assign (set_status failed);;
                        assign (set_error (String_of_Error e));;
                        save_this)) s
         | None => (Ok tt, s)
         end.
Proof.
  unfold processRecovery, getDeployment, mbind, Prog_bind, prog_bind.
  destruct (not_deployed (db s !! deployment_key loan)); [reflexivity |].
  destruct (db s !! deployment_key loan); reflexivity.
Qed.

(** [processRecovery] either finds nothing to do, or works on the record it
    found: it returns normally, writes well-formed records of that loan
    only, and starts no deployment attempt. *)
Lemma processRecovery_run (loan : string) (s : Sys W) :
  let r := processRecovery programDeployer loan s in
  r.1 = Ok tt
  ∧ ((not_deployed (db s !! deployment_key loan) = true ∧ r.2 = s)
     ∨ ∃ d t, db s !! deployment_key loan = Some d ∧ status d = deployed
              ∧ trace r.2 = trace s ++ t
              ∧ Forall (about (loanId d)) t
              ∧ db r.2 = replay t (db s)
              ∧ (∀ other, attempts_started other t = 0%nat)
              ∧ sleeps t = []).
Proof.
  cbv zeta. rewrite processRecovery_step.
  destruct (not_deployed (db s !! deployment_key loan)) eqn:Hguard.
  { split; [reflexivity | left; split; reflexivity]. }
  destruct (db s !! deployment_key loan) as [d|] eqn:Hd; [| discriminate].
  simpl in Hguard. apply bool_decide_eq_false in Hguard.
  assert (Hdep : status d = deployed) by (destruct (decide (status d = deployed)); tauto).
  unfold with_object, try_catch.
  destruct (recoveryBody_run loan d s) as (now & t & Ho & Hloan & Hcases).
  cbv zeta in Hloan, Hcases.
  set (d1 := set_updatedAt now (set_status recovering d)) in *.
  assert (Hd1 : about (loanId d) (EDbPut (deployment_key (loanId d)) d1))
    by (apply about_put; [reflexivity | apply record_ok_other; discriminate]).
  assert (Hat : Forall (about (loanId d)) t)
    by (eapply Forall_impl; [exact Ho | apply outside_about]).
  assert (Hnone : ∀ other r0, status r0 ≠ deploying →
                    attempts_started other [EDbPut (deployment_key (loanId d)) r0] = 0%nat).
  { intros other r0 Hr0. unfold attempts_started.
    rewrite filter_cons_False; [reflexivity |]. simpl.
    rewrite (bool_decide_eq_false_2 (status r0 = deploying)) by exact Hr0.
    rewrite andb_false_r. discriminate. }
  destruct (recoveryBody programDeployer loan (d, s)) as [res [d' s']].
  cbn [fst snd] in *.
  destruct Hcases as [(-> & _ & -> & Htr & Hdb)
                     | [(-> & _ & Hst & Hsig & Htr & Hdb) | (Hres & _ & -> & Htr & Hdb)]].
  - cbn [fst snd]. split; [reflexivity | right].
    exists d, [EDbPut (deployment_key (loanId d)) d1].
    repeat split; try assumption; try reflexivity.
    + constructor; [exact Hd1 | constructor].
    + intros other. apply Hnone. discriminate.
  - cbn [fst snd]. split; [reflexivity | right].
    exists d, (EDbPut (deployment_key (loanId d)) d1
               :: t ++ [EDbPut (deployment_key (loanId d)) d']).
    split; [reflexivity | split; [exact Hdep | split; [exact Htr |]]].
    split.
    { constructor; [exact Hd1 |]. apply Forall_app. split; [exact Hat |].
      constructor; [| constructor]. apply about_put; [exact Hloan |].
      split; [rewrite Hst; discriminate | intros _; exact Hsig]. }
    split.
    { change (replay (?e :: ?l) ?m) with (replay l (replay [e] m)).
      rewrite replay_app, (replay_outside t) by exact Ho. simpl.
      rewrite insert_insert_eq. exact Hdb. }
    split.
    { intros other. change (?e :: ?l ++ ?l') with ([e] ++ l ++ l').
      rewrite !attempts_started_app, (attempts_started_outside _ t) by exact Ho.
      rewrite !Hnone; [reflexivity | rewrite Hst; discriminate | discriminate]. }
    change (?e :: ?l ++ ?l') with ([e] ++ l ++ l').
    rewrite !sleeps_app, (sleeps_outside t) by exact Ho. reflexivity.
  - destruct res as [[]|e]; [contradiction |].
    unfold mbind, Prog_bind, prog_bind, assign, save_this, on_sys, saveDeployment.
    cbn [fst snd db trace].
    change (loanId (set_error ?x (set_status ?y ?r))) with (loanId r).
    change (loanId d1) with (loanId d).
    split; [reflexivity | right].
    exists d, (EDbPut (deployment_key (loanId d)) d1
               :: t ++ [EDbPut (deployment_key (loanId d))
                          (set_error (String_of_Error e) (set_status failed d1))]).
    split; [reflexivity | split; [exact Hdep |]].
    split; [rewrite Htr, <- app_assoc; reflexivity |].
    split.
    { constructor; [exact Hd1 |]. apply Forall_app. split; [exact Hat |].
      constructor; [| constructor]. apply (about_failed (loanId d) d1). reflexivity. }
    split.
    { change (replay (?e0 :: ?l) ?m) with (replay l (replay [e0] m)).
      rewrite replay_app, (replay_outside t) by exact Ho. simpl.
      rewrite Hdb. reflexivity. }
    split.
    { intros other. change (?e0 :: ?l ++ ?l') with ([e0] ++ l ++ l').
      rewrite !attempts_started_app, (attempts_started_outside _ t) by exact Ho.
      rewrite !Hnone; [reflexivity | discriminate | discriminate]. }
    change (?e0 :: ?l ++ ?l') with ([e0] ++ l ++ l').
    rewrite !sleeps_app, (sleeps_outside t) by exact Ho. reflexivity.
Qed.

Lemma handleLoanRequested_step (event : LoanRequested) (s : Sys W) :
  handleLoanRequested config programDeployer event s
  = if already_processing (db s !! deployment_key (ev_loanId event)) then (Ok tt, s)
    else
      let created := (Date_now (world s)).1 in
      let updated := (Date_now (Date_now (world s)).2).1 in
      let deployment :=
        {| loanId := ev_loanId event; borrower := ev_borrower event;
           programId := None; bufferAccount := None; deployTxSignature := None;
           setDeployedTxSignature := None; recoveryTxSignature := None;
           status := pending; error := None;
           createdAt := created; updatedAt := updated;
           binaryHash := None; principal := ev_principal event |} in
      with_object deployment (processDeploymentWithRetries config programDeployer)
        {| db := <[deployment_key (ev_loanId event) := deployment]> (db s);
           files := files s;
           world := (Date_now (Date_now (world s)).2).2;
           trace := trace s ++ [EDbPut (deployment_key (ev_loanId event)) deployment] |}.
Proof.
  unfold handleLoanRequested, getDeployment, mbind, Prog_bind, prog_bind.
  destruct (already_processing (db s !! deployment_key (ev_loanId event))); reflexivity.
Qed.

(** [handleLoanRequested] either finds the loan already in hand, or files
    a record for it and works on that loan only. *)
Lemma handleLoanRequested_run (event : LoanRequested) (s : Sys W) :
  let loan := ev_loanId event in
  let r := handleLoanRequested config programDeployer event s in
  r.1 = Ok tt
  ∧ ((already_processing (db s !! deployment_key loan) = true ∧ r.2 = s)
     ∨ (already_processing (db s !! deployment_key loan) = false
        ∧ is_Some (db r.2 !! deployment_key loan)
        ∧ ∃ t, trace r.2 = trace s ++ t
               ∧ Forall (about loan) t
               ∧ db r.2 = replay t (db s)
               ∧ Z.of_nat (attempts_started loan t) <= Z.max 0 (maxRetries config))).
Proof.
  cbv zeta. rewrite handleLoanRequested_step.
  destruct (already_processing (db s !! deployment_key (ev_loanId event))) eqn:Hguard.
  { split; [reflexivity | left; split; reflexivity]. }
  cbv zeta. unfold with_object, processDeploymentWithRetries.
  match goal with
  | |- context [retryLoop config programDeployer 0 (?d, ?s1)] =>
      pose proof (retryLoop_run (Z.to_nat (maxRetries config)) 0 (d, s1) ltac:(lia))
        as (Hres & Hloan & t & Ht & Hab & Hdb & Hle & _ & _ & _);
      cbv zeta in Hres, Hloan, Ht, Hab, Hdb, Hle; cbn [fst snd] in Hres, Hloan, Ht, Hab, Hdb, Hle;
      set (r := retryLoop config programDeployer 0 (d, s1)) in *;
      set (pend := d) in *
  end.
  cbn [loanId db trace] in Hloan, Ht, Hab, Hdb, Hle.
  assert (Hpend : about (ev_loanId event) (EDbPut (deployment_key (ev_loanId event)) pend))
    by (apply about_put; [reflexivity | apply record_ok_other; discriminate]).
  cbn [fst snd]. split; [exact Hres | right].
  split; [reflexivity |].
  split.
  { rewrite Hdb. apply replay_is_Some. rewrite lookup_insert_eq. eauto. }
  exists (EDbPut (deployment_key (ev_loanId event)) pend :: t).
  split; [rewrite Ht, <- app_assoc; reflexivity |].
  split; [constructor; assumption |].
  split; [exact Hdb |].
  change (?e :: ?l) with ([e] ++ l).
  rewrite attempts_started_app, attempts_started_put.
  change (status pend) with pending. rewrite decide_False by discriminate.
  rewrite Z.sub_0_r in Hle. exact Hle.
Qed.

(** Every handler returns normally and works on one loan; in a store that
    is filed by loan, that loan is the one the event is about. *)
Lemma handle_footprint (ev : Event) (s : Sys W) :
  let r := handle config programDeployer ev s in
  r.1 = Ok tt
  ∧ ∃ loan t, trace r.2 = trace s ++ t
              ∧ Forall (about loan) t
              ∧ db r.2 = replay t (db s)
              ∧ (store_keyed (db s) → Forall (about (target ev)) t).
Proof.
  assert (Hrec : ∀ loan,
             let r := processRecovery programDeployer loan s in
             r.1 = Ok tt
             ∧ ∃ l t, trace r.2 = trace s ++ t ∧ Forall (about l) t
                      ∧ db r.2 = replay t (db s)
                      ∧ (store_keyed (db s) → Forall (about loan) t)).
  { intros loan. destruct (processRecovery_run loan s) as (Hres & Hcases).
    cbv zeta in *. split; [exact Hres |].
    destruct Hcases as [(_ & ->) | (d & t & Hd & _ & Ht & Hab & Hdb & _)].
    - exists loan, []. rewrite app_nil_r. repeat split; try reflexivity; constructor.
    - exists (loanId d), t. repeat split; try assumption.
      intros Hkeyed. apply Hkeyed, deployment_key_inj in Hd. rewrite Hd. exact Hab. }
  destruct ev as [event|loan|loan]; cbn [handle target handleLoanRecovered handleLoanExpired];
    [| apply Hrec | apply Hrec].
  destruct (handleLoanRequested_run event s) as (Hres & Hcases). cbv zeta in *.
  split; [exact Hres |].
  destruct Hcases as [(_ & ->) | (_ & _ & t & Ht & Hab & Hdb & _)].
  - exists (ev_loanId event), []. rewrite app_nil_r.
    repeat split; try reflexivity; constructor.
  - exists (ev_loanId event), t. repeat split; auto.
Qed.

(** An event that does not trigger work on the record it is about changes
    nothing. *)
Lemma handle_inert (ev : Event) (s : Sys W) (d : DeploymentRecord) :
  db s !! deployment_key (target ev) = Some d →
  triggers ev d = false →
  handle config programDeployer ev s = (Ok tt, s).
Proof.
  intros Hd Htrig.
  destruct ev as [event|loan|loan]; cbn [handle target triggers] in *;
    unfold handleLoanRecovered, handleLoanExpired;
    rewrite ?handleLoanRequested_step, ?processRecovery_step, Hd;
    cbn [already_processing not_deployed].
  - apply bool_decide_eq_false in Htrig.
    rewrite bool_decide_eq_true_2 by exact Htrig. reflexivity.
  - apply bool_decide_eq_false in Htrig.
    rewrite bool_decide_eq_true_2 by exact Htrig. reflexivity.
  - apply bool_decide_eq_false in Htrig.
    rewrite bool_decide_eq_true_2 by exact Htrig. reflexivity.
Qed.

Lemma attempts_started_about_other (loan other : string) (t : list Effect) :
  Forall (about other) t → loan ≠ other → attempts_started loan t = 0%nat.
Proof.
  intros Ht Hne. unfold attempts_started.
  induction Ht as [|e t He _ IH]; [reflexivity |].
  rewrite filter_cons_False; [exact IH |].
  destruct e; simpl; try discriminate.
  destruct He as (-> & _ & _).
  rewrite bool_decide_eq_false_2; [discriminate |].
  intros Heq. apply deployment_key_inj in Heq. congruence.
Qed.

Lemma handle_store_keyed (ev : Event) (s : Sys W) :
  store_keyed (db s) → store_keyed (db (handle config programDeployer ev s).2).
Proof.
  intros Hk. destruct (handle_footprint ev s) as (_ & loan & t & _ & Hab & -> & _).
  eapply replay_store_keyed; eassumption.
Qed.

Lemma run_store_keyed (evs : list Event) :
  ∀ s : Sys W, store_keyed (db s) → store_keyed (db (run config programDeployer evs s)).
Proof.
  induction evs as [|ev evs IH]; intros s Hk; [exact Hk |].
  cbn [run]. apply IH, handle_store_keyed, Hk.
Qed.

Lemma run_trace (evs : list Event) :
  ∀ s : Sys W, ∃ t, trace (run config programDeployer evs s) = trace s ++ t.
Proof.
  induction evs as [|ev evs IH]; intros s.
  - exists []. rewrite app_nil_r. reflexivity.
  - cbn [run]. destruct (handle_footprint ev s) as (_ & loan & t & Ht & _).
    destruct (IH (handle config programDeployer ev s).2) as (t2 & Ht2).
    exists (t ++ t2). rewrite Ht2, Ht, app_assoc. reflexivity.
Qed.

(** A record that no event of a run triggers stays as it is, and no
    deployment attempt is started for its loan. *)
Lemma run_quiescent (loan : string) (d : DeploymentRecord) (evs : list Event) :
  ∀ s : Sys W,
    store_keyed (db s) →
    db s !! deployment_key loan = Some d →
    Forall (λ ev, target ev = loan → triggers ev d = false) evs →
    let s' := run config programDeployer evs s in
    db s' !! deployment_key loan = Some d
    ∧ attempts_started loan (since s s') = 0%nat.
Proof.
  induction evs as [|ev evs IH]; intros s Hk Hd Hevs; cbv zeta.
  - cbn [run]. split; [exact Hd |]. rewrite (since_app s s []); [reflexivity |].
    rewrite app_nil_r. reflexivity.
  - apply Forall_cons in Hevs as [Hev Hevs]. cbn [run].
    destruct (decide (target ev = loan)) as [Heq|Hne].
    + rewrite (handle_inert ev s d); [| rewrite Heq; exact Hd | apply Hev, Heq].
      apply IH; assumption.
    + destruct (handle_footprint ev s) as (_ & l & t & Ht & _ & Hdb & Hab).
      specialize (Hab Hk).
      pose proof (handle_store_keyed ev s Hk) as Hk1.
      set (s1 := (handle config programDeployer ev s).2) in *.
      assert (Hd1 : db s1 !! deployment_key loan = Some d).
      { rewrite Hdb, (replay_about_other (target ev) loan); [exact Hd | exact Hab | auto]. }
      destruct (IH s1 Hk1 Hd1 Hevs) as (Hfin & Hnone). cbv zeta in Hfin, Hnone.
      split; [exact Hfin |].
      destruct (run_trace evs s1) as (t2 & Ht2).
      rewrite (since_app s1 _ t2 Ht2) in Hnone.
      rewrite (since_app s _ (t ++ t2)) by (rewrite Ht2, Ht, app_assoc; reflexivity).
      rewrite attempts_started_app, Hnone.
      rewrite (attempts_started_about_other loan (target ev) t Hab); auto.
Qed.

End Orchestrator.

(** ** Properties of the orchestrator *)

Section OrchestratorProperties.

Context {W : Type} `{!Platform W}.
Variable config : DeployerConfig.
Variable programDeployer : ProgramDeployer.

(** In a store that is filed by loan, a loan that has a record has exactly
    one. *)
Lemma records_of_keyed (loan : string) (d : DeploymentRecord)
    (m : gmap string DeploymentRecord) :
  store_keyed m → m !! deployment_key loan = Some d →
  records_of loan m = {[ deployment_key loan := d ]}.
Proof.
  intros Hk Hd. apply map_eq. intros key. unfold records_of.
  destruct (decide (key = deployment_key loan)) as [->|Hne].
  - rewrite lookup_singleton_eq. apply map_lookup_filter_Some. split; [exact Hd |].
    simpl. apply Hk, deployment_key_inj in Hd. auto.
  - rewrite lookup_singleton_ne by auto.
    apply map_lookup_filter_None. right. intros r Hr Hloan. simpl in Hloan.
    apply Hk in Hr. congruence.
Qed.

Lemma filter_all {A} (P : A → Prop) `{∀ x, Decision (P x)} (l : list A) :
  Forall P l → filter P l = l.
Proof.
  induction 1 as [|x l Hx _ IH]; [reflexivity |].
  rewrite filter_cons_True by exact Hx. rewrite IH. reflexivity.
Qed.

Lemma filter_none {A} (P : A → Prop) `{∀ x, Decision (P x)} (l : list A) :
  Forall (λ x, ¬ P x) l → filter P l = [].
Proof.
  induction 1 as [|x l Hx _ IH]; [reflexivity |].
  rewrite filter_cons_False by exact Hx. exact IH.
Qed.

(** In a store that is filed by loan, [getAllDeployments] lists exactly one
    record of a loan that has one. *)
Lemma deployments_of_keyed (loan : string) (d : DeploymentRecord) (s : Sys W) :
  store_keyed (db s) → db s !! deployment_key loan = Some d →
  deployments_of loan s = [d].
Proof.
  intros Hk Hd. unfold deployments_of, getAllDeployments. cbn [fst].
  rewrite (filter_all (λ kv : string * DeploymentRecord,
                         String.prefix "deployment:" kv.1 = true)).
  2:{ apply Forall_forall. intros [key r] Hin. apply elem_of_map_to_list in Hin.
      apply Hk in Hin. cbn [fst]. rewrite Hin. destruct (loanId r); reflexivity. }
  apply Permutation_singleton_r.
  rewrite <- (map_to_list_delete (db s) (deployment_key loan) d Hd).
  rewrite fmap_cons. cbn [snd].
  rewrite filter_cons_True by (apply Hk, deployment_key_inj in Hd; auto).
  rewrite filter_none; [reflexivity |].
  apply Forall_forall. intros r Hin Hloan.
  apply list_elem_of_fmap in Hin as ([key r'] & -> & Hin). cbn [snd] in Hloan.
  apply elem_of_map_to_list, lookup_delete_Some in Hin as [Hne Hin].
  apply Hk in Hin. congruence.
Qed.

(** C4. [processRecovery] does nothing at all, neither a write to the store
    nor a call to the chain, when the store holds no record of the loan or
    holds one whose status is not [deployed]. *)
Theorem processRecovery_guard (loan : string) (s : Sys W) :
  (db s !! deployment_key loan = None
   ∨ ∃ d, db s !! deployment_key loan = Some d ∧ status d ≠ deployed) →
  processRecovery programDeployer loan s = (Ok tt, s).
Proof.
  intros [Hnone | (d & Hd & Hst)]; rewrite processRecovery_step.
  - rewrite Hnone. reflexivity.
  - rewrite Hd. cbn [not_deployed]. rewrite bool_decide_eq_true_2 by exact Hst. reflexivity.
Qed.

(** C5. Every operation of the orchestrator, that is the handling of each
    of its three events and so every run of events, preserves the
    invariant of the store: a record persisted as [deployed] has
    [programId], [deployTxSignature] and [setDeployedTxSignature], and a
    record persisted as [recovered] has [recoveryTxSignature].  Every
    record written on the way satisfies it too. *)
Theorem handlers_preserve_store_ok (s : Sys W) :
  store_ok (db s) →
  (∀ ev : Event,
     let s' := (handle config programDeployer ev s).2 in
     store_ok (db s')
     ∧ Forall (λ e, match e with EDbPut _ r => record_ok r | _ => True end) (since s s'))
  ∧ (∀ evs : list Event, store_ok (db (run config programDeployer evs s))).
Proof.
  intros Hok.
  assert (Hone : ∀ (s0 : Sys W) ev, store_ok (db s0) →
                   store_ok (db (handle config programDeployer ev s0).2)
                   ∧ Forall (λ e, match e with EDbPut _ r => record_ok r | _ => True end)
                       (since s0 (handle config programDeployer ev s0).2)).
  { intros s0 ev H0.
    destruct (handle_footprint config programDeployer ev s0) as (_ & loan & t & Ht & Hab & Hdb & _).
    rewrite (since_app _ _ t Ht), Hdb. split.
    - eapply replay_store_ok; eassumption.
    - eapply Forall_impl; [exact Hab |]. intros [] He; simpl in *; tauto. }
  split; [intros ev; apply Hone, Hok |].
  intros evs. revert s Hok. induction evs as [|ev evs IH]; intros s Hok; [exact Hok |].
  cbn [run]. apply IH, Hone, Hok.
Qed.

Lemma backoff_from_zero (k : nat) :
  map (λ j : nat, backoff config (0 + Z.of_nat j)) (seq 1 k)
  = map (λ attempt : nat, retryDelayMs config * 2 ^ (Z.of_nat attempt - 1)) (seq 1 k).
Proof. apply list_fmap_ext. intros _ j _. unfold backoff. do 2 f_equal. Qed.

(** Consecutive backoff delays double. *)
Lemma backoff_doubles (k i : nat) (a b : Z) :
  let delays := map (λ attempt : nat, retryDelayMs config * 2 ^ (Z.of_nat attempt - 1))
                    (seq 1 k) in
  delays !! i = Some a → delays !! S i = Some b → b = 2 * a.
Proof.
  cbv zeta. change (map ?f ?l) with (f <$> l). rewrite !list_lookup_fmap.
  intros Ha Hb.
  destruct (seq 1 k !! i) as [x|] eqn:Hx; [| discriminate].
  destruct (seq 1 k !! S i) as [y|] eqn:Hy; [| discriminate].
  apply lookup_seq in Hx as [-> _]. apply lookup_seq in Hy as [-> _].
  cbv [fmap option_fmap option_map] in Ha, Hb. injection Ha as <-. injection Hb as <-.
  replace (Z.of_nat (S (S i)) - 1) with (Z.succ (Z.of_nat (S i) - 1)) by lia.
  rewrite Z.pow_succ_r by lia. ring.
Qed.

(** Without a budget the loop body never runs: no attempt is made and the
    record is left as it was handed in. *)
Lemma processDeploymentWithRetries_no_budget (d : DeploymentRecord) (s : Sys W) :
  maxRetries config <= 0 →
  processDeploymentWithRetries config programDeployer (d, s) = (Ok tt, (d, s)).
Proof.
  intros Hnone. unfold processDeploymentWithRetries.
  rewrite retryLoop_step, decide_False by lia. reflexivity.
Qed.

(** C2. The retry loop starts at most [maxRetries] attempts (none when
    [maxRetries] is not positive), and between the attempt of a given
    number and the next one it sleeps [retryDelayMs * 2^(attempt-1)], and
    at no other time.  When the deployment fails exactly [maxRetries - 1]
    times
    and then succeeds, the record that is persisted in the end is
    [deployed], [maxRetries] attempts were made, exactly [maxRetries - 1]
    backoff delays occurred, and each delay is at least (in fact exactly)
    double the previous one. *)
Theorem processDeploymentWithRetries_backoff (d : DeploymentRecord) (s : Sys W) :
  let loan := loanId d in
  let r := processDeploymentWithRetries config programDeployer (d, s) in
  let t := since s r.2.2 in
  Z.of_nat (attempts_started loan t) <= Z.max 0 (maxRetries config)
  ∧ schedule loan t = backoff_schedule (retryDelayMs config) 1 (attempts_started loan t)
  ∧ sleeps t = map (λ attempt : nat, retryDelayMs config * 2 ^ (Z.of_nat attempt - 1))
                   (seq 1 (attempts_started loan t - 1))
  ∧ (1 <= maxRetries config →
     fails_then_succeeds config programDeployer (Z.to_nat (maxRetries config - 1)) (d, s) →
     (∃ d', db r.2.2 !! deployment_key loan = Some d' ∧ status d' = deployed)
     ∧ Z.of_nat (attempts_started loan t) = maxRetries config
     ∧ Z.of_nat (length (sleeps t)) = maxRetries config - 1
     ∧ ∀ (i : nat) (a b : Z),
         sleeps t !! i = Some a → sleeps t !! S i = Some b → 2 * a <= b ∧ b = 2 * a).
Proof.
  cbv zeta. unfold processDeploymentWithRetries.
  pose proof (retryLoop_run config programDeployer (Z.to_nat (maxRetries config)) 0 (d, s)
                ltac:(lia)) as (_ & _ & t & Ht & _ & _ & Hle & _ & Hsl & Hsc).
  cbv zeta in Ht, Hle, Hsl, Hsc. cbn [fst snd] in Ht, Hle, Hsl, Hsc.
  rewrite (since_app _ _ t Ht).
  split; [lia |].
  split; [exact Hsc |].
  split; [rewrite Hsl; apply backoff_from_zero |].
  intros Hpos [Hfail Hsucc].
  pose proof (retryLoop_fails_then_succeeds config programDeployer
                (Z.to_nat (maxRetries config - 1)) 0 (d, s) ltac:(lia) Hfail Hsucc)
    as (Hdep & _ & Hlook & t' & Ht' & Hst' & Hsl').
  cbv zeta in Hdep, Hlook, Ht', Hst', Hsl'. cbn [fst snd] in Hdep, Hlook, Ht', Hst', Hsl'.
  assert (t' = t) as -> by (rewrite Ht in Ht'; apply app_inv_head in Ht'; auto).
  rewrite backoff_from_zero in Hsl'.
  split; [eauto |].
  split; [rewrite Hst'; lia |].
  split; [rewrite Hsl', length_map, length_seq; lia |].
  intros i a b Ha Hb. rewrite Hsl' in Ha, Hb.
  pose proof (backoff_doubles _ i a b Ha Hb). lia.
Qed.

(** C3, for a positive [maxRetries].  When at least one attempt is allowed
    and the deployment fails at every attempt, the retry loop makes exactly
    [maxRetries] attempts and returns; the record that is persisted then
    has status [failed] and a non-empty [error]; and in any run of later
    events that holds no [loanRequested] event for that loan, no deployment
    attempt is started for it and its record stays as it is. *)
Theorem processDeploymentWithRetries_exhaustion (d : DeploymentRecord) (s : Sys W) :
  1 <= maxRetries config →
  keeps_failing config programDeployer (Z.to_nat (maxRetries config)) (d, s) →
  let loan := loanId d in
  let r := processDeploymentWithRetries config programDeployer (d, s) in
  r.1 = Ok tt
  ∧ Z.of_nat (attempts_started loan (since s r.2.2)) = maxRetries config
  ∧ (∃ d' text, db r.2.2 !! deployment_key loan = Some d'
                ∧ status d' = failed ∧ error d' = Some text ∧ text ≠ "")
  ∧ (store_keyed (db s) →
     ∀ evs : list Event,
       Forall (λ ev, ∀ event, ev = loanRequested event → ev_loanId event ≠ loan) evs →
       let s' := run config programDeployer evs r.2.2 in
       attempts_started loan (since r.2.2 s') = 0%nat
       ∧ db s' !! deployment_key loan = db r.2.2 !! deployment_key loan).
Proof.
  intros Hpos Hfail. cbv zeta. unfold processDeploymentWithRetries.
  pose proof (retryLoop_run config programDeployer (Z.to_nat (maxRetries config)) 0 (d, s)
                ltac:(lia)) as (Hres & _ & t & Ht & Hab & Hdb & _).
  cbv zeta in Hres, Ht, Hab, Hdb. cbn [fst snd] in Hres, Ht, Hab, Hdb.
  pose proof (retryLoop_keeps_failing config programDeployer
                (Z.to_nat (maxRetries config) - 1) 0 (d, s) ltac:(lia)) as Hrun.
  replace (S (Z.to_nat (maxRetries config) - 1)) with (Z.to_nat (maxRetries config))
    in Hrun by lia.
  destruct (Hrun Hfail) as (Hst & (text & Herr & Hne) & Hlook & t' & Ht' & Hn & _).
  cbv zeta in Hst, Herr, Hlook, Ht', Hn. cbn [fst snd] in Hst, Herr, Hlook, Ht', Hn.
  assert (t' = t) as -> by (rewrite Ht in Ht'; apply app_inv_head in Ht'; auto).
  rewrite (since_app _ _ t Ht).
  split; [exact Hres |].
  split; [rewrite Hn; lia |].
  split; [eauto 6 |].
  intros Hk evs Hevs.
  assert (Hk' : store_keyed (db (retryLoop config programDeployer 0 (d, s)).2.2))
    by (rewrite Hdb; eapply replay_store_keyed; eassumption).
  destruct (run_quiescent config programDeployer (loanId d) _ evs _ Hk' Hlook) as (Hsame & Hnone).
  - eapply Forall_impl; [exact Hevs |]. intros ev Hev Htarget.
    destruct ev as [event|loan|loan]; cbn [triggers target] in *.
    + exfalso. exact (Hev event eq_refl Htarget).
    + apply bool_decide_eq_false_2. rewrite Hst. discriminate.
    + apply bool_decide_eq_false_2. rewrite Hst. discriminate.
  - cbv zeta in Hsame, Hnone. split; [exact Hnone | rewrite Hsame, Hlook; reflexivity].
Qed.

(** C8. [storeBinary] returns the SHA-256 hex digest of the bytes it is
    given and writes exactly those bytes to the file named after the loan
    and the digest; storing the same bytes for the same loan again returns
    the same digest, writes to the same file, does not fail, and leaves the
    directory as the first call left it. *)
Theorem storeBinary_content_addressed (loan : string) (binaryData : list byte) (s : Sys W) :
  let hash := sha256_hex binaryData in
  let path := path_join (binaryStoragePath config) (loan +:+ "_" +:+ hash +:+ ".so") in
  let r1 := storeBinary config loan binaryData s in
  let r2 := storeBinary config loan binaryData r1.2 in
  r1.1 = Ok hash
  ∧ since s r1.2 = [EWriteFile path binaryData]
  ∧ files r1.2 = <[path := binaryData]> (files s)
  ∧ files r1.2 !! path = Some binaryData
  ∧ r2.1 = Ok hash
  ∧ since r1.2 r2.2 = [EWriteFile path binaryData]
  ∧ files r2.2 = files r1.2.
Proof.
  cbv zeta. unfold storeBinary, binary_path, fs_writeFile, mbind, Prog_bind, prog_bind,
    mret, Prog_ret, prog_ret. cbn [fst snd files trace].
  split; [reflexivity |].
  split; [apply since_app; reflexivity |].
  split; [reflexivity |].
  split; [apply lookup_insert_eq |].
  split; [reflexivity |].
  split; [apply since_app; reflexivity |].
  apply insert_insert_eq.
Qed.

(** C10. For a record that is [deployed] but names no program,
    [processRecovery] persists the record as [recovering] and returns
    normally: that write is its only effect, so no program is closed and
    nothing is returned to the vault; no error is raised or recorded; and
    the record is not moved on to [recovered] or [failed].  No later event
    changes the record either: it stays [recovering] in every run. *)
Theorem processRecovery_without_programId (loan : string) (d : DeploymentRecord) (s : Sys W) :
  db s !! deployment_key loan = Some d →
  loanId d = loan →
  status d = deployed →
  programId d = None →
  let r := processRecovery programDeployer loan s in
  let d' := set_updatedAt (Date_now (world s)).1 (set_status recovering d) in
  r.1 = Ok tt
  ∧ since s r.2 = [EDbPut (deployment_key loan) d']
  ∧ db r.2 = <[deployment_key loan := d']> (db s)
  ∧ status d' = recovering
  ∧ error d' = error d
  ∧ recoveryTxSignature d' = recoveryTxSignature d
  ∧ (store_keyed (db s) →
     ∀ evs : list Event,
       db (run config programDeployer evs r.2) !! deployment_key loan = Some d').
Proof.
  intros Hd Hloan Hst Hprog. cbv zeta.
  rewrite processRecovery_step, Hd. cbn [not_deployed].
  rewrite bool_decide_eq_false_2 by (rewrite Hst; auto).
  unfold with_object, try_catch, recoveryBody.
  unfold mbind, Prog_bind, prog_bind, mret, Prog_ret, prog_ret, this_deployment,
    assign, save_this, on_sys, saveDeployment, ask, throw.
  cbn -[closeProgram returnReclaimedSol deployment_key truthy].
  rewrite Hprog. cbn [truthy fst snd db trace]. rewrite Hloan.
  split; [reflexivity |].
  split; [apply since_app; reflexivity |].
  split; [reflexivity |].
  split; [reflexivity |].
  split; [reflexivity |].
  split; [reflexivity |].
  intros Hk evs.
  match goal with
  | |- db (run _ _ _ ?s1) !! _ = Some ?r1 =>
      apply (run_quiescent config programDeployer loan r1 evs s1)
  end.
  - cbn [db]. intros key r0. rewrite lookup_insert. case_decide.
    + intros [= <-]. cbn [loanId set_updatedAt set_status]. rewrite Hloan. auto.
    + apply Hk.
  - cbn [db]. apply lookup_insert_eq.
  - apply Forall_forall. intros ev _ _.
    destruct ev; cbn [triggers]; apply bool_decide_eq_false_2; discriminate.
Qed.

End OrchestratorProperties.

(** ** The properties at concrete inputs, on the simulated platform *)

Lemma store_keyed_empty : store_keyed ∅.
Proof. intros key r Hr. rewrite lookup_empty in Hr. discriminate. Qed.

Lemma store_ok_empty : store_ok ∅.
Proof. intros key r Hr. rewrite lookup_empty in Hr. discriminate. Qed.

Lemma sim_fails_twice_then_succeeds :
  fails_then_succeeds (sim_config 3) sim_deployer 2 (pending42, sim_start 5 2).
Proof.
  split.
  - intros j Hj. destruct j as [|[|j]]; [| | lia]; eexists; vm_compute; reflexivity.
  - vm_compute. reflexivity.
Defined.

(** Three attempts allowed, the first two transactions fail. *)
Lemma processDeploymentWithRetries_backoff_witness :
  1 <= maxRetries (sim_config 3)
  ∧ fails_then_succeeds (sim_config 3) sim_deployer 2 (pending42, sim_start 5 2)
  ∧ (let r := processDeploymentWithRetries (sim_config 3) sim_deployer
                (pending42, sim_start 5 2) in
     (∃ d', db r.2.2 !! deployment_key "42" = Some d' ∧ status d' = deployed)
     ∧ Z.of_nat (length (sleeps (since (sim_start 5 2) r.2.2))) = 2).
Proof.
  assert (Hpos : 1 <= maxRetries (sim_config 3)) by (simpl; lia).
  destruct (processDeploymentWithRetries_backoff (sim_config 3) sim_deployer
              pending42 (sim_start 5 2)) as (_ & _ & _ & Hspec).
  destruct (Hspec Hpos sim_fails_twice_then_succeeds) as (Hdep & _ & Hlen & _).
  split; [exact Hpos | split; [exact sim_fails_twice_then_succeeds |]].
  split; [exact Hdep | exact Hlen].
Defined.

Example sim_backoff_schedule :
  schedule "42"
    (since (sim_start 5 2)
       (processDeploymentWithRetries (sim_config 3) sim_deployer
          (pending42, sim_start 5 2)).2.2)
  = [Attempt; Sleep 5000; Attempt; Sleep 10000; Attempt].
Proof. vm_compute. reflexivity. Qed.

Example sim_backoff_delays :
  sleeps (since (sim_start 5 2)
            (processDeploymentWithRetries (sim_config 3) sim_deployer
               (pending42, sim_start 5 2)).2.2) = [5000; 10000].
Proof. vm_compute. reflexivity. Qed.

Lemma sim_keeps_failing :
  keeps_failing (sim_config 3) sim_deployer_without_admin 3 (pending42, sim_start 5 0).
Proof.
  intros j Hj. destruct j as [|[|[|j]]]; [| | | lia]; eexists; vm_compute; reflexivity.
Defined.

(** Three attempts allowed, no admin wallet: every attempt fails. *)
Lemma processDeploymentWithRetries_exhaustion_witness :
  1 <= maxRetries (sim_config 3)
  ∧ keeps_failing (sim_config 3) sim_deployer_without_admin 3 (pending42, sim_start 5 0)
  ∧ (let r := processDeploymentWithRetries (sim_config 3) sim_deployer_without_admin
                (pending42, sim_start 5 0) in
     Z.of_nat (attempts_started "42" (since (sim_start 5 0) r.2.2)) = 3
     ∧ ∃ d' text, db r.2.2 !! deployment_key "42" = Some d'
                  ∧ status d' = failed ∧ error d' = Some text ∧ text ≠ "").
Proof.
  assert (Hpos : 1 <= maxRetries (sim_config 3)) by (simpl; lia).
  destruct (processDeploymentWithRetries_exhaustion (sim_config 3) sim_deployer_without_admin
              pending42 (sim_start 5 0) Hpos sim_keeps_failing) as (_ & Hn & Hfailed & _).
  split; [exact Hpos | split; [exact sim_keeps_failing |]].
  split; [exact Hn | exact Hfailed].
Defined.

Example sim_exhaustion_error :
  error <$> db (processDeploymentWithRetries (sim_config 3) sim_deployer_without_admin
                  (pending42, sim_start 5 0)).2.2 !! "deployment:42"
  = Some (Some "Error: Admin wallet not configured for set_deployed_program").
Proof. vm_compute. reflexivity. Qed.

(** Without any attempt allowed the loop does nothing: although every
    attempt would fail, and the number of attempts made, none, is
    [maxRetries], the record of the loan is left [pending] and never
    becomes [failed]. *)
Lemma exhaustion_without_budget :
  let config := sim_config 0 in
  let s := sim_start 5 0 in
  let s' := (handleLoanRequested config sim_deployer_without_admin loan42 s).2 in
  (∀ st, attempt_fails config sim_deployer_without_admin st)
  ∧ Z.of_nat (attempts_started "42" (since s s')) = maxRetries config
  ∧ db s' !! deployment_key "42" = Some pending42
  ∧ ¬ (∃ d' text, db s' !! deployment_key "42" = Some d'
                  ∧ status d' = failed ∧ error d' = Some text ∧ text ≠ "").
Proof.
  cbv zeta.
  assert (Hdb : db (handleLoanRequested (sim_config 0) sim_deployer_without_admin loan42
                      (sim_start 5 0)).2 !! deployment_key "42" = Some pending42)
    by (vm_compute; reflexivity).
  split; [intros st; apply processDeployment_without_admin; reflexivity |].
  split; [vm_compute; reflexivity |].
  split; [exact Hdb |].
  intros (d' & text & Hd' & Hst & _). rewrite Hdb in Hd'. injection Hd' as <-.
  discriminate Hst.
Qed.

(** A loan without record, and a loan whose record is [recovered]. *)
Lemma processRecovery_guard_witness :
  processRecovery sim_deployer "42" (sim_start 5 0) = (Ok tt, sim_start 5 0)
  ∧ (let s := (handleLoanExpired sim_deployer "42" (sim_deployed 5)).2 in
     processRecovery sim_deployer "42" s = (Ok tt, s)).
Proof.
  split.
  - apply (processRecovery_guard sim_deployer "42" (sim_start 5 0)).
    left. vm_compute. reflexivity.
  - apply (processRecovery_guard sim_deployer "42").
    right. eexists. split; [vm_compute; reflexivity | discriminate].
Defined.

Lemma handlers_preserve_store_ok_witness :
  store_ok (db (sim_start 5 0))
  ∧ store_ok (db (run (sim_config 3) sim_deployer
                    [loanRequested loan42; loanExpired "42"] (sim_start 5 0))).
Proof.
  assert (Hok : store_ok (db (sim_start 5 0))) by exact store_ok_empty.
  split; [exact Hok |].
  apply (handlers_preserve_store_ok (sim_config 3) sim_deployer (sim_start 5 0) Hok).
Defined.

Lemma sim_orphan_keyed : store_keyed (db sim_orphan).
Proof.
  intros key r Hr. unfold sim_orphan in Hr. cbn [db] in Hr.
  apply lookup_singleton_Some in Hr as [<- <-]. reflexivity.
Defined.

(** The record of loan 7 is [deployed] and names no program. *)
Lemma processRecovery_without_programId_witness :
  db sim_orphan !! deployment_key "7" = Some deployed_without_program
  ∧ (let r := processRecovery sim_deployer "7" sim_orphan in
     r.1 = Ok tt
     ∧ status <$> db r.2 !! deployment_key "7" = Some recovering
     ∧ status <$> db (run (sim_config 3) sim_deployer
                        [loanExpired "7"; loanRecovered "7";
                         loanRequested {| ev_loanId := "7"; ev_borrower := "Bxyz";
                                          ev_principal := "5000000000" |}] r.2)
                  !! deployment_key "7" = Some recovering).
Proof.
  assert (Hd : db sim_orphan !! deployment_key "7" = Some deployed_without_program)
    by (vm_compute; reflexivity).
  destruct (processRecovery_without_programId (sim_config 3) sim_deployer "7"
              deployed_without_program sim_orphan Hd eq_refl eq_refl eq_refl)
    as (Hres & _ & Hdb & _ & _ & _ & Hstays).
  split; [exact Hd |].
  split; [exact Hres |].
  split.
  - rewrite Hdb, lookup_insert_eq. reflexivity.
  - rewrite (Hstays sim_orphan_keyed). reflexivity.
Defined.

(** ** Status histories *)

Lemma written_statuses_app (t1 t2 : list Effect) :
  written_statuses (t1 ++ t2) = written_statuses t1 ++ written_statuses t2.
Proof. apply omap_app. Qed.

Lemma written_statuses_outside (t : list Effect) :
  Forall outside_effect t → written_statuses t = [].
Proof.
  induction 1 as [|e t He _ IH]; [reflexivity|].
  destruct e; simpl in *; try contradiction; exact IH.
Qed.

Section Histories.

Context {W : Type} `{!Platform W}.
Variable config : DeployerConfig.
Variable programDeployer : ProgramDeployer.

Lemma processDeployment_history (d : DeploymentRecord) (s : Sys W) :
  let r := processDeployment config programDeployer (d, s) in
  ∃ t, trace r.2.2 = trace s ++ t
       ∧ ((r.1 = Ok tt ∧ written_statuses t = [deploying; deployed])
          ∨ (is_throw r.1 ∧ written_statuses t = [deploying])).
Proof.
  destruct (processDeployment_run config programDeployer d s)
    as (now & t & Ho & _ & [(Hres & Hst & _ & Htr & _) | (Hres & Htr & _)]);
    cbv zeta in *.
  - eexists. split; [exact Htr | left]. split; [exact Hres |].
    change (?e :: ?l ++ ?l') with ([e] ++ l ++ l').
    rewrite !written_statuses_app, (written_statuses_outside t Ho).
    cbn [written_statuses omap list_omap app status set_updatedAt set_status].
    rewrite Hst. reflexivity.
  - eexists. split; [exact Htr | right]. split; [exact Hres |].
    change (?e :: ?l) with ([e] ++ l).
    rewrite written_statuses_app, (written_statuses_outside t Ho). reflexivity.
Qed.

(** The statuses written by the retry loop: [deploying] once per attempt,
    then [deployed] or [failed]; nothing when no attempt is left. *)
Lemma retryLoop_history (n : nat) :
  ∀ (attempts : Z) (st : DeploymentRecord * Sys W),
    maxRetries config - attempts <= Z.of_nat n →
    let r := retryLoop config programDeployer attempts st in
    ∃ t, trace r.2.2 = trace st.2 ++ t
         ∧ ((maxRetries config <= attempts ∧ written_statuses t = [])
            ∨ ∃ k : nat, (1 <= k)%nat
                 ∧ (written_statuses t = replicate k deploying ++ [deployed]
                    ∨ written_statuses t = replicate k deploying ++ [failed])).
Proof.
  induction n as [|n IH]; intros attempts [d s] Hn; cbv zeta; cbn [fst snd];
    rewrite retryLoop_step;
    (destruct (decide (attempts < maxRetries config)) as [Hlt|Hge];
     [| cbn [fst snd]; exists []; rewrite app_nil_r;
        split; [reflexivity | left; split; [lia | reflexivity]]]).
  - lia.
  - destruct (processDeployment_history d s) as (t & Ht & Hcases). cbv zeta in *.
    destruct (processDeployment config programDeployer (d, s)) as [res [d' s']].
    cbn [fst snd] in *.
    destruct Hcases as [(-> & Hw) | (Hres & Hw)].
    + cbn [fst snd]. exists t. split; [exact Ht | right].
      exists 1%nat. split; [lia | left; exact Hw].
    + destruct res as [[]|e]; [contradiction |].
      destruct (decide (attempts + 1 >= maxRetries config)) as [Hlast|Hmore].
      * unfold mbind, Prog_bind, prog_bind, assign, save_this, on_sys, saveDeployment.
        cbn [fst snd db trace].
        eexists. rewrite Ht, <- app_assoc. split; [reflexivity | right].
        exists 1%nat. split; [lia | right].
        rewrite written_statuses_app, Hw. reflexivity.
      * specialize (IH (attempts + 1)
                      (on_sys (sleep (backoff config (attempts + 1))) (d', s')).2).
        cbn [on_sys sleep fst snd db trace] in IH. cbv zeta in IH.
        destruct IH as (t2 & Ht2 & Hcases); [lia |].
        cbn [on_sys sleep fst snd db trace].
        exists (t ++ [ESetTimeout (backoff config (attempts + 1))] ++ t2).
        split; [rewrite Ht2, Ht, <- !app_assoc; reflexivity | right].
        destruct Hcases as [(Hno & _) | (k & Hk & Hw2)]; [lia |].
        exists (S k). split; [lia |].
        rewrite !written_statuses_app, Hw.
        change (written_statuses [ESetTimeout _]) with (@nil Status).
        destruct Hw2 as [-> | ->]; [left | right]; reflexivity.
Qed.

End Histories.

Section Lifecycle.

Context {W : Type} `{!Platform W}.
Variable config : DeployerConfig.
Variable programDeployer : ProgramDeployer.

(** X1. The statuses with which the handling of one event writes records
    follow the lifecycle: a [loanRequested] event writes nothing (the loan
    is in hand), or [pending] alone (no attempt allowed), or [pending],
    then [deploying] once per attempt, then one of [deployed] and [failed];
    a [loanRecovered] or [loanExpired] event writes nothing, or
    [recovering] alone, or [recovering] followed by one of [recovered] and
    [failed]. *)
Theorem handle_status_history (ev : Event) (s : Sys W) :
  let h := written_statuses (since s (handle config programDeployer ev s).2) in
  match ev with
  | loanRequested _ => deployment_history h
  | loanRecovered _ | loanExpired _ => recovery_history h
  end.
Proof.
  cbv zeta.
  assert (Hrec : ∀ loan,
            recovery_history
              (written_statuses (since s (processRecovery programDeployer loan s).2))).
  { intros loan. rewrite processRecovery_step.
    destruct (not_deployed (db s !! deployment_key loan)).
    { left. cbn [snd]. rewrite (since_app s s []) by (rewrite app_nil_r; reflexivity). reflexivity. }
    destruct (db s !! deployment_key loan) as [d|].
    2:{ left. cbn [snd]. rewrite (since_app s s []) by (rewrite app_nil_r; reflexivity). reflexivity. }
    unfold with_object, try_catch.
    destruct (recoveryBody_run programDeployer loan d s) as (now & t & Ho & _ & Hcases).
    cbv zeta in Hcases.
    destruct (recoveryBody programDeployer loan (d, s)) as [res [d' s']].
    cbn [fst snd] in *.
    destruct Hcases as [(-> & _ & _ & Htr & _)
                       | [(-> & _ & Hst & _ & Htr & _) | (Hres & _ & -> & Htr & _)]].
    - right; left. cbn [fst snd]. rewrite (since_app _ _ _ Htr). reflexivity.
    - right; right; left. cbn [fst snd]. rewrite (since_app _ _ _ Htr).
      change (?e :: ?l ++ ?l') with ([e] ++ l ++ l').
      rewrite !written_statuses_app, (written_statuses_outside t Ho).
      cbn [written_statuses omap list_omap app]. rewrite Hst. reflexivity.
    - destruct res as [[]|e]; [contradiction |].
      unfold mbind, Prog_bind, prog_bind, assign, save_this, on_sys, saveDeployment.
      cbn [fst snd db trace]. right; right; right.
      erewrite since_app by (rewrite Htr, <- app_assoc; reflexivity).
      change ((?e0 :: ?l) ++ ?l') with ([e0] ++ l ++ l').
      rewrite !written_statuses_app, (written_statuses_outside t Ho). reflexivity. }
  destruct ev as [event|loan|loan]; cbn [handle handleLoanRecovered handleLoanExpired];
    [| apply Hrec | apply Hrec].
  rewrite handleLoanRequested_step.
  destruct (already_processing (db s !! deployment_key (ev_loanId event))).
  { left. cbn [snd]. rewrite (since_app s s []) by (rewrite app_nil_r; reflexivity). reflexivity. }
  cbv zeta. unfold with_object, processDeploymentWithRetries.
  match goal with
  | |- context [retryLoop config programDeployer 0 ?st] =>
      destruct (retryLoop_history config programDeployer (Z.to_nat (maxRetries config)) 0 st
                  ltac:(lia)) as (t & Ht & Hcases)
  end.
  cbv zeta in Ht. cbn [fst snd trace] in Ht |- *.
  erewrite since_app by (rewrite Ht, <- app_assoc; reflexivity).
  rewrite written_statuses_app.
  destruct Hcases as [(_ & ->) | (k & Hk & [-> | ->])].
  - right; left. reflexivity.
  - right; right. exists k. split; [exact Hk | left; reflexivity].
  - right; right. exists k. split; [exact Hk | right; reflexivity].
Qed.

(** X2. No handler lets an exception escape: whatever the chain, the
    binary directory and the clock do, the handling of every event returns
    normally, and so do the retry loop, for every record it is given, and
    [processRecovery], for every loan: the error of a failed attempt or of
    a failed recovery ends in the record, not at the caller. *)
Theorem handle_returns_normally (ev : Event) (d : DeploymentRecord) (loan : string)
    (s : Sys W) :
  (handle config programDeployer ev s).1 = Ok tt
  ∧ (processDeploymentWithRetries config programDeployer (d, s)).1 = Ok tt
  ∧ (processRecovery programDeployer loan s).1 = Ok tt.
Proof.
  split; [apply handle_footprint | split].
  - unfold processDeploymentWithRetries.
    apply (retryLoop_run config programDeployer (Z.to_nat (maxRetries config)) 0 (d, s)).
    lia.
  - apply processRecovery_run.
Qed.

(** A run of events leaves the record of a loan alone, and writes nothing
    under its key, when each of its events is about another loan or does
    not set the orchestrator to work on the record the loan has. *)
Lemma run_frame (loan : string) (o : option DeploymentRecord) (evs : list Event) :
  ∀ s : Sys W,
    store_keyed (db s) →
    db s !! deployment_key loan = o →
    Forall (λ ev, target ev = loan → ∃ d, o = Some d ∧ triggers ev d = false) evs →
    let s' := run config programDeployer evs s in
    db s' !! deployment_key loan = o
    ∧ Forall (λ e, ¬ writes_to loan e) (since s s').
Proof.
  induction evs as [|ev evs IH]; intros s Hk Hd Hevs; cbv zeta.
  - cbn [run]. split; [exact Hd |].
    rewrite (since_app s s []) by (rewrite app_nil_r; reflexivity). apply Forall_nil_2.
  - apply Forall_cons in Hevs as [Hev Hevs]. cbn [run].
    destruct (decide (target ev = loan)) as [Heq|Hne].
    + destruct (Hev Heq) as (d & -> & Htrig).
      rewrite (handle_inert config programDeployer ev s d);
        [| rewrite Heq; exact Hd | exact Htrig].
      apply IH; assumption.
    + destruct (handle_footprint config programDeployer ev s)
        as (_ & l & t & Ht & _ & Hdb & Hab).
      specialize (Hab Hk).
      pose proof (handle_store_keyed config programDeployer ev s Hk) as Hk1.
      set (s1 := (handle config programDeployer ev s).2) in *.
      assert (Hd1 : db s1 !! deployment_key loan = o).
      { rewrite Hdb, (replay_about_other (target ev) loan); [exact Hd | exact Hab | auto]. }
      destruct (IH s1 Hk1 Hd1 Hevs) as (Hfin & Hnone). cbv zeta in Hfin, Hnone.
      split; [exact Hfin |].
      destruct (run_trace config programDeployer evs s1) as (t2 & Ht2).
      rewrite (since_app s1 _ t2 Ht2) in Hnone.
      rewrite (since_app s _ (t ++ t2)) by (rewrite Ht2, Ht, app_assoc; reflexivity).
      apply Forall_app. split; [| exact Hnone].
      eapply Forall_impl; [exact Hab |].
      intros [] He Hw; cbn [about writes_to] in *; try contradiction.
      destruct He as (-> & _). apply deployment_key_inj in Hw. congruence.
Qed.

(** X3. Loans are handled independently of each other: in a store that is
    filed by loan, a run of events none of which is about a given loan
    leaves that loan's record as it is (or absent) and writes nothing under
    its key, whatever happens to the loans the events are about. *)
Theorem other_loans_untouched (other : string) (evs : list Event) (s : Sys W) :
  store_keyed (db s) →
  Forall (λ ev, target ev ≠ other) evs →
  let s' := run config programDeployer evs s in
  db s' !! deployment_key other = db s !! deployment_key other
  ∧ Forall (λ e, ¬ writes_to other e) (since s s').
Proof.
  intros Hk Hevs. apply run_frame; [exact Hk | reflexivity |].
  eapply Forall_impl; [exact Hevs |]. intros ev Hne Heq. contradiction.
Qed.


End Lifecycle.

(** ** One deployment attempt, step by step *)

Section Attempt.

Context {W : Type} `{!Platform W}.
Variable config : DeployerConfig.
Variable programDeployer : ProgramDeployer.

Lemma fetchBinaryForLoan_run (loan who : string) (s : Sys W) :
  let source := path_join (binaryStoragePath config) "test-program.so" in
  let s' := {| db := db s; files := files s; world := world s;
               trace := trace s ++ [EReadFile source] |} in
  fetchBinaryForLoan config loan who s
  = match files s !! source with
    | Some binaryData => (Ok binaryData, s')
    | None =>
        (Throw {| message := "Binary not found for loan. Implement binary retrieval logic." |},
         s')
    end.
Proof.
  cbv zeta. unfold fetchBinaryForLoan, try_catch, fs_readFile, throw.
  destruct (files s !! path_join (binaryStoragePath config) "test-program.so"); reflexivity.
Qed.

Lemma deployProgram_ok (loan : string) (binaryData : list byte) (s s' : Sys W)
    (programKey bufferKey : PublicKey) (signature : string) :
  deployProgram programDeployer loan binaryData s = (Ok (programKey, bufferKey, signature), s') →
  ∃ rent : Z,
    trace s' = trace s
               ++ [EGetBalance (deployerPda programDeployer);
                   EGetMinimumBalanceForRentExemption (buf_length binaryData + 1000);
                   ESendTransaction
                     (deployTransaction programDeployer bufferKey programKey rent binaryData)
                     [deployerWallet programDeployer; bufferKey; programKey]]
    ∧ db s' = db s ∧ files s' = files s.
Proof.
  unfold deployProgram, mbind, Prog_bind, prog_bind, mret, Prog_ret, prog_ret, call, ask.
  cbn [fst snd world db files trace].
  destruct (getBalance (deployerPda programDeployer) (world s)) as [[balance|e0] w0];
    cbn [fst snd world db files trace]; [| discriminate].
  destruct (Keypair_generate w0) as [bufferKeypair w1]. cbn [fst snd world db files trace].
  destruct (Keypair_generate w1) as [programKeypair w2]. cbn [fst snd world db files trace].
  destruct (getMinimumBalanceForRentExemption (buf_length binaryData + 1000) w2)
    as [[rent|e1] w3]; cbn [fst snd world db files trace]; [| discriminate].
  destruct (sendAndConfirmTransaction _ _ w3) as [[sig|e2] w4];
    cbn [fst snd world db files trace]; [| discriminate].
  intros [= <- <- <- <-]. exists rent. cbn [trace db files].
  rewrite <- !app_assoc. auto.
Qed.

(** A failed call of [deployProgram] leaves the store and the binary
    directory alone, and has sent at most the one transaction that
    failed. *)
Lemma setDeployedProgram_ok (loan : string) (programKey : PublicKey) (s s' : Sys W)
    (setTx : string) :
  setDeployedProgram programDeployer loan programKey s = (Ok setTx, s') →
  is_Some (adminWallet programDeployer)
  ∧ trace s' = trace s ++ [ESetDeployedProgram loan programKey]
  ∧ db s' = db s ∧ files s' = files s.
Proof.
  unfold setDeployedProgram, call, throw.
  destruct (adminWallet programDeployer); [| discriminate].
  destruct (methods_setDeployedProgram loan programKey (world s)) as [[tx|e] w];
    cbn [fst snd]; [| discriminate].
  intros [= <- <-]. cbn [trace db files]. eauto.
Qed.

Lemma processDeployment_success (d : DeploymentRecord) (s : Sys W) :
  let r := processDeployment config programDeployer (d, s) in
  r.1 = Ok tt →
  ∃ (binaryData : list byte) (bufferKey programKey : PublicKey) (rent : Z)
    (signature setTx : string) (now' : Z),
    let loan := loanId d in
    let key := deployment_key loan in
    let source := path_join (binaryStoragePath config) "test-program.so" in
    let hash := sha256_hex binaryData in
    let d1 := set_updatedAt (Date_now (world s)).1 (set_status deploying d) in
    files s !! source = Some binaryData
    ∧ valid (validateBinary binaryData) = true
    ∧ is_Some (adminWallet programDeployer)
    ∧ r.2.1 = deployed_record d (Date_now (world s)).1 now' hash programKey bufferKey
                signature setTx
    ∧ trace r.2.2
      = trace s
        ++ [EDbPut key d1;
            EReadFile source;
            EWriteFile (binary_path config loan hash) binaryData;
            EGetBalance (deployerPda programDeployer);
            EGetMinimumBalanceForRentExemption (buf_length binaryData + 1000);
            ESendTransaction
              (deployTransaction programDeployer bufferKey programKey rent binaryData)
              [deployerWallet programDeployer; bufferKey; programKey];
            ESetDeployedProgram loan programKey;
            EDbPut key r.2.1]
    ∧ files r.2.2 = <[binary_path config loan hash := binaryData]> (files s)
    ∧ db r.2.2 = <[key := r.2.1]> (db s).
Proof.
  cbv zeta. unfold processDeployment.
  unfold mbind, Prog_bind, prog_bind, mret, Prog_ret, prog_ret, this_deployment,
    assign, save_this, on_sys, saveDeployment, ask, throw.
  cbn -[fetchBinaryForLoan storeBinary deployProgram setDeployedProgram validateBinary
        deployment_key].
  rewrite fetchBinaryForLoan_run. cbv zeta. cbn [files].
  destruct (files s !! path_join (binaryStoragePath config) "test-program.so")
    as [binaryData|] eqn:Hfile; cbn [fst snd]; [| discriminate].
  destruct (valid (validateBinary binaryData)) eqn:Hvalid; cbn [negb fst snd];
    [| discriminate].
  unfold storeBinary, fs_writeFile, mbind, Prog_bind, prog_bind, mret, Prog_ret, prog_ret.
  cbn [fst snd db files world trace].
  match goal with
  | |- context [deployProgram programDeployer ?l ?b ?s0] =>
      destruct (deployProgram programDeployer l b s0)
        as [[[[programKey bufferKey] signature]|e] s3] eqn:Hdeploy
  end; cbn [fst snd]; [| discriminate].
  apply deployProgram_ok in Hdeploy as (rent & Ht3 & Hdb3 & Hf3).
  cbn [trace db files] in Ht3, Hdb3, Hf3.
  destruct (setDeployedProgram programDeployer (loanId d) programKey s3)
    as [[setTx|e] s4] eqn:Hset; cbn [fst snd]; [| discriminate].
  apply setDeployedProgram_ok in Hset as (Hadmin & Ht4 & Hdb4 & Hf4).
  intros _.
  exists binaryData, bufferKey, programKey, rent, signature, setTx, (Date_now (world s4)).1.
  cbn [trace db files fst snd].
  rewrite Ht4, Ht3, Hdb4, Hdb3, Hf4, Hf3, <- !app_assoc.
  cbn [loanId set_updatedAt set_status set_setDeployedTxSignature set_deployTxSignature
       set_bufferAccount set_programId set_binaryHash deployed_record].
  rewrite insert_insert_eq.
  repeat split; try reflexivity; assumption.
Qed.

(** An attempt that finds no usable binary. *)
Lemma processDeployment_unusable (d : DeploymentRecord) (s : Sys W) (text : string) :
  let key := deployment_key (loanId d) in
  let source := path_join (binaryStoragePath config) "test-program.so" in
  let d1 := set_updatedAt (Date_now (world s)).1 (set_status deploying d) in
  unusable_binary (files s !! source) text →
  processDeployment config programDeployer (d, s)
  = (Throw {| message := text |},
     (d1, {| db := <[key := d1]> (db s); files := files s;
             world := (Date_now (world s)).2;
             trace := trace s ++ [EDbPut key d1; EReadFile source] |})).
Proof.
  cbv zeta. intros Hbin. unfold processDeployment.
  unfold mbind, Prog_bind, prog_bind, mret, Prog_ret, prog_ret, this_deployment,
    assign, save_this, on_sys, saveDeployment, ask, throw.
  cbn -[fetchBinaryForLoan storeBinary deployProgram setDeployedProgram validateBinary
        deployment_key].
  rewrite fetchBinaryForLoan_run. cbv zeta. cbn [files].
  destruct (files s !! path_join (binaryStoragePath config) "test-program.so")
    as [binaryData|]; cbn [unusable_binary] in Hbin.
  - destruct Hbin as (why & Hwhy & ->). cbn [fst snd]. rewrite Hwhy.
    cbn [valid reason negb default fst snd db files world trace].
    rewrite <- app_assoc. reflexivity.
  - subst text. cbn [fst snd db files world trace]. rewrite <- app_assoc. reflexivity.
Qed.

Lemma unusable_text_nonempty (file : option (list byte)) (text : string) :
  unusable_binary file text → String_of_Error {| message := text |} = "Error: " +:+ text.
Proof.
  intros Hbin. unfold String_of_Error. cbn [message].
  destruct (decide (text = "")) as [Hempty|]; [| reflexivity].
  destruct file as [b|]; cbn [unusable_binary] in Hbin.
  - destruct Hbin as (why & _ & ->). discriminate Hempty.
  - subst text. discriminate Hempty.
Qed.

(** The retry loop when the binary is unusable: every attempt that is left
    is made and fails on the machine itself. *)
Lemma retryLoop_unusable (n : nat) :
  ∀ (attempts : Z) (d : DeploymentRecord) (s : Sys W) (text : string),
    maxRetries config - attempts = Z.of_nat (S n) →
    unusable_binary
      (files s !! path_join (binaryStoragePath config) "test-program.so") text →
    let r := retryLoop config programDeployer attempts (d, s) in
    status r.2.1 = failed
    ∧ error r.2.1 = Some ("Error: " +:+ text)
    ∧ programId r.2.1 = programId d
    ∧ binaryHash r.2.1 = binaryHash d
    ∧ db r.2.2 !! deployment_key (loanId d) = Some r.2.1
    ∧ files r.2.2 = files s
    ∧ ∃ t, trace r.2.2 = trace s ++ t
           ∧ Forall local_effect t
           ∧ attempts_started (loanId d) t = S n.
Proof.
  induction n as [|n IH]; intros attempts d s text Hleft Hbin; cbv zeta;
    rewrite retryLoop_step, decide_True by lia;
    rewrite (processDeployment_unusable d s text Hbin); cbv zeta.
  - rewrite decide_True by lia.
    unfold mbind, Prog_bind, prog_bind, assign, save_this, on_sys, saveDeployment.
    cbn [fst snd db files trace].
    rewrite (unusable_text_nonempty _ _ Hbin).
    cbn [status error programId binaryHash loanId set_error set_status set_updatedAt].
    split; [reflexivity | split; [reflexivity | split; [reflexivity | split; [reflexivity |]]]].
    split; [apply lookup_insert_eq | split; [reflexivity |]].
    eexists. rewrite <- app_assoc. split; [reflexivity |].
    split; [repeat constructor |].
    change (?a :: ?b :: ?l) with ([a] ++ [b] ++ l).
    rewrite !attempts_started_app, !attempts_started_put.
    cbn [status set_error set_status set_updatedAt].
    rewrite decide_True by reflexivity. rewrite decide_False by discriminate. reflexivity.
  - rewrite decide_False by lia.
    cbn [on_sys sleep fst snd db files world trace].
    match goal with
    | |- context [retryLoop config programDeployer (attempts + 1) (?d1, ?s1)] =>
        specialize (IH (attempts + 1) d1 s1 text ltac:(lia) Hbin)
    end.
    cbv zeta in IH. cbn [db files trace loanId programId binaryHash set_updatedAt set_status] in IH.
    destruct IH as (Hst & Herr & Hprog & Hhash & Hdb & Hfiles & t & Ht & Hlocal & Hn).
    split; [exact Hst | split; [exact Herr | split; [exact Hprog | split; [exact Hhash |]]]].
    split; [exact Hdb | split; [exact Hfiles |]].
    eexists. rewrite Ht, <- !app_assoc. split; [reflexivity |].
    split; [rewrite !Forall_app; repeat split; [repeat constructor.. | exact Hlocal] |].
    rewrite !attempts_started_app, Hn.
    change ([?a; ?b]) with ([a] ++ [b]).
    rewrite !attempts_started_app, !attempts_started_put.
    cbn [status set_updatedAt set_status].
    rewrite decide_True by reflexivity. reflexivity.
Qed.

(** X5. A successful deployment attempt performs exactly eight effects, in
    this order: it writes the record as [deploying], reads the test
    program, stores it under its digest, reads the balance of the
    intermediary address, asks for the rent of an account of the binary's
    length plus 1000 bytes, sends one transaction, which is the deployment
    transaction for the two keys generated in this attempt, signed by the
    deployer wallet and those two keys, registers the program with the
    lending program, and writes the record as [deployed].  The program
    registered is the program deployed, and the record names it, the
    buffer, both signatures and the digest of the binary, which is one
    that passes validation. *)
Theorem successful_attempt_effects (d : DeploymentRecord) (s : Sys W) :
  let r := processDeployment config programDeployer (d, s) in
  let loan := loanId d in
  let key := deployment_key loan in
  let source := path_join (binaryStoragePath config) "test-program.so" in
  r.1 = Ok tt →
  ∃ (binaryData : list byte) (bufferKey programKey : PublicKey) (rent : Z)
    (signature setTx : string) (d1 : DeploymentRecord),
    files s !! source = Some binaryData
    ∧ valid (validateBinary binaryData) = true
    ∧ status d1 = deploying
    ∧ since s r.2.2
      = [EDbPut key d1;
         EReadFile source;
         EWriteFile (binary_path config loan (sha256_hex binaryData)) binaryData;
         EGetBalance (deployerPda programDeployer);
         EGetMinimumBalanceForRentExemption (buf_length binaryData + 1000);
         ESendTransaction
           (deployTransaction programDeployer bufferKey programKey rent binaryData)
           [deployerWallet programDeployer; bufferKey; programKey];
         ESetDeployedProgram loan programKey;
         EDbPut key r.2.1]
    ∧ db r.2.2 !! key = Some r.2.1
    ∧ status r.2.1 = deployed
    ∧ programId r.2.1 = Some (toBase58 programKey)
    ∧ bufferAccount r.2.1 = Some (toBase58 bufferKey)
    ∧ deployTxSignature r.2.1 = Some signature
    ∧ setDeployedTxSignature r.2.1 = Some setTx
    ∧ binaryHash r.2.1 = Some (sha256_hex binaryData).
Proof.
  cbv zeta. intros Hok.
  destruct (processDeployment_success d s Hok)
    as (binaryData & bufferKey & programKey & rent & signature & setTx & now'
        & Hfile & Hvalid & _ & Hrec & Htr & _ & Hdb).
  cbv zeta in Hrec, Htr, Hdb.
  exists binaryData, bufferKey, programKey, rent, signature, setTx,
    (set_updatedAt (Date_now (world s)).1 (set_status deploying d)).
  rewrite (since_app _ _ _ Htr), Hdb, lookup_insert_eq, Hrec.
  repeat split; try reflexivity; assumption.
Qed.

(** X6. The binary that a successful attempt deployed can be read back:
    [getBinary], given the loan and the digest that the record carries,
    returns the very bytes that went into the deployment transaction, and
    [getBinary] of what [storeBinary] has just stored returns it in every
    case. *)
Theorem deployed_binary_can_be_read_back (d : DeploymentRecord) (s : Sys W)
    (loan : string) (data : list byte) :
  (getBinary config loan (sha256_hex data) (storeBinary config loan data s).2).1 = Ok data
  ∧ (let r := processDeployment config programDeployer (d, s) in
     r.1 = Ok tt →
     ∃ (hash : string) (binaryData : list byte) (bufferKey programKey : PublicKey) (rent : Z),
       binaryHash r.2.1 = Some hash
       ∧ (getBinary config (loanId d) hash r.2.2).1 = Ok binaryData
       ∧ ESendTransaction
           (deployTransaction programDeployer bufferKey programKey rent binaryData)
           [deployerWallet programDeployer; bufferKey; programKey] ∈ since s r.2.2).
Proof.
  split.
  - unfold getBinary, storeBinary, fs_readFile, fs_writeFile, mbind, Prog_bind, prog_bind,
      mret, Prog_ret, prog_ret.
    cbn [fst snd files]. rewrite lookup_insert_eq. reflexivity.
  - cbv zeta. intros Hok.
    destruct (processDeployment_success d s Hok)
      as (binaryData & bufferKey & programKey & rent & signature & setTx & now'
          & _ & _ & _ & Hrec & Htr & Hfiles & _).
    cbv zeta in Hrec, Htr, Hfiles.
    exists (sha256_hex binaryData), binaryData, bufferKey, programKey, rent.
    split; [rewrite Hrec; reflexivity |].
    split.
    + unfold getBinary, fs_readFile. rewrite Hfiles, lookup_insert_eq. reflexivity.
    + rewrite (since_app _ _ _ Htr). rewrite !elem_of_cons. auto 8.
Qed.

(** X7. An attempt that finds the test program missing, or finds it
    failing validation, throws the respective error after two effects:
    the write of the record as [deploying] and the reading of the file.
    Nothing is stored in the binary directory and the chain is not
    called. *)
Theorem attempt_without_usable_binary (d : DeploymentRecord) (s : Sys W) (text : string) :
  let r := processDeployment config programDeployer (d, s) in
  let key := deployment_key (loanId d) in
  let source := path_join (binaryStoragePath config) "test-program.so" in
  unusable_binary (files s !! source) text →
  r.1 = Throw {| message := text |}
  ∧ (∃ d1, since s r.2.2 = [EDbPut key d1; EReadFile source]
           ∧ status d1 = deploying
           ∧ db r.2.2 = <[key := d1]> (db s))
  ∧ files r.2.2 = files s.
Proof.
  cbv zeta. intros Hbin. rewrite (processDeployment_unusable d s text Hbin).
  cbv zeta. cbn [fst snd files db].
  split; [reflexivity | split; [| reflexivity]].
  eexists. split; [apply since_app; reflexivity | split; reflexivity].
Qed.

(** X8. A failure of the binary is retried like any other: when at least
    one attempt is allowed and the test program is missing or fails
    validation, the handling of [loanRequested] for a loan that is not in
    hand makes all [maxRetries] attempts, each of which fails in the same
    way, and persists the record as [failed] with the text of that error;
    all of its effects stay on the machine (store writes, timers, file
    reads), so no transaction is sent and no binary is stored, and the
    record names neither a program nor a digest. *)
Theorem unusable_binary_exhausts_retries (event : LoanRequested) (s : Sys W) (text : string) :
  let loan := ev_loanId event in
  let source := path_join (binaryStoragePath config) "test-program.so" in
  let s' := (handleLoanRequested config programDeployer event s).2 in
  1 <= maxRetries config →
  already_processing (db s !! deployment_key loan) = false →
  unusable_binary (files s !! source) text →
  (∃ d', db s' !! deployment_key loan = Some d'
         ∧ status d' = failed
         ∧ error d' = Some ("Error: " +:+ text)
         ∧ programId d' = None
         ∧ binaryHash d' = None)
  ∧ Z.of_nat (attempts_started loan (since s s')) = maxRetries config
  ∧ Forall local_effect (since s s')
  ∧ files s' = files s.
Proof.
  cbv zeta. intros Hpos Hguard Hbin.
  rewrite handleLoanRequested_step, Hguard. cbv zeta.
  unfold with_object, processDeploymentWithRetries.
  match goal with
  | |- context [retryLoop config programDeployer 0 (?d0, ?s0)] =>
      pose proof (retryLoop_unusable (Z.to_nat (maxRetries config) - 1) 0 d0 s0 text
                    ltac:(lia) Hbin) as Hloop;
      set (r := retryLoop config programDeployer 0 (d0, s0)) in *
  end.
  cbv zeta in Hloop. cbn [db files trace loanId programId binaryHash] in Hloop.
  destruct Hloop as (Hst & Herr & Hprog & Hhash & Hdb & Hfiles & t & Ht & Hlocal & Hn).
  cbn [fst snd].
  split; [exists r.2.1; auto 6 |].
  erewrite since_app by (rewrite Ht, <- app_assoc; reflexivity).
  split.
  { rewrite attempts_started_app, Hn, attempts_started_put.
    rewrite decide_False by discriminate. lia. }
  split; [| exact Hfiles].
  apply Forall_app. split; [repeat constructor | exact Hlocal].
Qed.

End Attempt.

(** ** Recovery, step by step *)

Section Recovery.

Context {W : Type} `{!Platform W}.
Variable config : DeployerConfig.
Variable programDeployer : ProgramDeployer.

(** A call of [closeProgram] that returns: the account of the program was
    found, the transaction that closes its data account was confirmed, and
    the amount reported is the balance of the intermediary address as read
    after that, divided by [LAMPORTS_PER_SOL]. *)
Lemma closeProgram_ok (loan : string) (program : PublicKey) (s s' : Sys W)
    (reclaimedSol : number) (signature : string) :
  closeProgram programDeployer loan program s = (Ok (reclaimedSol, signature), s') →
  ∃ (info : AccountInfo) (programData : PublicKey) (afterBalance : Z) (w0 w1 : W),
    getAccountInfo program (world s) = (Ok (Some info), w0)
    ∧ PublicKey_of_bytes (subarray (account_data info) 4 36) = Ok programData
    ∧ sendAndConfirmTransaction (closeTransaction programDeployer programData program)
        [deployerWallet programDeployer] w0 = (Ok signature, w1)
    ∧ getBalance (deployerPda programDeployer) w1 = (Ok afterBalance, world s')
    ∧ reclaimedSol = Number_div (Number_of_Z afterBalance) (Number_of_Z LAMPORTS_PER_SOL)
    ∧ trace s' = trace s
                 ++ [EGetAccountInfo program;
                     ESendTransaction (closeTransaction programDeployer programData program)
                       [deployerWallet programDeployer];
                     EGetBalance (deployerPda programDeployer)]
    ∧ db s' = db s ∧ files s' = files s.
Proof.
  unfold closeProgram, mbind, Prog_bind, prog_bind, mret, Prog_ret, prog_ret, call, throw.
  cbn [fst snd world db files trace].
  destruct (getAccountInfo program (world s)) as [[[info|]|e0] w0];
    cbn [fst snd world db files trace]; try discriminate.
  destruct (PublicKey_of_bytes (subarray (account_data info) 4 36)) as [programData|e1]
    eqn:Hkey; try discriminate.
  destruct (sendAndConfirmTransaction _ _ w0) as [[sig|e2] w1] eqn:Hsend;
    cbn [fst snd world db files trace]; try discriminate.
  destruct (getBalance (deployerPda programDeployer) w1) as [[balance|e3] w2] eqn:Hbal;
    cbn [fst snd world db files trace]; try discriminate.
  intros [= <- <- <-]. exists info, programData, balance, w0, w1.
  cbn [trace db files world]. rewrite <- !app_assoc.
  unfold closeTransaction. auto 9.
Qed.


Lemma returnReclaimedSol_step (loan : string) (amount : number) (s : Sys W) :
  returnReclaimedSol loan amount s
  = match BN_of_number (Number_mul amount (Number_of_Z LAMPORTS_PER_SOL)) with
    | Ok amountLamports =>
        call (EReturnReclaimedSol loan amountLamports)
             (methods_returnReclaimedSol loan amountLamports) s
    | Throw e => (Throw e, s)
    end.
Proof.
  unfold returnReclaimedSol, mbind, Prog_bind, prog_bind.
  destruct (BN_of_number _); reflexivity.
Qed.

(** [processRecovery] on a record that is [deployed], in terms of its
    [try] block run from the state in which the record was found. *)
Lemma processRecovery_deployed (loan : string) (d : DeploymentRecord) (s : Sys W) :
  db s !! deployment_key loan = Some d →
  status d = deployed →
  processRecovery programDeployer loan s
  = match recoveryBody programDeployer loan (d, s) with
    | (Ok _, st) => (Ok tt, st.2)
    | (Throw e, st) =>
        (Ok tt,
         {| db := <[deployment_key (loanId st.1)
                    := set_error (String_of_Error e) (set_status failed st.1)]> (db st.2);
            files := files st.2; world := world st.2;
            trace := trace st.2
                     ++ [EDbPut (deployment_key (loanId st.1))
                           (set_error (String_of_Error e) (set_status failed st.1))] |})
    end.
Proof.
  intros Hd Hst. rewrite processRecovery_step, Hd. cbn [not_deployed].
  rewrite bool_decide_eq_false_2 by (rewrite Hst; auto).
  unfold with_object, try_catch.
  destruct (recoveryBody programDeployer loan (d, s)) as [[[]|e] [d' s']]; [reflexivity |].
  reflexivity.
Qed.

(** The [try] block, up to the call of [closeProgram]. *)
Lemma recoveryBody_enter (loan : string) (d : DeploymentRecord) (s : Sys W)
    (text : string) (program : PublicKey) :
  programId d = Some text → text ≠ "" →
  PublicKey_of_string text = Ok program →
  recoveryBody programDeployer loan (d, s)
  = let d1 := recovering_record d s in
    match closeProgram programDeployer loan program (recovery_entered d s) with
    | (Throw e, s2) => (Throw e, (d1, s2))
    | (Ok (reclaimedSol, signature), s2) =>
        match returnReclaimedSol loan reclaimedSol s2 with
        | (Throw e, s3) => (Throw e, (d1, s3))
        | (Ok _, s3) =>
            let d2 := set_updatedAt (Date_now (world s3)).1
                        (set_status recovered (set_recoveryTxSignature signature d1)) in
            (Ok tt,
             (d2, {| db := <[deployment_key (loanId d) := d2]> (db s3);
                     files := files s3; world := (Date_now (world s3)).2;
                     trace := trace s3 ++ [EDbPut (deployment_key (loanId d)) d2] |}))
        end
    end.
Proof.
  intros Hprog Hne Hkey. unfold recoveryBody.
  unfold mbind, Prog_bind, prog_bind, mret, Prog_ret, prog_ret, this_deployment,
    assign, save_this, on_sys, saveDeployment, ask, throw.
  cbn -[closeProgram returnReclaimedSol deployment_key truthy].
  rewrite Hprog. cbn [truthy default]. rewrite bool_decide_eq_true_2 by exact Hne.
  change (id text) with text. rewrite Hkey. cbn [fst snd].
  change {| db := _; files := files s; world := _; trace := _ |} with (recovery_entered d s).
  change (set_updatedAt (Date_now (world s)).1 (set_status recovering d))
    with (recovering_record d s).
  destruct (closeProgram programDeployer loan program (recovery_entered d s))
    as [[[reclaimedSol signature]|e] s2]; cbn [fst snd]; [| reflexivity].
  destruct (returnReclaimedSol loan reclaimedSol s2) as [[returnTx|e] s3];
    cbn [fst snd]; reflexivity.
Qed.

Lemma recoveryBody_without_program (loan : string) (d : DeploymentRecord) (s : Sys W) :
  truthy (programId d) = false →
  recoveryBody programDeployer loan (d, s)
  = (Ok tt, (recovering_record d s, recovery_entered d s)).
Proof.
  intros Hfalsy. unfold recoveryBody.
  unfold mbind, Prog_bind, prog_bind, mret, Prog_ret, prog_ret, this_deployment,
    assign, save_this, on_sys, saveDeployment, ask, throw.
  cbn -[closeProgram returnReclaimedSol deployment_key truthy].
  rewrite Hfalsy. reflexivity.
Qed.

Lemma recoveryBody_bad_key (loan : string) (d : DeploymentRecord) (s : Sys W)
    (text : string) (e : Error) :
  programId d = Some text → text ≠ "" →
  PublicKey_of_string text = Throw e →
  recoveryBody programDeployer loan (d, s)
  = (Throw e, (recovering_record d s, recovery_entered d s)).
Proof.
  intros Hprog Hne Hkey. unfold recoveryBody.
  unfold mbind, Prog_bind, prog_bind, mret, Prog_ret, prog_ret, this_deployment,
    assign, save_this, on_sys, saveDeployment, ask, throw.
  cbn -[closeProgram returnReclaimedSol deployment_key truthy].
  rewrite Hprog. cbn [truthy default]. rewrite bool_decide_eq_true_2 by exact Hne.
  change (id text) with text. rewrite Hkey. reflexivity.
Qed.

(** After [processRecovery] the record of the loan, if there is one, is
    not [deployed] any more. *)
Lemma processRecovery_leaves_not_deployed (loan : string) (s : Sys W) :
  store_keyed (db s) →
  not_deployed (db (processRecovery programDeployer loan s).2 !! deployment_key loan) = true.
Proof.
  intros Hk.
  destruct (db s !! deployment_key loan) as [d|] eqn:Hd.
  2:{ rewrite processRecovery_step, Hd. cbn [not_deployed snd]. rewrite Hd. reflexivity. }
  destruct (decide (status d = deployed)) as [Hst|Hst].
  2:{ rewrite processRecovery_step, Hd. cbn [not_deployed].
      rewrite bool_decide_eq_true_2 by exact Hst. cbn [snd]. rewrite Hd.
      cbn [not_deployed]. apply bool_decide_eq_true_2, Hst. }
  assert (Hloan : loanId d = loan) by (apply Hk, deployment_key_inj in Hd; auto).
  rewrite (processRecovery_deployed loan d s Hd Hst).
  destruct (recoveryBody_run programDeployer loan d s) as (now & t & _ & Hl & Hcases).
  cbv zeta in Hl, Hcases.
  destruct (recoveryBody programDeployer loan (d, s)) as [res [d' s']].
  cbn [fst snd] in *.
  destruct Hcases as [(-> & _ & -> & _ & Hdb)
                     | [(-> & _ & Hrec & _ & _ & Hdb) | (Hres & _ & -> & _ & Hdb)]].
  - cbn [snd]. rewrite Hdb, Hloan, lookup_insert_eq. reflexivity.
  - cbn [snd]. rewrite Hdb, Hloan, lookup_insert_eq. cbn [not_deployed].
    rewrite Hrec. reflexivity.
  - destruct res as [[]|e]; [contradiction |]. cbn [snd db].
    change (loanId (set_updatedAt ?x (set_status ?y ?r))) with (loanId r).
    rewrite Hloan, lookup_insert_eq. reflexivity.
Qed.

(** What [closeProgram] does when it throws: it has not called "return
    reclaimed SOL". *)
Lemma closeProgram_returns_nothing (loan : string) (program : PublicKey) (s : Sys W) :
  ∃ t, trace (closeProgram programDeployer loan program s).2 = trace s ++ t
       ∧ returned_amounts t = [].
Proof.
  unfold closeProgram, mbind, Prog_bind, prog_bind, mret, Prog_ret, prog_ret, call, throw.
  cbn [fst snd world db files trace].
  destruct (getAccountInfo program (world s)) as [[[info|]|e0] w0];
    cbn [fst snd world db files trace]; try (eexists; split; reflexivity).
  destruct (PublicKey_of_bytes (subarray (account_data info) 4 36)) as [programData|e1];
    cbn [fst snd world db files trace]; try (eexists; split; reflexivity).
  destruct (sendAndConfirmTransaction _ _ w0) as [[sig|e2] w1];
    cbn [fst snd world db files trace];
    try (eexists; split; [rewrite <- ?app_assoc |]; reflexivity).
  destruct (getBalance (deployerPda programDeployer) w1) as [[balance|e3] w2];
    cbn [fst snd world db files trace];
    eexists; (split; [rewrite <- ?app_assoc |]; reflexivity).
Qed.

(** The closing transaction marks the upgrade authority as signer, and
    the deployer wallet is the only one to sign it. *)
Lemma closeTransaction_unsigned (programData program : PublicKey) :
  authorityPda programDeployer ≠ deployerWallet programDeployer →
  ¬ signers_cover (closeTransaction programDeployer programData program)
      [deployerWallet programDeployer].
Proof.
  intros Hne Hcover.
  specialize (Hcover _ (authorityPda programDeployer) (list_elem_of_here _ _)).
  cbn [required_signers createCloseAccountInstruction keys app] in Hcover.
  rewrite filter_cons_False, filter_cons_False, filter_cons_True, filter_cons_False
    in Hcover by (cbn; done).
  apply list_elem_of_singleton in Hcover; [contradiction | apply list_elem_of_here].
Qed.

(** On a platform that verifies signatures, [closeProgram] always throws. *)
Lemma closeProgram_unsigned (loan : string) (program : PublicKey) (s : Sys W) :
  checks_signatures W →
  authorityPda programDeployer ≠ deployerWallet programDeployer →
  is_throw (closeProgram programDeployer loan program s).1.
Proof.
  intros Hchecks Hne.
  destruct (closeProgram programDeployer loan program s) as [[[sol sig]|e] s'] eqn:Hclose;
    [| exact I].
  apply closeProgram_ok in Hclose as (info & programData & b & w0 & w1 & _ & _ & Hsend & _).
  pose proof (Hchecks _ _ w0 (closeTransaction_unsigned programData program Hne)) as Hthrow.
  rewrite Hsend in Hthrow. exact Hthrow.
Qed.

(** The effects of [processRecovery]: either "return reclaimed SOL" is
    not called, or the effects are the six of a recovery that got as far
    as that call, which is made with an amount computed from the balance
    read after the closing transaction. *)
Lemma processRecovery_effects (loan : string) (s : Sys W) :
  let r := processRecovery programDeployer loan s in
  let did := since s r.2 in
  let pda := deployerPda programDeployer in
  returned_amounts did = []
  ∨ ∃ (key : string) (d1 : DeploymentRecord) (program programData : PublicKey)
      (closeSignature : string) (w0 w1 w2 : W) (afterBalance amountLamports : Z)
      (last : DeploymentRecord),
      did = [EDbPut key d1;
             EGetAccountInfo program;
             ESendTransaction (closeTransaction programDeployer programData program)
               [deployerWallet programDeployer];
             EGetBalance pda;
             EReturnReclaimedSol loan amountLamports;
             EDbPut key last]
      ∧ sendAndConfirmTransaction (closeTransaction programDeployer programData program)
          [deployerWallet programDeployer] w0 = (Ok closeSignature, w1)
      ∧ getBalance pda w1 = (Ok afterBalance, w2)
      ∧ lamports_passed afterBalance = Ok amountLamports.
Proof.
  cbv zeta.
  destruct (db s !! deployment_key loan) as [d|] eqn:Hd.
  2:{ left. rewrite processRecovery_step, Hd. cbn [not_deployed snd].
      rewrite (since_app s s []) by (symmetry; apply app_nil_r). reflexivity. }
  destruct (decide (status d = deployed)) as [Hst|Hst].
  2:{ left. rewrite processRecovery_step, Hd. cbn [not_deployed].
      rewrite bool_decide_eq_true_2 by exact Hst. cbn [snd].
      rewrite (since_app s s []) by (symmetry; apply app_nil_r). reflexivity. }
  rewrite (processRecovery_deployed loan d s Hd Hst).
  destruct (truthy (programId d)) eqn:Htruthy.
  2:{ left. rewrite (recoveryBody_without_program loan d s Htruthy).
      cbn [snd]. erewrite since_app by reflexivity. reflexivity. }
  destruct (programId d) as [text|] eqn:Hprog; [| discriminate].
  cbn [truthy] in Htruthy. apply bool_decide_eq_true in Htruthy.
  destruct (PublicKey_of_string text) as [program|e] eqn:Hkey.
  { rewrite (recoveryBody_enter loan d s text program Hprog Htruthy Hkey). cbv zeta.
    destruct (closeProgram programDeployer loan program (recovery_entered d s))
      as [[[reclaimedSol signature]|e] s2] eqn:Hclose.
    - apply closeProgram_ok in Hclose
        as (info & programData & balance & w0 & w1 & _ & _ & Hsend & Hbal & -> & Ht2 & _).
      rewrite returnReclaimedSol_step.
      fold (lamports_passed balance).
      destruct (lamports_passed balance) as [amountLamports|e] eqn:Hbn.
      + right.
        exists (deployment_key (loanId d)), (recovering_record d s), program, programData,
          signature, w0, w1, (world s2), balance, amountLamports.
        unfold call.
        destruct (methods_returnReclaimedSol loan amountLamports (world s2)) as [[tx|e] w3];
          cbn [fst snd trace]; eexists;
          (split; [apply since_app; rewrite Ht2; cbn [trace recovery_entered];
                   rewrite <- !app_assoc; reflexivity | auto]).
      + left. cbn [fst snd trace].
        erewrite since_app
          by (rewrite Ht2; cbn [trace recovery_entered]; rewrite <- !app_assoc; reflexivity).
        reflexivity.
    - left. destruct (closeProgram_returns_nothing loan program (recovery_entered d s))
        as (t & Ht & Hnone).
      rewrite Hclose in Ht. cbn [snd] in Ht. cbn [fst snd trace].
      erewrite since_app
        by (rewrite Ht; cbn [trace recovery_entered]; rewrite <- !app_assoc; reflexivity).
      rewrite !returned_amounts_app, Hnone. reflexivity. }
  left. rewrite (recoveryBody_bad_key loan d s text e Hprog Htruthy Hkey).
  cbn [fst snd trace recovery_entered].
  erewrite since_app by (rewrite <- !app_assoc; reflexivity). reflexivity.
Qed.

(** C6.  What recovery passes to "return reclaimed SOL".

    Whenever [processRecovery] calls the instruction, it has done exactly
    this before: written the record as [recovering], read the account of
    the program, sent the closing transaction, and read the balance of the
    intermediary address, once, after the closing transaction.  The
    amount passed is computed from that one reading: it is the integer
    part of [afterBalance / LAMPORTS_PER_SOL * LAMPORTS_PER_SOL] in
    binary64 arithmetic.  The balance before the closure is never read,
    so the amount is not the increase that the closure caused.

    Moreover the closing transaction marks the upgrade authority as
    signer and carries the signature of the deployer wallet only, so on a
    platform that verifies signatures before submitting, as the SDK does,
    [closeProgram] throws: recovery then never calls the instruction, and
    the record of a deployed loan that names a program ends [failed]. *)
Theorem recovery_amount_passed (loan : string) (s : Sys W) :
  let r := processRecovery programDeployer loan s in
  let did := since s r.2 in
  let pda := deployerPda programDeployer in
  (∀ amountLamports, amountLamports ∈ returned_amounts did →
     ∃ (key : string) (d1 : DeploymentRecord) (program programData : PublicKey)
       (closeSignature : string) (w0 w1 w2 : W) (afterBalance : Z) (last : DeploymentRecord),
       did = [EDbPut key d1;
              EGetAccountInfo program;
              ESendTransaction (closeTransaction programDeployer programData program)
                [deployerWallet programDeployer];
              EGetBalance pda;
              EReturnReclaimedSol loan amountLamports;
              EDbPut key last]
       ∧ sendAndConfirmTransaction (closeTransaction programDeployer programData program)
           [deployerWallet programDeployer] w0 = (Ok closeSignature, w1)
       ∧ getBalance pda w1 = (Ok afterBalance, w2)
       ∧ lamports_passed afterBalance = Ok amountLamports)
  ∧ (checks_signatures W →
     authorityPda programDeployer ≠ deployerWallet programDeployer →
     returned_amounts did = []
     ∧ ∀ d, db s !! deployment_key loan = Some d → loanId d = loan →
            status d = deployed → truthy (programId d) = true →
            ∃ d', db r.2 !! deployment_key loan = Some d'
                  ∧ status d' = failed ∧ is_Some (error d')).
Proof.
  cbv zeta. split.
  - intros amountLamports Hin.
    destruct (processRecovery_effects loan s)
      as [Hnone | (key & d1 & program & programData & closeSignature & w0 & w1 & w2
                   & afterBalance & passed & last & Hdid & Hsend & Hbal & Hpassed)];
      cbv zeta in *.
    + rewrite Hnone in Hin. apply elem_of_nil in Hin. contradiction.
    + rewrite Hdid in Hin. cbn in Hin. apply list_elem_of_singleton in Hin. subst passed.
      exists key, d1, program, programData, closeSignature, w0, w1, w2, afterBalance, last.
      auto.
  - intros Hchecks Hne. split.
    + destruct (processRecovery_effects loan s)
        as [Hnone | (key & d1 & program & programData & closeSignature & w0 & w1 & w2
                     & afterBalance & passed & last & _ & Hsend & _)];
        cbv zeta in *; [exact Hnone |].
      pose proof (Hchecks _ _ w0 (closeTransaction_unsigned programData program Hne)) as Hthrow.
      rewrite Hsend in Hthrow. contradiction.
    + intros d Hd Hloan Hst Htruthy.
      rewrite (processRecovery_deployed loan d s Hd Hst).
      destruct (programId d) as [text|] eqn:Hprog; [| discriminate].
      cbn [truthy] in Htruthy. apply bool_decide_eq_true in Htruthy.
      destruct (PublicKey_of_string text) as [program|e] eqn:Hkey.
      * rewrite (recoveryBody_enter loan d s text program Hprog Htruthy Hkey). cbv zeta.
        pose proof (closeProgram_unsigned loan program (recovery_entered d s) Hchecks Hne)
          as Hthrow.
        destruct (closeProgram programDeployer loan program (recovery_entered d s))
          as [[[reclaimedSol signature]|e] s2]; [contradiction |].
        cbn [fst snd db loanId recovering_record set_updatedAt set_status].
        rewrite Hloan, lookup_insert_eq. eexists. split; [reflexivity |].
        split; [reflexivity | eexists; reflexivity].
      * rewrite (recoveryBody_bad_key loan d s text e Hprog Htruthy Hkey).
        cbn [fst snd db loanId recovering_record set_updatedAt set_status].
        rewrite Hloan, lookup_insert_eq. eexists. split; [reflexivity |].
        split; [reflexivity | eexists; reflexivity].
Qed.


(** After [processRecovery] has run for a loan, no recovery event for that
    loan changes anything. *)
Lemma run_after_recovery (loan : string) (evs : list Event) (s : Sys W) :
  store_keyed (db s) →
  Forall (recovery_event loan) evs →
  run config programDeployer evs (processRecovery programDeployer loan s).2
  = (processRecovery programDeployer loan s).2.
Proof.
  intros Hk Hevs.
  pose proof (processRecovery_leaves_not_deployed loan s Hk) as Hnot.
  set (s1 := (processRecovery programDeployer loan s).2) in *. clearbody s1.
  induction Hevs as [|ev evs Hev _ IH]; [reflexivity |].
  cbn [run].
  assert (Hsame : handle config programDeployer ev s1 = (Ok tt, s1)).
  { destruct Hev as [-> | ->]; cbn [handle]; unfold handleLoanRecovered, handleLoanExpired;
      rewrite processRecovery_step, Hnot; reflexivity. }
  rewrite Hsame. exact IH.
Qed.


(** X11. A recovery that fails after the program was closed is final.
    When the record names a program, the closing transaction is confirmed
    and the "return reclaimed SOL" step then throws, the record is
    persisted as [failed] with the text of that error, the closing
    transaction is among the effects, the record keeps no trace of it
    ([recoveryTxSignature] is as before), and, in a store that is filed by
    loan, no later [loanRecovered] or [loanExpired] event makes the
    service try to return the amount again. *)
Theorem recovery_failing_after_close (loan text : string) (d : DeploymentRecord)
    (s s2 : Sys W) (program : PublicKey) (reclaimedSol : number) (signature : string)
    (e : Error) :
  let r := processRecovery programDeployer loan s in
  db s !! deployment_key loan = Some d →
  loanId d = loan →
  status d = deployed →
  programId d = Some text → text ≠ "" →
  PublicKey_of_string text = Ok program →
  closeProgram programDeployer loan program (recovery_entered d s)
  = (Ok (reclaimedSol, signature), s2) →
  (returnReclaimedSol loan reclaimedSol s2).1 = Throw e →
  (∃ d', db r.2 !! deployment_key loan = Some d'
         ∧ status d' = failed
         ∧ error d' = Some (String_of_Error e)
         ∧ recoveryTxSignature d' = recoveryTxSignature d)
  ∧ (∃ programData,
       ESendTransaction (closeTransaction programDeployer programData program)
         [deployerWallet programDeployer] ∈ since s r.2)
  ∧ (store_keyed (db s) →
     ∀ evs, Forall (recovery_event loan) evs → run config programDeployer evs r.2 = r.2).
Proof.
  cbv zeta. intros Hd Hloan Hst Hprog Hne Hkey Hclose Hreturn.
  split; [| split].
  3:{ intros Hk evs Hevs. apply run_after_recovery; assumption. }
  all: rewrite (processRecovery_deployed loan d s Hd Hst),
         (recoveryBody_enter loan d s text program Hprog Hne Hkey); cbv zeta;
       rewrite Hclose;
       destruct (returnReclaimedSol loan reclaimedSol s2) as [[returnTx|e'] s3] eqn:Hret;
       cbn [fst] in Hreturn; [discriminate |]; injection Hreturn as ->;
       cbn [fst snd db trace loanId recovering_record set_updatedAt set_status].
  - rewrite Hloan, lookup_insert_eq. eexists. split; [reflexivity |].
    split; [reflexivity | split; reflexivity].
  - apply closeProgram_ok in Hclose
      as (info & programData & balance & w0 & w1 & _ & _ & _ & _ & _ & Ht2 & _).
    exists programData.
    assert (Hquiet : ∃ t3, trace s3 = trace s2 ++ t3).
    { destruct (quiet_returnReclaimedSol loan reclaimedSol s2) as (t3 & Ht3 & _).
      rewrite Hret in Ht3. eauto. }
    destruct Hquiet as (t3 & Ht3).
    erewrite since_app
      by (rewrite Ht3, Ht2; cbn [trace recovery_entered]; rewrite <- !app_assoc; reflexivity).
    rewrite !elem_of_app, !elem_of_cons. auto.
Qed.

End Recovery.

(** *** Recovery at concrete inputs *)

Lemma signed_by_all_cover (tx : list Instruction) (signers : list PublicKey) :
  signed_by_all tx signers = true → signers_cover tx signers.
Proof.
  unfold signed_by_all. intros Hall ix pk Hix Hpk.
  apply Is_true_true, forallb_True in Hall.
  rewrite Forall_forall in Hall. specialize (Hall ix Hix).
  apply forallb_True in Hall. rewrite Forall_forall in Hall. specialize (Hall pk Hpk).
  apply Is_true_true in Hall. apply bool_decide_eq_true in Hall. exact Hall.
Qed.

Lemma StrictPlatform_checks_signatures : checks_signatures StrictWorld.
Proof.
  intros tx signers w Hnot. cbn [sendAndConfirmTransaction StrictPlatform].
  destruct (signed_by_all tx signers) eqn:Hall; [| exact I].
  contradict Hnot. apply signed_by_all_cover, Hall.
Qed.

(** Loan 42 is deployed while the intermediary address already holds 5
    lamports, on the platform that submits without verifying the
    signatures.  Closing the program raises the balance of that address
    by 7,906,560 lamports, from 5 to 7,906,565; the amount that recovery
    passes to "return reclaimed SOL" is 7,906,565, the whole balance. *)
Example recovery_with_idle_balance :
  let s := sim_deployed 5 in
  let pda := toBase58 (deployerPda sim_deployer) in
  let closed := closeProgram sim_deployer "42" sim_program42 s in
  let s' := (handleLoanExpired sim_deployer "42" s).2 in
  sim_balance (world s) pda = 5
  ∧ sim_balance (world closed.2) pda - sim_balance (world s) pda = 7906560
  ∧ returned_amounts (since s s') = [7906565]
  ∧ status <$> db s' !! "deployment:42" = Some recovered.
Proof. cbv zeta. vm_compute. repeat split; reflexivity. Qed.

(** With nothing on the intermediary address beforehand, the amount
    passed is the balance reclaimed when the round trip through a number
    of SOL is exact, as it is for 7,906,560 lamports, and one lamport less
    when it is not, as for 7,892,640 lamports. *)
Example recovery_from_empty_address :
  returned_amounts
    (since (sim_deployed 0) (handleLoanExpired sim_deployer "42" (sim_deployed 0)).2)
  = [7906560].
Proof. vm_compute. reflexivity. Qed.

Example recovery_loses_a_lamport :
  let s := sim_deployed_short in
  let pda := toBase58 (deployerPda sim_deployer) in
  let closed := closeProgram sim_deployer "42" sim_program42 s in
  let s' := (handleLoanExpired sim_deployer "42" s).2 in
  sim_balance (world s) pda = 0
  ∧ sim_balance (world closed.2) pda = 7892640
  ∧ returned_amounts (since s s') = [7892639]
  ∧ sim_balance (world s') pda = 1.
Proof. cbv zeta. vm_compute. repeat split; reflexivity. Qed.

Example lamports_passed_values :
  lamports_passed 7906560 = Ok 7906560
  ∧ lamports_passed 7906561 = Ok 7906560
  ∧ lamports_passed 7906565 = Ok 7906565
  ∧ lamports_passed 7892640 = Ok 7892639
  ∧ lamports_passed (2 ^ 53) = Throw {| message := "Assertion failed" |}.
Proof. vm_compute. repeat split; reflexivity. Qed.

(** On the platform that verifies signatures, loan 42 is deployed as on
    the other one, and its recovery stops at the closing transaction: the
    record ends [failed], the program is still there, and "return
    reclaimed SOL" has not been called. *)
Example deployment_signatures_verified :
  (handleLoanRequested (sim_config 3) sim_deployer loan42 (strict (sim_start 5 0))).2
  = strict (sim_deployed 5).
Proof. vm_compute. reflexivity. Qed.

Example recovery_without_authority_signature :
  let s := strict (sim_deployed 5) in
  let s' := (handleLoanExpired sim_deployer "42" s).2 in
  returned_amounts (since s s') = []
  ∧ status <$> db s' !! "deployment:42" = Some failed
  ∧ error <$> db s' !! "deployment:42" = Some (Some "Error: Signature verification failed")
  ∧ is_Some (programs (lenient (world s')) !! toBase58 sim_program42)
  ∧ length (since s s') = 4%nat.
Proof. cbv zeta. vm_compute. repeat split; try reflexivity. eexists; reflexivity. Qed.

Lemma recovery_amount_passed_witness :
  (let s := sim_deployed 5 in
   7906565 ∈ returned_amounts (since s (processRecovery sim_deployer "42" s).2)
   ∧ ∃ afterBalance, lamports_passed afterBalance = Ok 7906565)
  ∧ (let s := strict (sim_deployed 5) in
     checks_signatures StrictWorld
     ∧ authorityPda sim_deployer ≠ deployerWallet sim_deployer
     ∧ returned_amounts (since s (processRecovery sim_deployer "42" s).2) = []).
Proof.
  cbv zeta. split.
  - assert (Hin : 7906565 ∈ returned_amounts
                    (since (sim_deployed 5)
                       (processRecovery sim_deployer "42" (sim_deployed 5)).2)).
    { vm_compute. apply list_elem_of_here. }
    split; [exact Hin |].
    destruct (proj1 (recovery_amount_passed sim_deployer "42" (sim_deployed 5))
                7906565 Hin)
      as (key & d1 & program & programData & closeSignature & w0 & w1 & w2 & afterBalance
          & last & _ & _ & _ & Hpassed).
    exists afterBalance. exact Hpassed.
  - assert (Hne : authorityPda sim_deployer ≠ deployerWallet sim_deployer)
      by (vm_compute; discriminate).
    split; [exact StrictPlatform_checks_signatures | split; [exact Hne |]].
    apply (proj2 (recovery_amount_passed sim_deployer "42" (strict (sim_deployed 5)))
             StrictPlatform_checks_signatures Hne).
Defined.

(** ** The transactions that the service builds *)

Lemma validateBinary_valid (data : list byte) :
  valid (validateBinary data) = true →
  take 4 data = elfMagic ∧ 0 < buf_length data <= 104857600.
Proof.
  unfold validateBinary.
  destruct (Z.eqb_spec (buf_length data) 0) as [|Hne]; [discriminate |].
  unfold buf_equals, subarray. rewrite drop_0.
  destruct (decide (take (4 - 0) data = elfMagic)) as [Hmagic|Hmagic].
  2:{ rewrite bool_decide_eq_false_2 by exact Hmagic. discriminate. }
  rewrite bool_decide_eq_true_2 by exact Hmagic. cbn [negb].
  rewrite MAX_BINARY_SIZE_value.
  destruct (Z.gtb_spec (buf_length data) 104857600); [discriminate |].
  intros _. split; [exact Hmagic |]. unfold buf_length in *. lia.
Qed.

Lemma createWriteBufferInstructions_length (buffer authority : PublicKey) (data : list byte) :
  length (createWriteBufferInstructions buffer authority data) = chunks_of data.
Proof.
  unfold createWriteBufferInstructions, chunks_of, buf_length.
  apply Nat2Z.inj. rewrite (writeLoop_length _ _ _ (length data)) by lia.
  rewrite Nat.sub_0_r, Z2Nat.id; [reflexivity |].
  apply Z.div_pos; lia.
Qed.

(** The [i]-th write instruction exists exactly for the chunks that start
    inside the binary. *)
Lemma createWriteBufferInstructions_lookup (buffer authority : PublicKey)
    (data : list byte) (i : nat) :
  (i < chunks_of data)%nat →
  createWriteBufferInstructions buffer authority data !! i
  = Some (writeChunkInstruction buffer authority data (i * chunkSize))
  ∧ (i * chunkSize < length data)%nat.
Proof.
  intros Hi. rewrite <- (createWriteBufferInstructions_length buffer authority) in Hi.
  destruct (lookup_lt_is_Some_2 _ _ Hi) as [ix Hix].
  pose proof Hix as Heq. unfold createWriteBufferInstructions in Heq.
  apply writeLoop_lookup in Heq. cbn [Nat.add] in Heq. subst ix.
  split; [exact Hix |].
  rewrite (createWriteBufferInstructions_length buffer authority) in Hi.
  unfold chunks_of, buf_length, chunkSize in *.
  assert (Hdiv : Z.of_nat i < (Z.of_nat (length data) + 899) / 900) by lia.
  assert (Hle : 900 * ((Z.of_nat (length data) + 899) / 900) <= Z.of_nat (length data) + 899)
    by (apply Z.mul_div_le; lia).
  lia.
Qed.

Section Transactions.

Context {W : Type} `{!Platform W}.
Variable programDeployer : ProgramDeployer.

(** X12. The deployment transaction is one transaction of
    [4 + ceil(len / 900)] instructions: the compute-unit limit of 400000;
    the creation of the buffer account, paid by the deployer wallet, with
    room for the binary plus 1000 bytes and owned by the loader; the
    initialisation of the buffer; the write instructions for all chunks of
    the binary, in order, each on that buffer with the deployer wallet as
    its authority; and last the deploy instruction for the program key,
    whose upgrade authority is the authority address of the lending
    program and whose length field is the length of the binary. *)
Theorem deployTransaction_shape (bufferKey programKey : PublicKey) (rent : Z)
    (data : list byte) :
  let tx := deployTransaction programDeployer bufferKey programKey rent data in
  let wallet := deployerWallet programDeployer in
  let n := chunks_of data in
  length tx = (4 + n)%nat
  ∧ tx !! 0%nat = Some (ComputeBudgetProgram_setComputeUnitLimit 400000)
  ∧ tx !! 1%nat = Some (SystemProgram_createAccount wallet bufferKey rent
                          (buf_length data + 1000) BPF_LOADER_DEPRECATED_PROGRAM_ID)
  ∧ tx !! 2%nat = Some (LoaderInstruction (createInitializeBufferInstruction bufferKey wallet))
  ∧ (∀ i : nat, (i < n)%nat →
       ∃ ix, tx !! (3 + i)%nat = Some (LoaderInstruction ix)
             ∧ pubkey <$> keys ix = [bufferKey; wallet]
             ∧ ix_offset_field ix = uint32_le (900 * Z.of_nat i)
             ∧ ix_chunk ix = take 900 (drop (900 * i) data))
  ∧ tx !! (3 + n)%nat
    = Some (LoaderInstruction
              (createDeployWithMaxDataLenInstruction wallet programKey bufferKey
                 (authorityPda programDeployer) rent (buf_length data))).
Proof.
  cbv zeta. unfold deployTransaction.
  set (writes := createWriteBufferInstructions bufferKey (deployerWallet programDeployer) data).
  assert (Hlen : length (map LoaderInstruction writes) = chunks_of data)
    by (rewrite length_map; apply createWriteBufferInstructions_length).
  split; [cbn [app length]; rewrite length_app, Hlen; cbn [length]; lia |].
  split; [reflexivity | split; [reflexivity | split; [reflexivity |]]].
  split.
  - intros i Hi.
    destruct (createWriteBufferInstructions_lookup bufferKey
                (deployerWallet programDeployer) data i Hi) as (Hix & _).
    eexists. split.
    + rewrite lookup_app_r by (cbn [length]; lia).
      replace (3 + i - length _)%nat with i by (cbn [length]; lia).
      rewrite lookup_app_l by (rewrite Hlen; exact Hi).
      change (map ?f ?l) with (f <$> l). rewrite list_lookup_fmap.
      fold writes in Hix. rewrite Hix. reflexivity.
    + split; [reflexivity |].
      rewrite ix_offset_field_write, ix_chunk_write. unfold chunkSize.
      split; [f_equal; lia | do 2 f_equal; lia].
  - rewrite lookup_app_r by (cbn [length]; lia).
    replace (3 + chunks_of data - length _)%nat with (chunks_of data) by (cbn [length]; lia).
    rewrite lookup_app_r by (rewrite Hlen; lia).
    rewrite Hlen, Nat.sub_diag. reflexivity.
Qed.

(** X13. For a binary that passes validation no field of the deployment
    transaction wraps around: the transaction has between 1 and 116509
    write instructions, the offset field of the [i]-th of them reads back
    as exactly [900 * i], a position inside the binary, and the length
    field of the deploy instruction reads back as exactly the length of
    the binary. *)
Theorem validated_binary_fields_exact (bufferKey programKey : PublicKey) (rent : Z)
    (data : list byte) :
  valid (validateBinary data) = true →
  let writes := createWriteBufferInstructions bufferKey (deployerWallet programDeployer) data in
  1 <= Z.of_nat (length writes) <= 116509
  ∧ (∀ (i : nat) (ix : TransactionInstruction),
       writes !! i = Some ix →
       ix_offset ix = 900 * Z.of_nat i ∧ 900 * Z.of_nat i < buf_length data)
  ∧ ix_dataLen (createDeployWithMaxDataLenInstruction (deployerWallet programDeployer)
                  programKey bufferKey (authorityPda programDeployer) rent
                  (buf_length data))
    = buf_length data.
Proof.
  intros Hvalid. apply validateBinary_valid in Hvalid as (_ & Hpos & Hmax). cbv zeta.
  split; [| split].
  - rewrite createWriteBufferInstructions_length. unfold chunks_of.
    assert (1 <= (buf_length data + 899) / 900) by (apply Z.div_le_lower_bound; lia).
    assert ((buf_length data + 899) / 900 < 116510)
      by (apply Z.div_lt_upper_bound; lia).
    lia.
  - intros i ix Hix.
    assert (Hi : (i < chunks_of data)%nat).
    { rewrite <- (createWriteBufferInstructions_length bufferKey
                    (deployerWallet programDeployer)).
      apply lookup_lt_is_Some_1. eauto. }
    destruct (createWriteBufferInstructions_lookup bufferKey
                (deployerWallet programDeployer) data i Hi) as (Hix' & Hin).
    rewrite Hix' in Hix. injection Hix as <-.
    unfold ix_offset. rewrite ix_offset_field_write, uint32_of_le_uint32_le.
    unfold chunkSize, buf_length in *.
    rewrite Z.mod_small by (change (2 ^ 32) with 4294967296; lia).
    lia.
  - unfold ix_dataLen, createDeployWithMaxDataLenInstruction. cbn [ix_data app drop].
    rewrite drop_0, uint32_of_le_uint32_le.
    apply Z.mod_small. change (2 ^ 32) with 4294967296. lia.
Qed.

(** Membership in the short lists of keys and effects that occur below. *)
Ltac in_short_list :=
  rewrite ?elem_of_app, ?elem_of_cons, ?elem_of_nil in *;
  intuition (subst; auto; congruence).

(** The transactions that [closeProgram] sends. *)
Lemma closeProgram_sends (loan : string) (program : PublicKey) (s : Sys W)
    (tx : list Instruction) (signers : list PublicKey) :
  ESendTransaction tx signers ∈ since s (closeProgram programDeployer loan program s).2 →
  signers = [deployerWallet programDeployer]
  ∧ ∃ programData, tx = closeTransaction programDeployer programData program.
Proof.
  unfold closeProgram, mbind, Prog_bind, prog_bind, mret, Prog_ret, prog_ret, call, throw.
  cbn [fst snd world db files trace].
  destruct (getAccountInfo program (world s)) as [[[info|]|e0] w0];
    cbn [fst snd world db files trace].
  2,3: erewrite since_app by reflexivity; in_short_list.
  destruct (PublicKey_of_bytes (subarray (account_data info) 4 36)) as [programData|e1].
  2:{ cbn [fst snd trace]. erewrite since_app by reflexivity. in_short_list. }
  assert (Hthis : ESendTransaction tx signers
                  = ESendTransaction
                      [LoaderInstruction
                         (createCloseAccountInstruction programData
                            (deployerPda programDeployer) (authorityPda programDeployer)
                            (Some program))]
                      [deployerWallet programDeployer] →
                  signers = [deployerWallet programDeployer]
                  ∧ ∃ programData, tx = closeTransaction programDeployer programData program).
  { intros [= -> ->]. eauto. }
  destruct (sendAndConfirmTransaction _ _ w0) as [[sig|e2] w1];
    cbn [fst snd world db files trace].
  2:{ erewrite since_app by (rewrite <- app_assoc; reflexivity). in_short_list. }
  destruct (getBalance (deployerPda programDeployer) w1) as [[balance|e3] w2];
    cbn [fst snd world db files trace];
    (erewrite since_app by (rewrite <- !app_assoc; reflexivity));
    in_short_list.
Qed.

(** X14. Accounts marked as signers, and the signers handed over.  In the
    deployment transaction every account that an instruction marks as
    signer is among the signers with which the transaction is submitted
    (the deployer wallet and the two fresh keys).  The closing transaction
    of [closeProgram] marks the authority address of the lending program
    as its signer, and is submitted with the deployer wallet as the only
    signer: the signers cover the marked accounts exactly when those two
    addresses are the same. *)
Theorem signers_of_built_transactions (bufferKey programKey : PublicKey) (rent : Z)
    (data : list byte) (loan : string) (program : PublicKey) (s : Sys W) :
  signers_cover (deployTransaction programDeployer bufferKey programKey rent data)
    [deployerWallet programDeployer; bufferKey; programKey]
  ∧ (∀ tx signers,
       ESendTransaction tx signers ∈ since s (closeProgram programDeployer loan program s).2 →
       (signers_cover tx signers
        ↔ authorityPda programDeployer = deployerWallet programDeployer)).
Proof.
  split.
  - intros ix pk Hix Hpk. unfold deployTransaction in Hix.
    rewrite !elem_of_app, !elem_of_cons, elem_of_nil in Hix.
    destruct Hix as [[-> | [-> | [-> | []]]] | [Hix | [-> | []]]];
      cbn [required_signers createInitializeBufferInstruction keys] in Hpk.
    + in_short_list.
    + in_short_list.
    + rewrite filter_cons_False, filter_cons_False in Hpk by (cbn; discriminate).
      in_short_list.
    + change (map ?f ?l) with (f <$> l) in Hix.
      apply list_elem_of_fmap in Hix as (w & -> & Hw).
      apply list_elem_of_lookup in Hw as (i & Hw).
      unfold createWriteBufferInstructions in Hw. apply writeLoop_lookup in Hw. subst w.
      cbn [required_signers writeChunkInstruction keys] in Hpk.
      rewrite filter_cons_False, filter_cons_True in Hpk by (cbn; done).
      cbn [filter list_filter fmap list_fmap pubkey] in Hpk.
      in_short_list.
    + cbn [required_signers createDeployWithMaxDataLenInstruction keys] in Hpk.
      rewrite filter_cons_True, filter_cons_True, filter_cons_False, filter_cons_False,
        filter_cons_False in Hpk by (cbn; done).
      cbn [filter list_filter fmap list_fmap pubkey] in Hpk.
      in_short_list.
  - intros tx signers Hin.
    apply closeProgram_sends in Hin as (-> & programData & ->).
    assert (Hreq : required_signers
                     (LoaderInstruction
                        (createCloseAccountInstruction programData
                           (deployerPda programDeployer) (authorityPda programDeployer)
                           (Some program)))
                   = [authorityPda programDeployer]).
    { cbn [required_signers createCloseAccountInstruction keys app].
      rewrite filter_cons_False, filter_cons_False, filter_cons_True, filter_cons_False
        by (cbn; done).
      reflexivity. }
    unfold signers_cover, closeTransaction. split.
    + intros Hcover.
      specialize (Hcover _ (authorityPda programDeployer) (list_elem_of_here _ _)).
      rewrite Hreq in Hcover. in_short_list.
    + intros Heq ix pk Hix Hpk. apply list_elem_of_singleton in Hix. subst ix.
      rewrite Hreq in Hpk. in_short_list.
Qed.

End Transactions.

(** ** The event monitor *)

Lemma emitted_app (j1 j2 : list MonitorEffect) :
  emitted (j1 ++ j2) = emitted j1 ++ emitted j2.
Proof. apply omap_app. Qed.

Lemma fetched_loans_app (j1 j2 : list MonitorEffect) :
  fetched_loans (j1 ++ j2) = fetched_loans j1 ++ fetched_loans j2.
Proof. apply omap_app. Qed.

Lemma fetched_transactions_app (j1 j2 : list MonitorEffect) :
  fetched_transactions (j1 ++ j2) = fetched_transactions j1 ++ fetched_transactions j2.
Proof. apply omap_app. Qed.

Lemma journal_since_app {W} (mon mon' : Monitor W) (j : list MonitorEffect) :
  journal mon' = journal mon ++ j → journal_since mon mon' = j.
Proof. intros Hj. unfold journal_since. rewrite Hj. apply drop_app_length. Qed.

Lemma watched_refl {W} (mon : Monitor W) : watched mon mon [].
Proof. unfold watched. rewrite app_nil_r. auto 6. Qed.

Lemma watched_trans {W} (m1 m2 m3 : Monitor W) (j1 j2 : list MonitorEffect) :
  watched m1 m2 j1 → watched m2 m3 j2 → watched m1 m3 (j1 ++ j2).
Proof.
  intros (Hd1 & Hf1 & Ht1 & Hr1 & Hs1 & Hj1) (Hd2 & Hf2 & Ht2 & Hr2 & Hs2 & Hj2).
  unfold watched. rewrite Hd2, Hf2, Ht2, Hr2, Hs2, Hj2, Hj1, app_assoc. auto 6.
Qed.

(** The expiry test on exact numbers. *)
Lemma expiry_test (expiry ms : Z) :
  Qle_bool (inject_Z expiry) (inject_Z ms / 1000) = (1000 * expiry <=? ms).
Proof.
  destruct (Z.leb_spec (1000 * expiry) ms) as [Hle|Hlt].
  - apply Qle_bool_iff. apply Qle_shift_div_l; [reflexivity |].
    change 1000%Q with (inject_Z 1000). rewrite <- inject_Z_mult, <- Zle_Qle. lia.
  - apply not_true_is_false. intros Hq. apply Qle_bool_iff in Hq.
    assert (Heq : (inject_Z ms / 1000 * 1000 == inject_Z ms)%Q) by field.
    assert (Hmul : (inject_Z expiry * 1000 <= inject_Z ms)%Q).
    { rewrite <- Heq. apply Qmult_le_compat_r; [exact Hq | discriminate]. }
    change 1000%Q with (inject_Z 1000) in Hmul.
    rewrite <- inject_Z_mult, <- Zle_Qle in Hmul. lia.
Qed.

Section MonitorProperties.

Context {W : Type} `{!Platform W} `{!MonitorPlatform W}.
Variable pollIntervalMs : Z.

(** What [checkLoan] does for one record, case by case. *)
Lemma checkLoan_run (deployment : DeploymentRecord) (mon : Monitor W) :
  let r := EventMonitor.checkLoan deployment mon in
  let fetched := account_loan_fetch (loanId deployment) (world (sys mon)) in
  let ms := (Date_now fetched.2).1 in
  r.1 = Ok tt
  ∧ ∃ evs, watched mon r.2 (MFetchLoan (loanId deployment) :: map MEmit evs)
           ∧ ((evs = [loanExpired (loanId deployment)]
               ∧ ∃ loan, fetched.1 = Ok loan ∧ expired loan ms)
              ∨ (evs = []
                 ∧ ∀ loan, fetched.1 = Ok loan → ¬ expired loan ms)).
Proof.
  cbv zeta. unfold EventMonitor.checkLoan, try_catch, mbind, Prog_bind, prog_bind,
    EventMonitor.rpc, EventMonitor.in_sys, ask, EventMonitor.emit, EventMonitor.note,
    mret, Prog_ret, prog_ret, BN_toNumber, expired.
  cbn [fst snd sys world db files trace isRunning subscriptionId journal].
  destruct (account_loan_fetch (loanId deployment) (world (sys mon))) as [[loan|e] w1];
    cbn [fst snd sys world db files trace isRunning subscriptionId journal].
  2:{ split; [reflexivity |]. exists []. split; [unfold watched; cbn; auto 6 |].
      right. split; [reflexivity | discriminate]. }
  destruct (Z.ltb_spec (Z.abs (startTs loan)) (2 ^ 53)) as [Hs|Hs];
    cbn [fst snd sys world db files trace isRunning subscriptionId journal].
  2:{ split; [reflexivity |]. exists []. split; [unfold watched; cbn; auto 6 |].
      right. split; [reflexivity |]. intros ? [= <-]. lia. }
  destruct (Z.ltb_spec (Z.abs (duration loan)) (2 ^ 53)) as [Hd|Hd];
    cbn [fst snd sys world db files trace isRunning subscriptionId journal].
  2:{ split; [reflexivity |]. exists []. split; [unfold watched; cbn; auto 6 |].
      right. split; [reflexivity |]. intros ? [= <-]. lia. }
  rewrite expiry_test.
  destruct (Z.leb_spec (1000 * (startTs loan + duration loan)) (Date_now w1).1) as [He|He];
    destruct (Z.eqb_spec (loan_state loan) LoanState_Active) as [Ha|Ha];
    cbn [andb fst snd sys world db files trace isRunning subscriptionId journal];
    (split; [reflexivity |]).
  - exists [loanExpired (loanId deployment)].
    split; [unfold watched; cbn; rewrite <- app_assoc; auto 6 |].
    left. split; [reflexivity |]. exists loan. auto.
  - exists []. split; [unfold watched; cbn; auto 6 |].
    right. split; [reflexivity |]. intros ? [= <-]. tauto.
  - exists []. split; [unfold watched; cbn; auto 6 |].
    right. split; [reflexivity |]. intros ? [= <-]. lia.
  - exists []. split; [unfold watched; cbn; auto 6 |].
    right. split; [reflexivity |]. intros ? [= <-]. lia.
Qed.

(** What the loop of [checkExpiredLoans] does: it fetches the loan of every
    record it is given, in order, whatever the earlier fetches did, and
    emits [loanExpired] for some of these records, nothing else. *)
Lemma checkLoans_run (activeLoans : list DeploymentRecord) :
  ∀ mon : Monitor W,
    let r := EventMonitor.checkLoans activeLoans mon in
    r.1 = Ok tt
    ∧ ∃ j, watched mon r.2 j
           ∧ fetched_loans j = loanId <$> activeLoans
           ∧ Forall (λ ev, ∃ d, d ∈ activeLoans ∧ ev = loanExpired (loanId d)) (emitted j)
           ∧ (length (emitted j) <= length activeLoans)%nat
           ∧ Forall (λ e, ∀ n, e ≠ MSetActiveLoans n) j.
Proof.
  induction activeLoans as [|d rest IH]; intros mon; cbv zeta.
  - cbn [EventMonitor.checkLoans]. split; [reflexivity |].
    exists []. split; [apply watched_refl |].
    split; [reflexivity | split; [apply Forall_nil_2 | split; [reflexivity |]]].
    apply Forall_nil_2.
  - cbn [EventMonitor.checkLoans]. unfold mbind, Prog_bind, prog_bind.
    destruct (checkLoan_run d mon) as (Hres & evs & Hw & Hcases). cbv zeta in Hres, Hw, Hcases.
    destruct (EventMonitor.checkLoan d mon) as [res m1]. cbn [fst snd] in *. subst res.
    destruct (IH m1) as (Hres2 & j2 & Hw2 & Hf2 & He2 & Hl2 & Hg2). cbv zeta in *.
    split; [exact Hres2 |].
    exists ((MFetchLoan (loanId d) :: map MEmit evs) ++ j2).
    split; [eapply watched_trans; eassumption |].
    assert (Hevs : evs = [loanExpired (loanId d)] ∨ evs = [])
      by (destruct Hcases as [(-> & _) | (-> & _)]; auto).
    rewrite fetched_loans_app, emitted_app, Hf2.
    destruct Hevs as [-> | ->]; cbn [map fetched_loans emitted omap list_omap app length].
    + split; [reflexivity |]. split.
      { constructor; [exists d; split; [apply list_elem_of_here | reflexivity] |].
        eapply Forall_impl; [exact He2 |]. intros ev (d0 & Hd0 & ->).
        exists d0. split; [apply list_elem_of_further, Hd0 | reflexivity]. }
      split; [lia |]. constructor; [discriminate |]. constructor; [discriminate | exact Hg2].
    + split; [reflexivity |]. split.
      { eapply Forall_impl; [exact He2 |]. intros ev (d0 & Hd0 & ->).
        exists d0. split; [apply list_elem_of_further, Hd0 | reflexivity]. }
      split; [lia |]. constructor; [discriminate | exact Hg2].
Qed.

Lemma checkExpiredLoans_run (mon : Monitor W) :
  let r := EventMonitor.checkExpiredLoans mon in
  let activeLoans := deployed_records (sys mon) in
  r.1 = Ok tt
  ∧ ∃ j, watched mon r.2 (j ++ [MSetActiveLoans (Z.of_nat (length activeLoans))])
         ∧ fetched_loans j = loanId <$> activeLoans
         ∧ Forall (λ ev, ∃ d, d ∈ activeLoans ∧ ev = loanExpired (loanId d)) (emitted j)
         ∧ (length (emitted j) <= length activeLoans)%nat
         ∧ Forall (λ e, ∀ n, e ≠ MSetActiveLoans n) j.
Proof.
  cbv zeta. unfold EventMonitor.checkExpiredLoans, mbind, Prog_bind, prog_bind,
    EventMonitor.in_sys, getAllDeployments, EventMonitor.note.
  cbn [fst snd].
  match goal with
  | |- context [EventMonitor.checkLoans ?l ?m] =>
      destruct (checkLoans_run l m) as (Hres & j & Hw & Hf & He & Hl & Hg);
      cbv zeta in Hres, Hw; destruct (EventMonitor.checkLoans l m) as [res m1]
  end.
  cbn [fst snd] in *. subst res. cbn [fst snd].
  split; [reflexivity |]. exists j.
  split.
  { destruct Hw as (Hd1 & Hf1 & Ht1 & Hr1 & Hs1 & Hj1).
    cbn [sys isRunning subscriptionId journal] in *.
    unfold watched. cbn [sys isRunning subscriptionId journal].
    rewrite Hj1, app_assoc. auto 6. }
  auto.
Qed.

Lemma deployed_records_in_store (s : Sys W) (d : DeploymentRecord) :
  d ∈ deployed_records s →
  status d = deployed ∧ ∃ key, db s !! key = Some d.
Proof.
  unfold deployed_records, listed_records, getAllDeployments. cbn [fst].
  intros Hin. apply list_elem_of_filter in Hin as (Hst & Hin).
  split; [exact Hst |].
  apply list_elem_of_fmap in Hin as ([key r] & -> & Hin).
  apply list_elem_of_filter in Hin as (_ & Hin).
  apply elem_of_map_to_list in Hin. eauto.
Qed.

(** X15. The expiry rule.  For a record, [checkExpiredLoans] fetches the
    loan account once and returns normally whatever the fetch does; it
    emits at most one event, [loanExpired] for the loan of the record; and
    it emits that event exactly when the fetch succeeded, both numbers of
    the account fit into 53 bits, the loan is [Active], and the clock,
    read after the fetch, shows at least [1000 * (startTs + duration)]
    milliseconds, the instant of expiry included. *)
Theorem expiry_rule (deployment : DeploymentRecord) (mon : Monitor W) :
  let r := EventMonitor.checkLoan deployment mon in
  let fetched := account_loan_fetch (loanId deployment) (world (sys mon)) in
  let ms := (Date_now fetched.2).1 in
  let evs := emitted (journal_since mon r.2) in
  r.1 = Ok tt
  ∧ fetched_loans (journal_since mon r.2) = [loanId deployment]
  ∧ (evs = [loanExpired (loanId deployment)] ∨ evs = [])
  ∧ (evs = [loanExpired (loanId deployment)]
     ↔ ∃ loan, fetched.1 = Ok loan ∧ expired loan ms).
Proof.
  cbv zeta. destruct (checkLoan_run deployment mon) as (Hres & evs & Hw & Hcases).
  cbv zeta in Hres, Hw, Hcases.
  destruct Hw as (_ & _ & _ & _ & _ & Hj).
  rewrite (journal_since_app _ _ _ Hj).
  assert (Hem : emitted (MFetchLoan (loanId deployment) :: map MEmit evs) = evs).
  { destruct Hcases as [(-> & _) | (-> & _)]; reflexivity. }
  assert (Hfe : fetched_loans (MFetchLoan (loanId deployment) :: map MEmit evs)
                = [loanId deployment]).
  { destruct Hcases as [(-> & _) | (-> & _)]; reflexivity. }
  rewrite Hem, Hfe.
  split; [exact Hres | split; [reflexivity |]].
  destruct Hcases as [(-> & Hexp) | (-> & Hnot)].
  - split; [left; reflexivity |]. split; [intros _; exact Hexp | reflexivity].
  - split; [right; reflexivity |]. split; [discriminate |].
    intros (loan & Hloan & Hexp). exfalso. exact (Hnot loan Hloan Hexp).
Qed.

(** What a sweep emits, and that it leaves the store alone. *)
Lemma checkExpiredLoans_emits (mon : Monitor W) :
  let r := EventMonitor.checkExpiredLoans mon in
  db (sys r.2) = db (sys mon)
  ∧ ∀ ev, ev ∈ emitted (journal_since mon r.2) →
      ∃ d key, ev = loanExpired (loanId d)
               ∧ db (sys mon) !! key = Some d ∧ status d = deployed.
Proof.
  cbv zeta. destruct (checkExpiredLoans_run mon) as (_ & j & Hw & _ & He & _).
  cbv zeta in Hw, He. destruct Hw as (Hdb & _ & _ & _ & _ & Hj).
  rewrite (journal_since_app _ _ _ Hj), emitted_app.
  cbn [emitted omap list_omap]. rewrite app_nil_r.
  split; [exact Hdb |].
  intros ev Hev. rewrite Forall_forall in He. destruct (He ev Hev) as (d & Hd & ->).
  apply deployed_records_in_store in Hd as (Hst & key & Hkey). eauto.
Qed.


End MonitorProperties.

Section Sweeps.

Context {W : Type} `{!Platform W} `{!MonitorPlatform W}.
Variable config : DeployerConfig.
Variable programDeployer : ProgramDeployer.

(** Recovery events never make a record [deployed]. *)
Lemma run_recovery_keeps_not_deployed (loan : string) (evs : list Event) :
  ∀ s : Sys W,
    store_keyed (db s) →
    Forall (λ ev, ∃ l, recovery_event l ev) evs →
    not_deployed (db s !! deployment_key loan) = true →
    not_deployed (db (run config programDeployer evs s) !! deployment_key loan) = true.
Proof.
  induction evs as [|ev evs IH]; intros s Hk Hevs Hnot; [exact Hnot |].
  apply Forall_cons in Hevs as [(l & Hev) Hevs]. cbn [run].
  apply IH; [apply handle_store_keyed, Hk | exact Hevs |].
  assert (Hhandle : handle config programDeployer ev s = processRecovery programDeployer l s)
    by (destruct Hev as [-> | ->]; reflexivity).
  rewrite Hhandle.
  destruct (decide (l = loan)) as [->|Hne].
  - apply processRecovery_leaves_not_deployed, Hk.
  - destruct (handle_footprint config programDeployer ev s) as (_ & l0 & t & _ & _ & Hdb & Hab).
    rewrite Hhandle in Hdb. rewrite Hdb.
    rewrite (replay_about_other (target ev) loan); [exact Hnot | apply Hab, Hk |].
    destruct Hev as [-> | ->]; cbn [target]; auto.
Qed.

Lemma run_recovery_clears (loan : string) (evs : list Event) :
  ∀ s : Sys W,
    store_keyed (db s) →
    Forall (λ ev, ∃ l, recovery_event l ev) evs →
    loanExpired loan ∈ evs →
    not_deployed (db (run config programDeployer evs s) !! deployment_key loan) = true.
Proof.
  induction evs as [|ev evs IH]; intros s Hk Hevs Hin; [inversion Hin |].
  apply Forall_cons in Hevs as [Hev Hevs]. cbn [run].
  apply elem_of_cons in Hin as [<- | Hin].
  - apply run_recovery_keeps_not_deployed;
      [apply handle_store_keyed, Hk | exact Hevs |].
    cbn [handle]. apply processRecovery_leaves_not_deployed, Hk.
  - apply IH; [apply handle_store_keyed, Hk | exact Hevs | exact Hin].
Qed.

(** X17. A loan is reported as expired until its recovery has begun, and
    not after.  In a store that is filed by loan, once the events of a
    sweep have been handled, the record of every loan that the sweep
    reported is no longer [deployed], whether its recovery succeeded,
    failed or found no program to close; so the next sweep does not report
    that loan again. *)
Theorem sweep_clears_what_it_reports (mon : Monitor W) (loan : string) :
  let mon' := sweep config programDeployer mon in
  store_keyed (db (sys mon)) →
  loanExpired loan ∈ emitted (journal_since mon (EventMonitor.checkExpiredLoans mon).2) →
  not_deployed (db (sys mon') !! deployment_key loan) = true
  ∧ loanExpired loan
    ∉ emitted (journal_since mon' (EventMonitor.checkExpiredLoans mon').2).
Proof.
  cbv zeta. intros Hk Hin.
  destruct (checkExpiredLoans_emits mon) as (Hdb & Hevs).
  cbv zeta in Hdb, Hevs.
  assert (Hk1 : store_keyed (db (sys (EventMonitor.checkExpiredLoans mon).2)))
    by (rewrite Hdb; exact Hk).
  assert (Hall : Forall (λ ev, ∃ l, recovery_event l ev)
                   (emitted (journal_since mon (EventMonitor.checkExpiredLoans mon).2))).
  { apply Forall_forall. intros ev Hev. destruct (Hevs ev Hev) as (d & key & -> & _).
    exists (loanId d). right. reflexivity. }
  assert (Hclear : not_deployed
                     (db (sys (sweep config programDeployer mon)) !! deployment_key loan)
                   = true).
  { unfold sweep, deliver. cbn [sys]. apply run_recovery_clears; assumption. }
  split; [exact Hclear |].
  intros Hagain.
  destruct (checkExpiredLoans_emits (sweep config programDeployer mon)) as (_ & Hevs').
  cbv zeta in Hevs'.
  destruct (Hevs' _ Hagain) as (d & key & Heq & Hd & Hst). injection Heq as Hloan.
  assert (Hk' : store_keyed (db (sys (sweep config programDeployer mon))))
    by (unfold sweep, deliver; cbn [sys]; apply run_store_keyed, Hk1).
  pose proof (Hk' key d Hd) as Hkey. subst key. rewrite <- Hloan in Hd.
  rewrite Hd in Hclear. cbn [not_deployed] in Hclear.
  apply bool_decide_eq_true in Hclear. contradiction.
Qed.

End Sweeps.

Section MonitorLifecycle.

Context {W : Type} `{!Platform W} `{!MonitorPlatform W}.
Variable pollIntervalMs : Z.

Lemma start_when_stopped (mon : Monitor W) :
  isRunning mon = false →
  EventMonitor.start pollIntervalMs mon
  = (Ok tt,
     {| sys := {| db := db (sys mon); files := files (sys mon);
                  world := (connection_onLogs (world (sys mon))).2;
                  trace := trace (sys mon) |};
        isRunning := true;
        subscriptionId := Some (connection_onLogs (world (sys mon))).1;
        journal := journal mon
                   ++ [MOnLogs (connection_onLogs (world (sys mon))).1;
                       MSetInterval pollIntervalMs] |}).
Proof. intros Hstopped. unfold EventMonitor.start. rewrite Hstopped. reflexivity. Qed.

Lemma start_when_running (mon : Monitor W) :
  isRunning mon = true → EventMonitor.start pollIntervalMs mon = (Ok tt, mon).
Proof. intros Hrunning. unfold EventMonitor.start. rewrite Hrunning. reflexivity. Qed.

(** X18. Starting and stopping the monitor.  [start] on a running monitor
    does nothing.  [stop] never undoes the interval timer that [start]
    armed, and it removes the log subscription only if the number of the
    subscription is not 0.  So a monitor that is started, stopped and
    started again has armed two timers and is running: from then on every
    polling period has two sweeps; and while it is stopped the function on
    the timer does nothing. *)
Theorem monitor_start_stop (mon : Monitor W) :
  let m1 := (EventMonitor.start pollIntervalMs mon).2 in
  let m2 := (EventMonitor.stop m1).2 in
  let m3 := (EventMonitor.start pollIntervalMs m2).2 in
  isRunning mon = false →
  EventMonitor.start pollIntervalMs m1 = (Ok tt, m1)
  ∧ (∃ id, subscriptionId m1 = Some id
           ∧ journal_since mon m1 = [MOnLogs id; MSetInterval pollIntervalMs]
           ∧ journal_since m1 m2 = (if id =? 0 then [] else [MRemoveOnLogsListener id]))
  ∧ EventMonitor.pollingCycle m2 = (Ok tt, m2)
  ∧ isRunning m3 = true
  ∧ intervals (journal_since mon m3) = [pollIntervalMs; pollIntervalMs]
  ∧ length (subscribed (journal_since mon m3)) = 2%nat
  ∧ (length (unsubscribed (journal_since mon m3)) <= 1)%nat.
Proof.
  cbv zeta. intros Hstopped.
  rewrite (start_when_stopped mon Hstopped). cbn [snd].
  set (id := (connection_onLogs (world (sys mon))).1).
  set (w1 := (connection_onLogs (world (sys mon))).2).
  split; [apply start_when_running; reflexivity |].
  split.
  { exists id. split; [reflexivity |].
    split; [apply journal_since_app; reflexivity |].
    unfold EventMonitor.stop, EventMonitor.rpc.
    cbn [sys isRunning subscriptionId journal truthy_number world db files trace].
    destruct (id =? 0); cbn [negb fst snd journal];
      apply journal_since_app; cbn [journal]; rewrite ?app_nil_r; reflexivity. }
  unfold EventMonitor.stop, EventMonitor.rpc.
  cbn [sys isRunning subscriptionId journal truthy_number world db files trace].
  destruct (id =? 0); cbn [negb fst snd];
    (split; [unfold EventMonitor.pollingCycle; reflexivity |]);
    rewrite start_when_stopped by reflexivity;
    cbn [snd isRunning journal sys world];
    (split; [reflexivity |]);
    (erewrite journal_since_app by (rewrite <- !app_assoc; reflexivity));
    cbn [app intervals subscribed unsubscribed omap list_omap length];
    repeat split; lia.
Qed.

End MonitorLifecycle.

Section MonitorLogs.

Context {W : Type} `{!Platform W} `{!MonitorPlatform W}.

Lemma journal_add_nil (mon : Monitor W) : journal_add mon [] = mon.
Proof. destruct mon. unfold journal_add. cbn. rewrite app_nil_r. reflexivity. Qed.

Lemma journal_add_add (mon : Monitor W) (j1 j2 : list MonitorEffect) :
  journal_add (journal_add mon j1) j2 = journal_add mon (j1 ++ j2).
Proof. unfold journal_add. cbn. rewrite app_assoc. reflexivity. Qed.

Lemma emitLoanRequested_run (events : list ProgramEvent) :
  ∀ mon : Monitor W,
    EventMonitor.emitLoanRequested events mon
    = (Ok tt, journal_add mon (map MEmit (omap requested_of events))).
Proof.
  induction events as [|event events IH]; intros mon.
  - cbn. rewrite journal_add_nil. reflexivity.
  - cbn [EventMonitor.emitLoanRequested]. unfold mbind, Prog_bind, prog_bind.
    destruct event; cbn [omap list_omap requested_of map];
      unfold EventMonitor.emit, EventMonitor.note, mret, Prog_ret, prog_ret; rewrite IH.
    + unfold journal_add. cbn. rewrite <- app_assoc. reflexivity.
    + reflexivity.
    + reflexivity.
Qed.

Lemma emitLoanRecovered_run (events : list ProgramEvent) :
  ∀ mon : Monitor W,
    EventMonitor.emitLoanRecovered events mon
    = (Ok tt, journal_add mon (map MEmit (omap recovered_of events))).
Proof.
  induction events as [|event events IH]; intros mon.
  - cbn. rewrite journal_add_nil. reflexivity.
  - cbn [EventMonitor.emitLoanRecovered]. unfold mbind, Prog_bind, prog_bind.
    destruct event; cbn [omap list_omap recovered_of map];
      unfold EventMonitor.emit, EventMonitor.note, mret, Prog_ret, prog_ret; rewrite IH.
    + reflexivity.
    + unfold journal_add. cbn. rewrite <- app_assoc. reflexivity.
    + reflexivity.
Qed.

Lemma emitted_emit (evs : list Event) : emitted (map MEmit evs) = evs.
Proof.
  induction evs as [|ev evs IH]; [reflexivity |].
  change (ev :: emitted (map MEmit evs) = ev :: evs). f_equal. exact IH.
Qed.

(** The body shared by the two handlers. *)
Lemma log_handler_run (pick : ProgramEvent → option Event)
    (body : list ProgramEvent → Prog (Monitor W) unit) (signature : string)
    (mon : Monitor W) :
  (∀ events m, body events m = (Ok tt, journal_add m (map MEmit (omap pick events)))) →
  let r := try_catch
             (tx ← EventMonitor.rpc (MGetParsedTransaction signature)
                     (getParsedTransaction signature);
              match tx with
              | None => mret tt
              | Some logMessages =>
                  try_catch (EventMonitor.for_parsed (default [] logMessages) body)
                            (λ _, mret tt)
              end)
             (λ _, mret tt) mon in
  r.1 = Ok tt
  ∧ watched mon r.2
      (MGetParsedTransaction signature
       :: map MEmit (picked_events pick
                       (getParsedTransaction signature (world (sys mon))).1)).
Proof.
  intros Hbody. cbv zeta.
  unfold EventMonitor.for_parsed, try_catch, mbind, Prog_bind, prog_bind, EventMonitor.rpc,
    mret, Prog_ret, prog_ret, throw.
  cbn [fst snd].
  destruct (getParsedTransaction signature (world (sys mon))) as [[[logMessages|]|e] w1];
    cbn [fst snd picked_events map].
  2,3: split; [reflexivity | unfold watched; cbn; auto 6].
  rewrite Hbody.
  destruct (parseLogs (default [] logMessages)) as [events [e|]]; cbn [fst snd];
    (split; [reflexivity |]); unfold watched, journal_add; cbn;
    rewrite <- app_assoc; auto 6.
Qed.

(** X19. What the two log handlers of the monitor emit.  Each fetches the
    transaction once and returns normally whatever happens.  If the fetch
    fails, or finds no transaction or no [meta], nothing is emitted.
    Otherwise [handleLoanRequested] emits [loanRequested] for each
    [LoanRequested] event that the parser yields from the log messages
    before it stops or fails, in order, and nothing for events of other
    kinds; [handleLoanRecovered] does the same with [LoanRecovered]
    events.  Neither touches the store. *)
Theorem log_handlers_emit (signature : string) (mon : Monitor W) :
  let tx := (getParsedTransaction signature (world (sys mon))).1 in
  let requested := EventMonitor.handleLoanRequested signature mon in
  let recovered := EventMonitor.handleLoanRecovered signature mon in
  (requested.1 = Ok tt
   ∧ fetched_transactions (journal_since mon requested.2) = [signature]
   ∧ emitted (journal_since mon requested.2) = picked_events requested_of tx
   ∧ db (sys requested.2) = db (sys mon))
  ∧ (recovered.1 = Ok tt
     ∧ fetched_transactions (journal_since mon recovered.2) = [signature]
     ∧ emitted (journal_since mon recovered.2) = picked_events recovered_of tx
     ∧ db (sys recovered.2) = db (sys mon)).
Proof.
  cbv zeta.
  assert (Hobs : ∀ evs, fetched_transactions (MGetParsedTransaction signature :: map MEmit evs)
                        = [signature]
                        ∧ emitted (MGetParsedTransaction signature :: map MEmit evs) = evs).
  { intros evs. split; [| apply emitted_emit].
    induction evs as [|ev evs IH]; [reflexivity | exact IH]. }
  split.
  - destruct (log_handler_run requested_of EventMonitor.emitLoanRequested signature mon
                emitLoanRequested_run) as (Hres & Hdb & _ & _ & _ & _ & Hj).
    change (try_catch _ _ mon) with (EventMonitor.handleLoanRequested signature mon) in *.
    rewrite (journal_since_app _ _ _ Hj).
    destruct (Hobs (picked_events requested_of
                      (getParsedTransaction signature (world (sys mon))).1)) as (-> & ->).
    auto.
  - destruct (log_handler_run recovered_of EventMonitor.emitLoanRecovered signature mon
                emitLoanRecovered_run) as (Hres & Hdb & _ & _ & _ & _ & Hj).
    change (try_catch _ _ mon) with (EventMonitor.handleLoanRecovered signature mon) in *.
    rewrite (journal_since_app _ _ _ Hj).
    destruct (Hobs (picked_events recovered_of
                      (getParsedTransaction signature (world (sys mon))).1)) as (-> & ->).
    auto.
Qed.

Lemma picked_requested_from_logs (tx : result (option (option (list string)))) :
  Forall from_logs (picked_events requested_of tx).
Proof.
  unfold picked_events. destruct tx as [[logMessages|]|e]; try apply Forall_nil_2.
  apply Forall_forall. intros ev Hev.
  apply list_elem_of_omap in Hev as (event & _ & Hev).
  destruct event; cbn in Hev; try discriminate. injection Hev as <-. exact I.
Qed.

Lemma picked_recovered_from_logs (tx : result (option (option (list string)))) :
  Forall from_logs (picked_events recovered_of tx).
Proof.
  unfold picked_events. destruct tx as [[logMessages|]|e]; try apply Forall_nil_2.
  apply Forall_forall. intros ev Hev.
  apply list_elem_of_omap in Hev as (event & _ & Hev).
  destruct event; cbn in Hev; try discriminate. injection Hev as <-. exact I.
Qed.

Lemma processLogs_run (signature : string) (logMessages : list string) :
  ∀ mon : Monitor W,
    let r := EventMonitor.processLogs signature logMessages mon in
    r.1 = Ok tt
    ∧ ∃ j, watched mon r.2 j
           ∧ fetched_transactions j
             = replicate (length (filter (λ log, marker_line log = true) logMessages))
                 signature
           ∧ Forall from_logs (emitted j)
           ∧ Forall (λ e, match e with
                          | MGetParsedTransaction _ | MEmit _ => True
                          | _ => False
                          end) j.
Proof.
  induction logMessages as [|log rest IH]; intros mon; cbv zeta.
  - cbn [EventMonitor.processLogs]. split; [reflexivity |].
    exists []. split; [apply watched_refl |].
    split; [reflexivity | split; apply Forall_nil_2].
  - cbn [EventMonitor.processLogs]. unfold mbind, Prog_bind, prog_bind.
    assert (Hstep : ∃ m1 j1,
              (if includes "Program log: LoanRequested" log
               then EventMonitor.handleLoanRequested signature
               else if includes "Program log: LoanRecovered" log
                    then EventMonitor.handleLoanRecovered signature
                    else mret tt) mon = (Ok tt, m1)
              ∧ watched mon m1 j1
              ∧ fetched_transactions j1
                = (if marker_line log then [signature] else [])
              ∧ Forall from_logs (emitted j1)
              ∧ Forall (λ e, match e with
                             | MGetParsedTransaction _ | MEmit _ => True
                             | _ => False
                             end) j1).
    { assert (Hshape : ∀ evs, Forall from_logs evs →
                fetched_transactions (MGetParsedTransaction signature :: map MEmit evs)
                = [signature]
                ∧ Forall from_logs
                    (emitted (MGetParsedTransaction signature :: map MEmit evs))
                ∧ Forall (λ e, match e with
                               | MGetParsedTransaction _ | MEmit _ => True
                               | _ => False
                               end) (MGetParsedTransaction signature :: map MEmit evs)).
      { intros evs Hevs. split; [induction evs as [|ev evs IHe]; [reflexivity |] |].
        - apply IHe. apply Forall_cons in Hevs. tauto.
        - split; [change (Forall from_logs (emitted (map MEmit evs)));
                  rewrite emitted_emit; exact Hevs |].
          constructor; [exact I |]. apply Forall_forall. intros e He.
          apply list_elem_of_fmap in He as (ev & -> & _). exact I. }
      unfold marker_line.
      destruct (includes "Program log: LoanRequested" log).
      - destruct (log_handler_run requested_of EventMonitor.emitLoanRequested signature mon
                    emitLoanRequested_run) as (Hres & Hw).
        change (try_catch _ _ mon) with (EventMonitor.handleLoanRequested signature mon) in *.
        destruct (EventMonitor.handleLoanRequested signature mon) as [res m1].
        cbn [fst snd] in *. subst res. eexists m1, _. split; [reflexivity |].
        split; [exact Hw |]. cbn [orb]. apply Hshape, picked_requested_from_logs.
      - destruct (includes "Program log: LoanRecovered" log).
        + destruct (log_handler_run recovered_of EventMonitor.emitLoanRecovered signature mon
                      emitLoanRecovered_run) as (Hres & Hw).
          change (try_catch _ _ mon) with (EventMonitor.handleLoanRecovered signature mon) in *.
          destruct (EventMonitor.handleLoanRecovered signature mon) as [res m1].
          cbn [fst snd] in *. subst res. eexists m1, _. split; [reflexivity |].
          split; [exact Hw |]. cbn [orb]. apply Hshape, picked_recovered_from_logs.
        + exists mon, []. split; [reflexivity |]. split; [apply watched_refl |].
          split; [reflexivity | split; apply Forall_nil_2]. }
    destruct Hstep as (m1 & j1 & -> & Hw1 & Hf1 & He1 & Hk1).
    destruct (IH m1) as (Hres & j2 & Hw2 & Hf2 & He2 & Hk2). cbv zeta in Hres, Hw2.
    split; [exact Hres |]. exists (j1 ++ j2).
    split; [eapply watched_trans; eassumption |].
    rewrite fetched_transactions_app, emitted_app, Hf1, Hf2, !Forall_app.
    split; [| auto].
    destruct (marker_line log) eqn:Hm.
    + rewrite filter_cons_True by exact Hm. reflexivity.
    + rewrite filter_cons_False by (rewrite Hm; discriminate). reflexivity.
Qed.

(** X20. What a log notification sets off.  The callback that the monitor
    registers returns normally for every notification.  It fetches the
    transaction of the notification once for every line that contains one
    of the two markers, so not at all when no line does, and several times
    when several lines do; a line with both markers counts as a
    [LoanRequested] line.  It emits only [loanRequested] and
    [loanRecovered] events, and leaves the store, the binary directory and
    the trace of the service as they are. *)
Theorem log_notification_fetches_per_marker_line (signature : string)
    (logMessages : list string) (mon : Monitor W) :
  let r := EventMonitor.onLogsCallback signature logMessages mon in
  let did := journal_since mon r.2 in
  r.1 = Ok tt
  ∧ fetched_transactions did
    = replicate (length (filter (λ log, marker_line log = true) logMessages)) signature
  ∧ Forall from_logs (emitted did)
  ∧ db (sys r.2) = db (sys mon)
  ∧ files (sys r.2) = files (sys mon)
  ∧ trace (sys r.2) = trace (sys mon).
Proof.
  cbv zeta. unfold EventMonitor.onLogsCallback, try_catch.
  destruct (processLogs_run signature logMessages mon) as (Hres & j & Hw & Hf & He & _).
  cbv zeta in Hres, Hw.
  destruct (EventMonitor.processLogs signature logMessages mon) as [res m1].
  cbn [fst snd] in *. subst res. cbn [fst snd].
  destruct Hw as (Hdb & Hfiles & Htr & _ & _ & Hj).
  rewrite (journal_since_app _ _ _ Hj). auto 6.
Qed.

End MonitorLogs.

(** ** The health server *)

Section HealthServer.

Context {W : Type} `{!Platform W}.
Variable config : DeployerConfig.
Variable programDeployer : ProgramDeployer.

(** In a store that is filed by loan, [getAllDeployments] lists every
    record. *)
Lemma listed_records_keyed (s : Sys W) :
  store_keyed (db s) → listed_records s = (map_to_list (db s)).*2.
Proof.
  intros Hk. unfold listed_records, getAllDeployments. cbn [fst].
  rewrite (filter_all (λ kv : string * DeploymentRecord,
                         String.prefix "deployment:" kv.1 = true)); [reflexivity |].
  apply Forall_forall. intros [key r] Hin. apply elem_of_map_to_list in Hin.
  apply Hk in Hin. cbn [fst]. rewrite Hin. destruct (loanId r); reflexivity.
Qed.

(** Writes never remove a record. *)
Lemma run_is_Some (loan : string) (evs : list Event) :
  ∀ s : Sys W,
    is_Some (db s !! deployment_key loan) →
    is_Some (db (run config programDeployer evs s) !! deployment_key loan).
Proof.
  induction evs as [|ev evs IH]; intros s Hs; [exact Hs |].
  cbn [run]. apply IH.
  destruct (handle_footprint config programDeployer ev s) as (_ & l & t & _ & _ & -> & _).
  apply replay_is_Some, Hs.
Qed.

(** X21. [GET /health] answers 200 with the number of [deployed] records
    and the number of all records that [getAllDeployments] lists, the
    first never more than the second, and it changes neither the store nor
    the binary directory nor the trace; the first number is the one to
    which a sweep of the monitor in the same state sets the gauge.  In a
    store that is filed by loan, the second number is the number of
    records in the store. *)
Theorem health_counts `{!MonitorPlatform W} (mon : Monitor W) :
  let s := sys mon in
  let r := route_health s in
  let active := Z.of_nat (length (deployed_records s)) in
  let total := Z.of_nat (length (listed_records s)) in
  (∃ timestamp, r.1 = Ok (Health active total timestamp))
  ∧ status_code (match r.1 with Ok response => response | Throw _ => Unhealthy "" end) = 200
  ∧ 0 <= active <= total
  ∧ db r.2 = db s ∧ files r.2 = files s ∧ trace r.2 = trace s
  ∧ MSetActiveLoans active ∈ journal_since mon (EventMonitor.checkExpiredLoans mon).2
  ∧ (store_keyed (db s) → total = Z.of_nat (size (db s))).
Proof.
  cbv zeta.
  assert (Hroute : route_health (sys mon)
                   = (Ok (Health (Z.of_nat (length (deployed_records (sys mon))))
                            (Z.of_nat (length (listed_records (sys mon))))
                            (Date_now (world (sys mon))).1),
                      {| db := db (sys mon); files := files (sys mon);
                         world := (Date_now (world (sys mon))).2;
                         trace := trace (sys mon) |})) by reflexivity.
  rewrite Hroute. cbn [fst snd db files trace status_code].
  split; [eauto |]. split; [reflexivity |].
  split.
  { pose proof (length_filter (λ d : DeploymentRecord, status d = deployed)
                  (listed_records (sys mon))) as Hle.
    unfold deployed_records. lia. }
  split; [reflexivity | split; [reflexivity | split; [reflexivity |]]].
  split.
  { destruct (checkExpiredLoans_run mon) as (_ & j & (_ & _ & _ & _ & _ & Hj) & _).
    rewrite (journal_since_app _ _ _ Hj).
    apply elem_of_app. right. apply list_elem_of_singleton. reflexivity. }
  intros Hk. rewrite (listed_records_keyed (sys mon) Hk), length_fmap, length_map_to_list.
  reflexivity.
Qed.

(** X22. [GET /deployments/:loanId] answers 404, with the error
    "Deployment not found", exactly when the store has no record under the
    key of the loan, and 200 with that record otherwise; it changes
    nothing.  Records are never deleted: once a [loanRequested] event for
    a loan has been handled, the route answers 200 for that loan after any
    further run of events. *)
Theorem deployment_route (loan : string) (event : LoanRequested) (evs : list Event)
    (s : Sys W) :
  route_deployment loan s
  = (Ok (match db s !! deployment_key loan with
         | Some record => DeploymentFound record
         | None => DeploymentNotFound "Deployment not found"
         end), s)
  ∧ (let s' := run config programDeployer (loanRequested event :: evs) s in
     ∃ record, route_deployment (ev_loanId event) s' = (Ok (DeploymentFound record), s')).
Proof.
  assert (Hroute : ∀ (l : string) (s0 : Sys W),
            route_deployment l s0
            = (Ok (match db s0 !! deployment_key l with
                   | Some record => DeploymentFound record
                   | None => DeploymentNotFound "Deployment not found"
                   end), s0)).
  { intros l s0.
    unfold route_deployment, try_catch, mbind, Prog_bind, prog_bind, getDeployment.
    destruct (db s0 !! deployment_key l); reflexivity. }
  split; [apply Hroute |].
  cbv zeta. cbn [run handle].
  assert (Hsome : is_Some (db (handleLoanRequested config programDeployer event s).2
                           !! deployment_key (ev_loanId event))).
  { destruct (handleLoanRequested_run config programDeployer event s) as (_ & Hcases).
    cbv zeta in Hcases. destruct Hcases as [(Hproc & ->) | (_ & Hsome & _)]; [| exact Hsome].
    destruct (db s !! deployment_key (ev_loanId event)); [eauto | discriminate]. }
  apply (run_is_Some (ev_loanId event) evs) in Hsome as [record Hrecord].
  exists record. rewrite Hroute, Hrecord. reflexivity.
Qed.

End HealthServer.

(** ** The further properties at concrete inputs *)

Lemma sim_deployed_keyed (idle : Z) : store_keyed (db (sim_deployed idle)).
Proof.
  apply (handle_store_keyed (sim_config 3) sim_deployer (loanRequested loan42)
           (sim_start idle 0)).
  exact store_keyed_empty.
Qed.


Lemma watch_deployed_keyed : store_keyed (db watch_deployed).
Proof. apply run_store_keyed. exact store_keyed_empty. Qed.

Example sim_status_history :
  written_statuses
    (since (sim_start 5 2)
       (handle (sim_config 3) sim_deployer (loanRequested loan42) (sim_start 5 2)).2)
  = [pending; deploying; deploying; deploying; deployed].
Proof. vm_compute. reflexivity. Qed.

(** Loan 8 is requested and its recovery is asked for while loan 42 is
    deployed. *)
Lemma other_loans_untouched_witness :
  store_keyed (db (sim_deployed 5))
  ∧ Forall (λ ev, target ev ≠ "42") [loanRequested loan8; loanExpired "8"]
  ∧ db (run (sim_config 3) sim_deployer [loanRequested loan8; loanExpired "8"]
          (sim_deployed 5)) !! deployment_key "42"
    = db (sim_deployed 5) !! deployment_key "42".
Proof.
  assert (Hevs : Forall (λ ev, target ev ≠ "42") [loanRequested loan8; loanExpired "8"])
    by (repeat constructor; discriminate).
  split; [apply sim_deployed_keyed | split; [exact Hevs |]].
  apply (other_loans_untouched (sim_config 3) sim_deployer "42"
           [loanRequested loan8; loanExpired "8"] (sim_deployed 5)
           (sim_deployed_keyed 5) Hevs).
Defined.


Lemma successful_attempt_effects_witness :
  (processDeployment (sim_config 3) sim_deployer (pending42, sim_start 5 0)).1 = Ok tt
  ∧ length (since (sim_start 5 0)
              (processDeployment (sim_config 3) sim_deployer (pending42, sim_start 5 0)).2.2)
    = 8%nat.
Proof.
  assert (Hok : (processDeployment (sim_config 3) sim_deployer (pending42, sim_start 5 0)).1
                = Ok tt) by (vm_compute; reflexivity).
  split; [exact Hok |].
  destruct (successful_attempt_effects (sim_config 3) sim_deployer pending42
              (sim_start 5 0) Hok)
    as (binaryData & bufferKey & programKey & rent & signature & setTx & d1
        & _ & _ & _ & -> & _).
  reflexivity.
Defined.

Lemma deployed_binary_can_be_read_back_witness :
  (processDeployment (sim_config 3) sim_deployer (pending42, sim_start 5 0)).1 = Ok tt
  ∧ ∃ hash binaryData,
      binaryHash (processDeployment (sim_config 3) sim_deployer
                    (pending42, sim_start 5 0)).2.1 = Some hash
      ∧ (getBinary (sim_config 3) "42" hash
           (processDeployment (sim_config 3) sim_deployer (pending42, sim_start 5 0)).2.2).1
        = Ok binaryData.
Proof.
  assert (Hok : (processDeployment (sim_config 3) sim_deployer (pending42, sim_start 5 0)).1
                = Ok tt) by (vm_compute; reflexivity).
  split; [exact Hok |].
  destruct (deployed_binary_can_be_read_back (sim_config 3) sim_deployer pending42
              (sim_start 5 0) "42" sim_binary) as (_ & Hback).
  destruct (Hback Hok) as (hash & binaryData & _ & _ & _ & Hhash & Hget & _).
  exists hash, binaryData. split; [exact Hhash | exact Hget].
Defined.

Example sim_binary_read_back :
  (getBinary (sim_config 3) "42" "digest-8" (sim_deployed 5)).1 = Ok sim_binary.
Proof. vm_compute. reflexivity. Qed.

Lemma sim_bad_binary_unusable :
  unusable_binary
    (files sim_bad_binary !! path_join (binaryStoragePath (sim_config 3)) "test-program.so")
    "Binary validation failed: Invalid ELF header".
Proof.
  change (files sim_bad_binary
          !! path_join (binaryStoragePath (sim_config 3)) "test-program.so")
    with (Some [x23; x21; x2f; x62; x69; x6e]).
  exists "Invalid ELF header". split; reflexivity.
Defined.

Lemma attempt_without_usable_binary_witness :
  unusable_binary
    (files sim_bad_binary !! path_join (binaryStoragePath (sim_config 3)) "test-program.so")
    "Binary validation failed: Invalid ELF header"
  ∧ (processDeployment (sim_config 3) sim_deployer (pending42, sim_bad_binary)).1
    = Throw {| message := "Binary validation failed: Invalid ELF header" |}.
Proof.
  split; [exact sim_bad_binary_unusable |].
  apply (attempt_without_usable_binary (sim_config 3) sim_deployer pending42 sim_bad_binary
           "Binary validation failed: Invalid ELF header" sim_bad_binary_unusable).
Defined.

Lemma unusable_binary_exhausts_retries_witness :
  1 <= maxRetries (sim_config 3)
  ∧ already_processing (db sim_bad_binary !! deployment_key (ev_loanId loan42)) = false
  ∧ Z.of_nat (attempts_started "42"
                (since sim_bad_binary
                   (handleLoanRequested (sim_config 3) sim_deployer loan42
                      sim_bad_binary).2)) = 3.
Proof.
  assert (Hpos : 1 <= maxRetries (sim_config 3)) by (simpl; lia).
  assert (Hguard : already_processing
                     (db sim_bad_binary !! deployment_key (ev_loanId loan42)) = false)
    by reflexivity.
  split; [exact Hpos | split; [exact Hguard |]].
  apply (unusable_binary_exhausts_retries (sim_config 3) sim_deployer loan42 sim_bad_binary
           "Binary validation failed: Invalid ELF header" Hpos Hguard
           sim_bad_binary_unusable).
Defined.

Example sim_bad_binary_error :
  error <$> db (handleLoanRequested (sim_config 3) sim_deployer loan42 sim_bad_binary).2
            !! "deployment:42"
  = Some (Some "Error: Binary validation failed: Invalid ELF header").
Proof. vm_compute. reflexivity. Qed.



(** Loan 42 is deployed while the intermediary address holds 2^53
    lamports: the program is closed, and the amount to return then fails
    the assertion of [BN]. *)
Lemma recovery_failing_after_close_witness :
  let s := sim_deployed (2 ^ 53) in
  let s' := (processRecovery sim_deployer "42" s).2 in
  db s !! deployment_key "42" = Some (record_of "42" s)
  ∧ status (record_of "42" s) = deployed
  ∧ (∃ d', db s' !! deployment_key "42" = Some d'
           ∧ status d' = failed
           ∧ error d' = Some "Error: Assertion failed"
           ∧ recoveryTxSignature d' = None)
  ∧ run (sim_config 3) sim_deployer [loanExpired "42"] s' = s'.
Proof.
  cbv zeta.
  set (s := sim_deployed (2 ^ 53)).
  assert (Hd : db s !! deployment_key "42" = Some (record_of "42" s))
    by (vm_compute; reflexivity).
  assert (Hloan : loanId (record_of "42" s) = "42") by (vm_compute; reflexivity).
  assert (Hst : status (record_of "42" s) = deployed) by (vm_compute; reflexivity).
  assert (Hprog : programId (record_of "42" s) = Some (toBase58 sim_program42))
    by (vm_compute; reflexivity).
  assert (Hne : toBase58 sim_program42 ≠ "") by (vm_compute; discriminate).
  assert (Hkey : PublicKey_of_string (toBase58 sim_program42) = Ok sim_program42)
    by (vm_compute; reflexivity).
  set (closed := closeProgram sim_deployer "42" sim_program42
                   (recovery_entered (record_of "42" s) s)).
  assert (Hclose : closed = (Ok (default (S754_zero false, "") (match closed.1 with
                                                    | Ok a => Some a
                                                    | Throw _ => None
                                                    end)), closed.2))
    by (vm_compute; reflexivity).
  assert (Hreturn : (returnReclaimedSol "42"
                       (default (S754_zero false, "") (match closed.1 with
                                           | Ok a => Some a
                                           | Throw _ => None
                                           end)).1 closed.2).1
                    = Throw {| message := "Assertion failed" |})
    by (vm_compute; reflexivity).
  destruct (default (S754_zero false, "") (match closed.1 with Ok a => Some a | Throw _ => None end))
    as [reclaimedSol signature] eqn:Hpair.
  cbn [fst] in Hreturn.
  destruct (recovery_failing_after_close (sim_config 3) sim_deployer "42"
              (toBase58 sim_program42) (record_of "42" s) s closed.2 sim_program42
              reclaimedSol signature {| message := "Assertion failed" |}
              Hd Hloan Hst Hprog Hne Hkey Hclose Hreturn)
    as ((d' & Hd' & Hfailed & Herr & Hsig) & _ & Hfinal).
  split; [exact Hd | split; [exact Hst | split]].
  - exists d'. split; [exact Hd' | split; [exact Hfailed | split; [exact Herr |]]].
    rewrite Hsig. vm_compute. reflexivity.
  - apply (Hfinal (sim_deployed_keyed (2 ^ 53))).
    constructor; [right; reflexivity | constructor].
Defined.

Lemma validated_binary_fields_exact_witness :
  valid (validateBinary sim_binary) = true
  ∧ map ix_offset
      (createWriteBufferInstructions sim_program42 (deployerWallet sim_deployer) sim_binary)
    = [0].
Proof.
  assert (Hvalid : valid (validateBinary sim_binary) = true) by reflexivity.
  split; [exact Hvalid |].
  destruct (validated_binary_fields_exact sim_deployer sim_program42 sim_program42 0
              sim_binary Hvalid) as (_ & Hoffsets & _).
  destruct (Hoffsets 0%nat _ eq_refl) as (Hzero & _).
  change (createWriteBufferInstructions sim_program42 (deployerWallet sim_deployer) sim_binary)
    with [writeChunkInstruction sim_program42 (deployerWallet sim_deployer) sim_binary 0].
  cbn [map]. rewrite Hzero. reflexivity.
Defined.

(** Loans 42 and 8 are deployed; loan 42 has expired, loan 8 has not. *)
Lemma sweep_clears_what_it_reports_witness :
  let mon := sim_monitor watch_deployed in
  store_keyed (db (sys mon))
  ∧ emitted (journal_since mon (EventMonitor.checkExpiredLoans mon).2) = [loanExpired "42"]
  ∧ not_deployed (db (sys (sweep (sim_config 3) sim_deployer mon)) !! deployment_key "42")
    = true.
Proof.
  cbv zeta.
  assert (Hem : emitted (journal_since (sim_monitor watch_deployed)
                           (EventMonitor.checkExpiredLoans (sim_monitor watch_deployed)).2)
                = [loanExpired "42"]) by (vm_compute; reflexivity).
  assert (Hin : loanExpired "42"
                ∈ emitted (journal_since (sim_monitor watch_deployed)
                             (EventMonitor.checkExpiredLoans (sim_monitor watch_deployed)).2))
    by (rewrite Hem; apply list_elem_of_here).
  split; [exact watch_deployed_keyed | split; [exact Hem |]].
  apply (sweep_clears_what_it_reports (sim_config 3) sim_deployer
           (sim_monitor watch_deployed) "42" watch_deployed_keyed Hin).
Defined.

Example sim_sweep_statuses :
  (λ s, (status <$> db s !! "deployment:42", status <$> db s !! "deployment:8"))
    (sys (sweep (sim_config 3) sim_deployer (sim_monitor watch_deployed)))
  = (Some recovered, Some deployed).
Proof. vm_compute. reflexivity. Qed.

Example sim_sweep_journal :
  journal (EventMonitor.checkExpiredLoans (sim_monitor watch_deployed)).2
  = [MFetchLoan "42"; MEmit (loanExpired "42"); MFetchLoan "8"; MSetActiveLoans 2].
Proof. vm_compute. reflexivity. Qed.

(** The first subscription has number 0: [stop] leaves it open. *)
Lemma monitor_start_stop_witness :
  isRunning (sim_monitor watch_start) = false
  ∧ (let m1 := (EventMonitor.start 30000 (sim_monitor watch_start)).2 in
     let m2 := (EventMonitor.stop m1).2 in
     let m3 := (EventMonitor.start 30000 m2).2 in
     intervals (journal_since (sim_monitor watch_start) m3) = [30000; 30000]
     ∧ journal m3 = [MOnLogs 0; MSetInterval 30000; MOnLogs 1; MSetInterval 30000]).
Proof.
  split; [reflexivity |]. cbv zeta.
  destruct (monitor_start_stop 30000 (sim_monitor watch_start) eq_refl)
    as (_ & _ & _ & _ & Hintervals & _).
  split; [exact Hintervals | vm_compute; reflexivity].
Defined.

Example sim_log_notification :
  emitted (journal (EventMonitor.onLogsCallback "signature-request-42" request42_logs
                      (sim_monitor watch_start)).2)
  = [loanRequested loan42].
Proof. vm_compute. reflexivity. Qed.

Example sim_health :
  (route_health watch_deployed).1 = Ok (Health 2 2 1700000000008).
Proof. vm_compute. reflexivity. Qed.

(** ** The binary directory *)

Lemma replay_files_app (t1 t2 : list Effect) (m : gmap string (list byte)) :
  replay_files (t1 ++ t2) m = replay_files t2 (replay_files t1 m).
Proof. apply foldl_app. Qed.

Lemma replay_files_none (t : list Effect) (m : gmap string (list byte)) :
  Forall no_file_write t → replay_files t m = m.
Proof.
  intros Ht. revert m. induction Ht as [|e t He _ IH]; intros m; [reflexivity |].
  destruct e; simpl in He; try contradiction; apply IH.
Qed.

Lemma replay_files_is_Some (t : list Effect) (m : gmap string (list byte)) (path : string) :
  is_Some (m !! path) → is_Some (replay_files t m !! path).
Proof.
  revert m. induction t as [|e t IH]; intros m Hm; [exact Hm |].
  simpl. apply IH. destruct e; try exact Hm.
  rewrite lookup_insert. case_decide; [eauto | exact Hm].
Qed.

Section Tidy.

Context {W : Type} `{!Platform W}.
Variable P : Effect → Prop.
Hypothesis P_other : ∀ e, no_file_write e → P e.

Lemma tidy_pure {S A} (proj : S → Sys W) (r : result A) : tidy proj P (λ st : S, (r, st)).
Proof. intros st. exists []. cbn. rewrite app_nil_r. auto. Qed.

Lemma tidy_ret {S A} (proj : S → Sys W) (a : A) : tidy proj P (mret a : Prog S A).
Proof. apply tidy_pure. Qed.

Lemma tidy_throw {S A} (proj : S → Sys W) (e : Error) : tidy proj P (throw e : Prog S A).
Proof. apply tidy_pure. Qed.

Lemma tidy_bind {S A B} (proj : S → Sys W) (m : Prog S A) (f : A → Prog S B) :
  tidy proj P m → (∀ a, tidy proj P (f a)) → tidy proj P (m ≫= f).
Proof.
  intros Hm Hf st. unfold mbind, Prog_bind, prog_bind.
  destruct (Hm st) as (t1 & Ht1 & Hf1 & HP1).
  destruct (m st) as [[a|e] st1]; cbn [snd] in *.
  - destruct (Hf a st1) as (t2 & Ht2 & Hf2 & HP2).
    exists (t1 ++ t2). rewrite Ht2, Ht1, Hf2, Hf1, replay_files_app, app_assoc.
    split; [reflexivity | split; [reflexivity | apply Forall_app; auto]].
  - exists t1. auto.
Qed.

Lemma tidy_try_catch {S A} (proj : S → Sys W) (m : Prog S A) (h : Error → Prog S A) :
  tidy proj P m → (∀ e, tidy proj P (h e)) → tidy proj P (try_catch m h).
Proof.
  intros Hm Hh st. unfold try_catch.
  destruct (Hm st) as (t1 & Ht1 & Hf1 & HP1).
  destruct (m st) as [[a|e] st1]; cbn [snd] in *.
  - exists t1. auto.
  - destruct (Hh e st1) as (t2 & Ht2 & Hf2 & HP2).
    exists (t1 ++ t2). rewrite Ht2, Ht1, Hf2, Hf1, replay_files_app, app_assoc.
    split; [reflexivity | split; [reflexivity | apply Forall_app; auto]].
Qed.

Lemma tidy_one {S A} (proj : S → Sys W) (m : Prog S A) (e : Effect) :
  no_file_write e →
  (∀ st, trace (proj (m st).2) = trace (proj st) ++ [e]
         ∧ files (proj (m st).2) = files (proj st)) →
  tidy proj P m.
Proof.
  intros He Hm st. destruct (Hm st) as (Ht & Hf). exists [e].
  split; [exact Ht | split; [| auto]].
  rewrite Hf. destruct e; try reflexivity. contradiction.
Qed.

Lemma tidy_call {A} (e : Effect) (op : W → result A * W) :
  no_file_write e → tidy id P (call e op).
Proof. intros He. apply (tidy_one id _ e He). intros st. split; reflexivity. Qed.

Lemma tidy_ask {A} (op : W → A * W) : tidy id P (ask op).
Proof. intros st. exists []. cbn. rewrite app_nil_r. auto. Qed.

Lemma tidy_fs_readFile (path : string) :
  tidy id P (fs_readFile path : Prog (Sys W) (list byte)).
Proof.
  apply (tidy_one id _ (EReadFile path) I). intros st. unfold fs_readFile, id.
  destruct (files st !! path); split; reflexivity.
Qed.

Lemma tidy_fs_writeFile (path : string) (data : list byte) :
  P (EWriteFile path data) → tidy id P (fs_writeFile path data : Prog (Sys W) unit).
Proof. intros He st. exists [EWriteFile path data]. cbn. auto. Qed.

Lemma tidy_on_sys {A} (m : Prog (Sys W) A) :
  tidy id P m → tidy snd P (on_sys m).
Proof. intros Hm [d s]. exact (Hm s). Qed.

Lemma tidy_assign (f : DeploymentRecord → DeploymentRecord) :
  tidy snd P (assign (W := W) f).
Proof. intros st. exists []. cbn. rewrite app_nil_r. auto. Qed.

Lemma tidy_this_deployment : tidy snd P (this_deployment (W := W)).
Proof. intros st. exists []. cbn. rewrite app_nil_r. auto. Qed.

Lemma tidy_save_this : tidy snd P (save_this (W := W)).
Proof.
  intros [d s]. exists [EDbPut (deployment_key (loanId d)) d]. cbn.
  split; [reflexivity | split; [reflexivity |]]. constructor; [apply P_other; exact I | constructor].
Qed.

Lemma tidy_with_object {A} (d : DeploymentRecord) (m : Prog (DeploymentRecord * Sys W) A) :
  tidy snd P m → tidy id P (with_object d m).
Proof. intros Hm s. exact (Hm (d, s)). Qed.

End Tidy.

Section BinaryDirectory.

Context {W : Type} `{!Platform W}.
Variable config : DeployerConfig.
Variable programDeployer : ProgramDeployer.

(** Steps through a computation built from the pieces above. *)
Ltac tidy_step P_other :=
  first [ apply tidy_bind; [| intros]
        | apply tidy_on_sys
        | apply tidy_assign
        | apply tidy_this_deployment
        | apply (tidy_save_this _ P_other)
        | apply tidy_ask
        | apply (tidy_call _ P_other); exact I
        | apply tidy_pure
        | apply tidy_ret
        | apply tidy_throw
        | apply (tidy_fs_readFile _ P_other)
        | apply tidy_try_catch; [| intros] ].

Lemma stores_validated_other (e : Effect) : no_file_write e → stores_validated config e.
Proof. destruct e; simpl; tauto. Qed.

Lemma tidy_chain_calls (P : Effect → Prop) (loan : string) (data : list byte)
    (program : PublicKey) (amount : number) :
  (∀ e, no_file_write e → P e) →
  tidy id P (deployProgram programDeployer loan data)
  ∧ tidy id P (setDeployedProgram programDeployer loan program)
  ∧ tidy id P (closeProgram programDeployer loan program)
  ∧ tidy id P (returnReclaimedSol loan amount).
Proof.
  intros P_other. split; [| split; [| split]].
  - unfold deployProgram. repeat tidy_step P_other.
  - unfold setDeployedProgram. destruct (adminWallet programDeployer);
      [apply (tidy_call _ P_other); exact I | apply tidy_throw].
  - unfold closeProgram. apply tidy_bind; [apply (tidy_call _ P_other); exact I |].
    intros [info|]; [| apply tidy_throw]. repeat tidy_step P_other.
  - unfold returnReclaimedSol. repeat tidy_step P_other.
Qed.

Lemma tidy_processDeployment :
  tidy snd (stores_validated config) (processDeployment config programDeployer).
Proof.
  unfold processDeployment. repeat tidy_step stores_validated_other.
  match goal with
  | |- context [validateBinary ?b] => destruct (valid (validateBinary b)) eqn:Hvalid
  end; cbn [negb]; [| apply tidy_throw].
  apply tidy_bind.
  { apply tidy_on_sys. unfold storeBinary. apply tidy_bind; [| intros; apply tidy_ret].
    apply tidy_fs_writeFile. split; [exact Hvalid | eauto]. }
  intros hash. apply tidy_bind; [apply tidy_assign |]. intros _.
  apply tidy_bind.
  { apply tidy_on_sys.
    apply (tidy_chain_calls _ _ _ (deployerWallet programDeployer) (S754_zero false)
             stores_validated_other). }
  intros [[programKey bufferKey] signature].
  repeat tidy_step stores_validated_other.
  apply (tidy_chain_calls _ _ [] programKey (S754_zero false) stores_validated_other).
Qed.

Lemma tidy_retryLoop (n : nat) :
  ∀ attempts : Z,
    maxRetries config - attempts <= Z.of_nat n →
    tidy snd (stores_validated config) (retryLoop config programDeployer attempts).
Proof.
  induction n as [|n IH]; intros attempts Hn st; rewrite retryLoop_step;
    (destruct (decide (attempts < maxRetries config)) as [Hlt|Hge];
     [| exists []; cbn; rewrite app_nil_r; auto]).
  - lia.
  - destruct (tidy_processDeployment st) as (t1 & Ht1 & Hf1 & HP1).
    destruct (processDeployment config programDeployer st) as [[[]|e] st1]; cbn [snd] in *.
    + exists t1. auto.
    + destruct (decide (attempts + 1 >= maxRetries config)) as [Hlast|Hmore].
      * unfold mbind, Prog_bind, prog_bind, assign, save_this, on_sys, saveDeployment.
        cbn [fst snd files trace].
        eexists. rewrite Ht1, Hf1, <- app_assoc. split; [reflexivity |].
        rewrite replay_files_app. split; [reflexivity |].
        apply Forall_app. split; [exact HP1 | repeat constructor].
      * set (st2 := (on_sys (sleep (backoff config (attempts + 1))) st1).2).
        assert (Hs : trace st2.2
                     = trace st1.2 ++ [ESetTimeout (backoff config (attempts + 1))])
          by reflexivity.
        assert (Hfs : files st2.2 = files st1.2) by reflexivity.
        destruct (IH (attempts + 1) ltac:(lia) st2) as (t2 & Ht2 & Hf2 & HP2).
        exists (t1 ++ [ESetTimeout (backoff config (attempts + 1))] ++ t2).
        rewrite Ht2, Hf2, Hs, Hfs, Ht1, Hf1, !replay_files_app, <- !app_assoc.
        split; [reflexivity | split; [reflexivity |]].
        rewrite !Forall_app. split; [exact HP1 | split; [repeat constructor | exact HP2]].
Qed.

Lemma tidy_processRecovery (loan : string) :
  tidy id no_file_write (processRecovery programDeployer loan).
Proof.
  assert (Hother : ∀ e, no_file_write e → no_file_write e) by auto.
  intros s. rewrite processRecovery_step.
  destruct (not_deployed (db s !! deployment_key loan));
    [exists []; cbn; rewrite app_nil_r; auto |].
  destruct (db s !! deployment_key loan) as [d|];
    [| exists []; cbn; rewrite app_nil_r; auto].
  revert s. apply tidy_with_object. apply tidy_try_catch.
  - unfold recoveryBody. repeat tidy_step Hother.
    match goal with
    | |- context [truthy ?p] => destruct (truthy p)
    end; [| apply tidy_ret].
    apply tidy_bind; [apply tidy_pure |]. intros program.
    apply tidy_bind.
    { apply tidy_on_sys. apply (tidy_chain_calls _ _ [] program (S754_zero false) Hother). }
    intros [reclaimedSol signature].
    apply tidy_bind.
    { apply tidy_on_sys. apply (tidy_chain_calls _ _ [] program reclaimedSol Hother). }
    intros returnTx. repeat tidy_step Hother.
  - intros e. repeat tidy_step Hother.
Qed.

Lemma tidy_handle (ev : Event) :
  tidy id (stores_validated config) (handle config programDeployer ev).
Proof.
  assert (Hrec : ∀ loan, tidy id (stores_validated config)
                           (processRecovery programDeployer loan)).
  { intros loan s. destruct (tidy_processRecovery loan s) as (t & Ht & Hf & HP).
    exists t. split; [exact Ht | split; [exact Hf |]].
    eapply Forall_impl; [exact HP | apply stores_validated_other]. }
  destruct ev as [event|loan|loan]; cbn [handle]; [| apply Hrec | apply Hrec].
  intros s. rewrite handleLoanRequested_step.
  destruct (already_processing (db s !! deployment_key (ev_loanId event)));
    [exists []; cbn; rewrite app_nil_r; auto |].
  cbv zeta. unfold with_object, processDeploymentWithRetries.
  match goal with
  | |- context [retryLoop config programDeployer 0 ?st] =>
      destruct (tidy_retryLoop (Z.to_nat (maxRetries config)) 0 ltac:(lia) st)
        as (t & Ht & Hf & HP)
  end.
  cbn [fst snd id files trace] in Ht, Hf |- *.
  eexists. rewrite Ht, Hf, <- app_assoc. split; [reflexivity |].
  split; [reflexivity |]. constructor; [exact I | exact HP].
Qed.

Lemma tidy_run (evs : list Event) :
  ∀ s : Sys W,
    ∃ t, trace (run config programDeployer evs s) = trace s ++ t
         ∧ files (run config programDeployer evs s) = replay_files t (files s)
         ∧ Forall (stores_validated config) t
         ∧ (Forall (λ ev, ∃ l, recovery_event l ev) evs → Forall no_file_write t).
Proof.
  induction evs as [|ev evs IH]; intros s.
  - exists []. cbn. rewrite app_nil_r. auto.
  - cbn [run]. destruct (tidy_handle ev s) as (t1 & Ht1 & Hf1 & HP1).
    destruct (IH (handle config programDeployer ev s).2) as (t2 & Ht2 & Hf2 & HP2 & Hrec2).
    unfold id in *.
    exists (t1 ++ t2). rewrite Ht2, Hf2, Ht1, Hf1, replay_files_app, app_assoc.
    split; [reflexivity | split; [reflexivity | split; [apply Forall_app; auto |]]].
    intros Hevs. apply Forall_cons in Hevs as [(l & Hev) Hevs].
    apply Forall_app. split; [| auto].
    assert (Hhandle : handle config programDeployer ev s
                      = processRecovery programDeployer l s)
      by (destruct Hev as [-> | ->]; reflexivity).
    destruct (tidy_processRecovery l s) as (t & Ht & _ & HP). unfold id in Ht.
    rewrite <- Hhandle, Ht1 in Ht. apply app_inv_head in Ht. subst t. exact HP.
Qed.

(** X23. The binary directory only grows, and only by validated binaries.
    Over any run of events, the directory changes by the file writes of
    the trace and by nothing else; each of these writes stores a binary
    that passed validation, under the name made from a loan and the
    SHA-256 digest of that binary; so no file is ever removed.  A run
    that consists of [loanRecovered] and [loanExpired] events writes no
    file at all and leaves the directory exactly as it was: the binary of
    a recovered loan stays in the directory. *)
Theorem binary_directory_only_grows (evs : list Event) (s : Sys W) :
  let s' := run config programDeployer evs s in
  files s' = replay_files (since s s') (files s)
  ∧ Forall (stores_validated config) (since s s')
  ∧ (∀ path, is_Some (files s !! path) → is_Some (files s' !! path))
  ∧ (Forall (λ ev, ∃ l, recovery_event l ev) evs →
     Forall no_file_write (since s s') ∧ files s' = files s).
Proof.
  cbv zeta. destruct (tidy_run evs s) as (t & Ht & Hf & HP & Hrec).
  rewrite (since_app _ _ _ Ht).
  split; [exact Hf | split; [exact HP | split]].
  - intros path Hpath. rewrite Hf. apply replay_files_is_Some, Hpath.
  - intros Hevs. split; [apply Hrec, Hevs |].
    rewrite Hf. apply replay_files_none, Hrec, Hevs.
Qed.

(** X24. A retry after failure starts from scratch.  When the record of a
    loan is [failed], the handling of a [loanRequested] event for that loan
    is, in result and in every part of the final system, what it would be
    if the loan had no record at all: the first thing written is a fresh
    [pending] record made from the event, and nothing of the failed
    record, neither its error nor the program it may name, survives. *)
Theorem retry_after_failure_starts_afresh (event : LoanRequested) (d : DeploymentRecord)
    (s : Sys W) :
  db s !! deployment_key (ev_loanId event) = Some d →
  status d = failed →
  handleLoanRequested config programDeployer event s
  = handleLoanRequested config programDeployer event (without_record (ev_loanId event) s)
  ∧ ∃ fresh t,
      since s (handleLoanRequested config programDeployer event s).2
      = EDbPut (deployment_key (ev_loanId event)) fresh :: t
      ∧ status fresh = pending ∧ error fresh = None ∧ programId fresh = None
      ∧ borrower fresh = ev_borrower event ∧ principal fresh = ev_principal event.
Proof.
  intros Hd Hst. rewrite !handleLoanRequested_step.
  unfold without_record. cbn [db files world trace].
  rewrite Hd, lookup_delete_eq. cbn [already_processing].
  rewrite bool_decide_eq_false_2 by (rewrite Hst; auto).
  cbv zeta. rewrite insert_delete_eq.
  split; [reflexivity |].
  unfold with_object, processDeploymentWithRetries.
  match goal with
  | |- context [retryLoop config programDeployer 0 ?st] =>
      destruct (tidy_retryLoop (Z.to_nat (maxRetries config)) 0 ltac:(lia) st)
        as (t & Ht & _)
  end.
  cbn [fst snd trace] in Ht |- *.
  eexists _, t. split; [apply since_app; rewrite Ht, <- app_assoc; reflexivity |].
  repeat split.
Qed.

End BinaryDirectory.

(** ** Between deployment and registration *)

Section Registration.

Context {W : Type} `{!Platform W}.
Variable config : DeployerConfig.
Variable programDeployer : ProgramDeployer.

(** A deployment attempt that found a valid binary, in terms of the two
    calls to the chain that follow. *)
Lemma processDeployment_enter (d : DeploymentRecord) (s : Sys W) (binaryData : list byte) :
  files s !! path_join (binaryStoragePath config) "test-program.so" = Some binaryData →
  valid (validateBinary binaryData) = true →
  processDeployment config programDeployer (d, s)
  = let hash := sha256_hex binaryData in
    match deployProgram programDeployer (loanId d) binaryData
            (binary_stored config d s binaryData) with
    | (Throw e, s3) => (Throw e, (set_binaryHash hash (deploying_record d s), s3))
    | (Ok (programKey, bufferKey, signature), s3) =>
        let d3 := program_deployed d s hash programKey bufferKey signature in
        match setDeployedProgram programDeployer (loanId d) programKey s3 with
        | (Throw e, s4) => (Throw e, (d3, s4))
        | (Ok setTx, s4) =>
            let d4 := set_updatedAt (Date_now (world s4)).1
                        (set_status deployed (set_setDeployedTxSignature setTx d3)) in
            (Ok tt,
             (d4, {| db := <[deployment_key (loanId d) := d4]> (db s4);
                     files := files s4; world := (Date_now (world s4)).2;
                     trace := trace s4 ++ [EDbPut (deployment_key (loanId d)) d4] |}))
        end
    end.
Proof.
  intros Hfile Hvalid. unfold processDeployment.
  unfold mbind, Prog_bind, prog_bind, mret, Prog_ret, prog_ret, this_deployment,
    assign, save_this, on_sys, saveDeployment, ask, throw.
  cbn -[fetchBinaryForLoan storeBinary deployProgram setDeployedProgram validateBinary
        deployment_key].
  rewrite fetchBinaryForLoan_run. cbv zeta. cbn [files]. rewrite Hfile. cbn [fst snd].
  rewrite Hvalid. cbn [negb].
  unfold storeBinary, fs_writeFile, mbind, Prog_bind, prog_bind, mret, Prog_ret, prog_ret.
  cbn [fst snd db files world trace]. rewrite <- !app_assoc. cbn [app].
  unfold binary_stored, deploying_record, program_deployed. cbv zeta.
  match goal with
  | |- context [deployProgram programDeployer ?l ?b ?st] =>
      destruct (deployProgram programDeployer l b st)
        as [[[[programKey bufferKey] signature]|e] s3]
  end; cbn [fst snd]; [| reflexivity].
  destruct (setDeployedProgram programDeployer (loanId d) programKey s3)
    as [[setTx|e] s4]; cbn [fst snd]; reflexivity.
Qed.

(** X25. Nothing is written to the store between the deployment
    transaction and the registration.  When an attempt has found a valid
    binary, its deployment transaction is confirmed and the registration
    with the lending program then throws, the attempt fails with that
    error; the object of the attempt names the program just deployed, its
    buffer and the signature, but the record in the store is still the one
    written at the start of the attempt, with the program it named before
    the attempt, if any.  The program reaches the store only with the next
    write of the object: if this was the last attempt allowed, the record
    persisted as [failed] names it. *)
Theorem registration_failure_after_deployment (d : DeploymentRecord) (s s3 : Sys W)
    (binaryData : list byte) (programKey bufferKey : PublicKey) (signature : string)
    (e : Error) (attempts : Z) :
  let r := processDeployment config programDeployer (d, s) in
  let key := deployment_key (loanId d) in
  files s !! path_join (binaryStoragePath config) "test-program.so" = Some binaryData →
  valid (validateBinary binaryData) = true →
  deployProgram programDeployer (loanId d) binaryData (binary_stored config d s binaryData)
  = (Ok (programKey, bufferKey, signature), s3) →
  (setDeployedProgram programDeployer (loanId d) programKey s3).1 = Throw e →
  r.1 = Throw e
  ∧ status r.2.1 = deploying
  ∧ programId r.2.1 = Some (toBase58 programKey)
  ∧ bufferAccount r.2.1 = Some (toBase58 bufferKey)
  ∧ deployTxSignature r.2.1 = Some signature
  ∧ (∃ stored, db r.2.2 !! key = Some stored
               ∧ status stored = deploying
               ∧ programId stored = programId d
               ∧ deployTxSignature stored = deployTxSignature d)
  ∧ (attempts < maxRetries config → attempts + 1 >= maxRetries config →
     let final := retryLoop config programDeployer attempts (d, s) in
     ∃ stored, db final.2.2 !! key = Some stored
               ∧ status stored = failed
               ∧ error stored = Some (String_of_Error e)
               ∧ programId stored = Some (toBase58 programKey)
               ∧ setDeployedTxSignature stored = setDeployedTxSignature d).
Proof.
  cbv zeta. intros Hfile Hvalid Hdeploy Hset.
  assert (Hrun : ∃ s4, processDeployment config programDeployer (d, s)
                       = (Throw e,
                          (program_deployed d s (sha256_hex binaryData) programKey
                             bufferKey signature, s4))
                       ∧ db s4 = <[deployment_key (loanId d) := deploying_record d s]> (db s)).
  { rewrite (processDeployment_enter d s binaryData Hfile Hvalid). cbv zeta.
    rewrite Hdeploy.
    pose proof (quiet_db (setDeployedProgram programDeployer (loanId d) programKey) s3
                  (quiet_setDeployedProgram programDeployer (loanId d) programKey)) as Hdb4.
    pose proof (quiet_db (deployProgram programDeployer (loanId d) binaryData)
                  (binary_stored config d s binaryData)
                  (quiet_deployProgram programDeployer (loanId d) binaryData)) as Hdb3.
    rewrite Hdeploy in Hdb3. cbn [snd] in Hdb3.
    destruct (setDeployedProgram programDeployer (loanId d) programKey s3)
      as [[setTx|e'] s4]; cbn [fst snd] in *; [discriminate |].
    injection Hset as ->. exists s4. split; [reflexivity |].
    rewrite Hdb4, Hdb3. reflexivity. }
  destruct Hrun as (s4 & Hrun & Hdb4).
  split; [rewrite Hrun; reflexivity |].
  split; [rewrite Hrun; reflexivity |].
  split; [rewrite Hrun; reflexivity |].
  split; [rewrite Hrun; reflexivity |].
  split; [rewrite Hrun; reflexivity |].
  split.
  { rewrite Hrun. cbn [snd]. rewrite Hdb4, lookup_insert_eq.
    eexists. split; [reflexivity |]. split; [reflexivity | split; reflexivity]. }
  intros Hlt Hlast. rewrite retryLoop_step, decide_True by exact Hlt.
  rewrite Hrun, decide_True by exact Hlast.
  unfold mbind, Prog_bind, prog_bind, assign, save_this, on_sys, saveDeployment.
  cbn [fst snd db].
  change (loanId (set_error ?x (set_status ?y (program_deployed ?a ?b ?c ?f ?g ?h))))
    with (loanId a).
  rewrite lookup_insert_eq. eexists. split; [reflexivity |].
  split; [reflexivity | split; [reflexivity | split; reflexivity]].
Qed.

End Registration.

(** ** A recovery that finds nothing to close *)

Section NothingToClose.

Context {W : Type} `{!Platform W}.
Variable programDeployer : ProgramDeployer.

(** X26. A recovery that finds nothing to close.  For a [deployed] record
    that names a program: if the name is not a public key, the recovery
    writes the record as [recovering] and then as [failed], with the text
    of that error, and does nothing else; if the name is a public key and
    the chain has no account under it, the recovery, between these two
    writes, only reads the account, and the error recorded is
    "Error: Program account not found".  In neither case is a transaction
    sent or anything returned to the vault. *)
Theorem recovery_with_nothing_to_close (loan text : string) (d : DeploymentRecord)
    (s : Sys W) :
  let r := processRecovery programDeployer loan s in
  let key := deployment_key loan in
  let d1 := recovering_record d s in
  db s !! key = Some d →
  loanId d = loan →
  status d = deployed →
  programId d = Some text → text ≠ "" →
  (∀ e, PublicKey_of_string text = Throw e →
        let failed_record := set_error (String_of_Error e) (set_status failed d1) in
        since s r.2 = [EDbPut key d1; EDbPut key failed_record]
        ∧ db r.2 !! key = Some failed_record)
  ∧ (∀ program w,
        PublicKey_of_string text = Ok program →
        getAccountInfo program (Date_now (world s)).2 = (Ok None, w) →
        let failed_record :=
          set_error "Error: Program account not found" (set_status failed d1) in
        since s r.2 = [EDbPut key d1; EGetAccountInfo program; EDbPut key failed_record]
        ∧ db r.2 !! key = Some failed_record).
Proof.
  cbv zeta. intros Hd Hloan Hst Hprog Hne.
  rewrite (processRecovery_deployed programDeployer loan d s Hd Hst).
  split.
  - intros e Hkey. rewrite (recoveryBody_bad_key programDeployer loan d s text e Hprog Hne Hkey).
    cbn [fst snd db trace recovery_entered].
    change (loanId (recovering_record d s)) with (loanId d). rewrite Hloan.
    split; [apply since_app; rewrite <- app_assoc; reflexivity | apply lookup_insert_eq].
  - intros program w Hkey Hinfo.
    rewrite (recoveryBody_enter programDeployer loan d s text program Hprog Hne Hkey).
    cbv zeta.
    unfold closeProgram, mbind, Prog_bind, prog_bind, call, throw.
    cbn [fst snd world db files trace recovery_entered]. rewrite Hinfo.
    cbn [fst snd world db files trace].
    change (loanId (recovering_record d s)) with (loanId d). rewrite Hloan.
    split; [apply since_app; rewrite <- !app_assoc; reflexivity | apply lookup_insert_eq].
Qed.

End NothingToClose.

(** Loan 42 is deployed and then recovered: its binary is still there. *)
Example sim_binary_survives_recovery :
  let s := run (sim_config 3) sim_deployer [loanRequested loan42; loanExpired "42"]
             (sim_start 0 0) in
  (status <$> db s !! "deployment:42", files s !! "./binaries/42_digest-8.so")
  = (Some recovered, Some sim_binary).
Proof. vm_compute. reflexivity. Qed.

(** The record of loan 42 names a program that is not on the chain. *)
Lemma recovery_with_nothing_to_close_witness :
  let s := sim_vanished in
  let r := processRecovery sim_deployer "42" s in
  db s !! deployment_key "42" = Some (record_of "42" s)
  ∧ status (record_of "42" s) = deployed
  ∧ programId (record_of "42" s) = Some (toBase58 sim_program42)
  ∧ length (since s r.2) = 3%nat
  ∧ (error <$> db r.2 !! deployment_key "42")
    = Some (Some "Error: Program account not found").
Proof.
  cbv zeta.
  assert (Hd : db sim_vanished !! deployment_key "42" = Some (record_of "42" sim_vanished))
    by (vm_compute; reflexivity).
  assert (Hst : status (record_of "42" sim_vanished) = deployed) by (vm_compute; reflexivity).
  assert (Hprog : programId (record_of "42" sim_vanished) = Some (toBase58 sim_program42))
    by (vm_compute; reflexivity).
  assert (Hne : toBase58 sim_program42 ≠ "") by (vm_compute; discriminate).
  destruct (recovery_with_nothing_to_close sim_deployer "42" (toBase58 sim_program42)
              (record_of "42" sim_vanished) sim_vanished Hd eq_refl Hst Hprog Hne)
    as (_ & Hgone).
  destruct (Hgone sim_program42 (Date_now (world sim_vanished)).2 eq_refl eq_refl)
    as (Htrace & Hdb).
  split; [exact Hd | split; [exact Hst | split; [exact Hprog | split]]].
  - rewrite Htrace. reflexivity.
  - rewrite Hdb. reflexivity.
Defined.

(** Without an admin wallet the registration always throws. *)
Lemma registration_failure_after_deployment_witness :
  let r := processDeployment (sim_config 1) sim_deployer_without_admin
             (pending42, sim_start 5 0) in
  let final := retryLoop (sim_config 1) sim_deployer_without_admin 0
                 (pending42, sim_start 5 0) in
  files (sim_start 5 0) !! path_join (binaryStoragePath (sim_config 1)) "test-program.so"
  = Some sim_binary
  ∧ valid (validateBinary sim_binary) = true
  ∧ programId r.2.1 = Some (toBase58 sim_program42)
  ∧ (programId <$> db r.2.2 !! deployment_key "42") = Some None
  ∧ ∃ stored, db final.2.2 !! deployment_key "42" = Some stored
              ∧ status stored = failed
              ∧ programId stored = Some (toBase58 sim_program42).
Proof.
  cbv zeta.
  assert (Hfile : files (sim_start 5 0)
                  !! path_join (binaryStoragePath (sim_config 1)) "test-program.so"
                  = Some sim_binary) by (vm_compute; reflexivity).
  assert (Hvalid : valid (validateBinary sim_binary) = true) by reflexivity.
  set (deployment := deployProgram sim_deployer_without_admin (loanId pending42) sim_binary
                       (binary_stored (sim_config 1) pending42 (sim_start 5 0) sim_binary)).
  assert (Hdeploy : deployment
                    = (Ok (sim_program42, {| toBase58 := sim_address "key-0" |},
                           "signature-0"), deployment.2)) by (vm_compute; reflexivity).
  assert (Hset : (setDeployedProgram sim_deployer_without_admin (loanId pending42)
                    sim_program42 deployment.2).1
                 = Throw {| message := "Admin wallet not configured for set_deployed_program" |})
    by reflexivity.
  destruct (registration_failure_after_deployment (sim_config 1) sim_deployer_without_admin
              pending42 (sim_start 5 0) deployment.2 sim_binary sim_program42
              {| toBase58 := sim_address "key-0" |} "signature-0"
              {| message := "Admin wallet not configured for set_deployed_program" |} 0
              Hfile Hvalid Hdeploy Hset)
    as (_ & _ & Hprog & _ & _ & (stored & Hstored & _ & Hnone & _) & Hfinal).
  change (deployment_key (loanId pending42)) with (deployment_key "42") in *.
  split; [exact Hfile | split; [exact Hvalid | split; [exact Hprog | split]]].
  - rewrite Hstored. cbn [fmap option_fmap option_map]. rewrite Hnone. reflexivity.
  - destruct (Hfinal ltac:(simpl; lia) ltac:(simpl; lia))
      as (final & Hf & Hst & _ & Hp & _).
    exists final. auto.
Defined.

(** The record of loan 42 is [failed]; the request is delivered again. *)
Lemma retry_after_failure_starts_afresh_witness :
  db sim_failed !! deployment_key (ev_loanId loan42) = Some (record_of "42" sim_failed)
  ∧ status (record_of "42" sim_failed) = failed
  ∧ handleLoanRequested (sim_config 3) sim_deployer loan42 sim_failed
    = handleLoanRequested (sim_config 3) sim_deployer loan42 (without_record "42" sim_failed).
Proof.
  assert (Hd : db sim_failed !! deployment_key (ev_loanId loan42)
               = Some (record_of "42" sim_failed)) by (vm_compute; reflexivity).
  assert (Hst : status (record_of "42" sim_failed) = failed) by (vm_compute; reflexivity).
  split; [exact Hd | split; [exact Hst |]].
  apply (retry_after_failure_starts_afresh (sim_config 3) sim_deployer loan42
           (record_of "42" sim_failed) sim_failed Hd Hst).
Defined.

(** ** Tasks and programs *)

Section Refinement.

Context {S : Type}.

Lemma finish_bind {A B} (m : Task S A) (f : A → Task S B) (s : S) :
  finish (m ≫= f) s
  = match finish m s with
    | (Ok a, s') => finish (f a) s'
    | (Throw e, s') => (Throw e, s')
    end.
Proof.
  revert s. induction m as [[a|e]|next IH effect|next IH effect]; intros s;
    cbn [finish]; try reflexivity.
  - apply IH.
  - apply IH.
Qed.

Lemma finish_try_catch {A} (m : Task S A) (h : Error → Task S A) (s : S) :
  finish (task_try_catch m h) s
  = match finish m s with
    | (Ok a, s') => (Ok a, s')
    | (Throw e, s') => finish (h e) s'
    end.
Proof.
  revert s. induction m as [[a|e]|next IH effect|next IH effect]; intros s;
    cbn [finish task_try_catch]; try reflexivity.
  - apply IH.
  - apply IH.
Qed.

Lemma refines_ret {A} (a : A) : refines (mret a : Task S A) (mret a).
Proof. intros s. reflexivity. Qed.

Lemma refines_throw {A} (e : Error) : refines (task_throw e : Task S A) (throw e).
Proof. intros s. reflexivity. Qed.

Lemma refines_await {A} (op : Prog S A) : refines (await op) op.
Proof. intros s. cbn [finish await]. destruct (op s); reflexivity. Qed.

Lemma refines_sync {A} (op : Prog S A) : refines (sync op) op.
Proof. intros s. cbn [finish sync]. destruct (op s); reflexivity. Qed.

Lemma refines_bind {A B} (m : Task S A) (p : Prog S A) (f : A → Task S B)
    (g : A → Prog S B) :
  refines m p → (∀ a, refines (f a) (g a)) → refines (m ≫= f) (p ≫= g).
Proof.
  intros Hm Hf s. rewrite finish_bind, Hm.
  unfold mbind at 1, Prog_bind, prog_bind.
  destruct (p s) as [[a|e] s']; [apply Hf | reflexivity].
Qed.

Lemma refines_try_catch {A} (m : Task S A) (p : Prog S A) (h : Error → Task S A)
    (k : Error → Prog S A) :
  refines m p → (∀ e, refines (h e) (k e)) → refines (task_try_catch m h) (try_catch p k).
Proof.
  intros Hm Hh s. rewrite finish_try_catch, Hm. unfold try_catch.
  destruct (p s) as [[a|e] s']; [reflexivity | apply Hh].
Qed.

End Refinement.

Lemma refines_on_sys {W A} (t : Task (Sys W) A) (p : Prog (Sys W) A) :
  refines t p → refines (task_on_sys t) (on_sys p).
Proof.
  intros Ht st. unfold on_sys. rewrite <- Ht. clear Ht p.
  revert st. induction t as [r|next IH effect|next IH effect]; intros [d s];
    cbn [finish task_on_sys fst snd]; try reflexivity.
  - apply (IH s (d, effect s)).
  - apply (IH s (d, effect s)).
Qed.

Lemma refines_with_object {W A} (d : DeploymentRecord)
    (t : Task (DeploymentRecord * Sys W) A) (p : Prog (DeploymentRecord * Sys W) A) :
  refines t p → refines (task_with_object d t) (with_object d p).
Proof.
  intros Ht s. unfold with_object. rewrite <- Ht. clear Ht p.
  revert d s. induction t as [r|next IH effect|next IH effect]; intros d s;
    cbn [finish task_with_object fst snd]; try reflexivity.
  - rewrite IH. destruct (effect (d, s)); reflexivity.
  - rewrite IH. destruct (effect (d, s)); reflexivity.
Qed.

Section MethodsRefine.

Context {W : Type} `{!Platform W}.
Variable config : DeployerConfig.
Variable programDeployer : ProgramDeployer.

Ltac refine_step :=
  first [ apply refines_await | apply refines_sync | apply refines_ret | apply refines_throw
        | apply refines_bind; [| intros ?]
        | apply refines_try_catch; [| intros ?]
        | apply refines_on_sys
        | apply refines_with_object ].

Lemma storeBinary_refines (loan : string) (data : list byte) :
  refines (Async.storeBinary config loan data) (storeBinary config loan data).
Proof. unfold Async.storeBinary, storeBinary. repeat refine_step. Qed.

Lemma deployProgram_refines (loan : string) (data : list byte) :
  refines (Async.deployProgram programDeployer loan data)
          (deployProgram programDeployer loan data).
Proof. unfold Async.deployProgram, deployProgram. repeat refine_step. Qed.

Lemma setDeployedProgram_refines (loan : string) (program : PublicKey) :
  refines (Async.setDeployedProgram programDeployer loan program)
          (setDeployedProgram programDeployer loan program).
Proof.
  unfold Async.setDeployedProgram, setDeployedProgram.
  destruct (adminWallet programDeployer); refine_step.
Qed.

Lemma closeProgram_refines (loan : string) (program : PublicKey) :
  refines (Async.closeProgram programDeployer loan program)
          (closeProgram programDeployer loan program).
Proof.
  unfold Async.closeProgram, closeProgram.
  refine_step; [refine_step |].
  match goal with
  | info : option AccountInfo |- _ => destruct info
  end; repeat refine_step.
Qed.

Lemma returnReclaimedSol_refines (loan : string) (amount : number) :
  refines (Async.returnReclaimedSol loan amount) (returnReclaimedSol loan amount).
Proof. unfold Async.returnReclaimedSol, returnReclaimedSol. repeat refine_step. Qed.

Lemma fetchBinaryForLoan_refines (loan who : string) :
  refines (Async.fetchBinaryForLoan config loan who) (fetchBinaryForLoan config loan who).
Proof. unfold Async.fetchBinaryForLoan, fetchBinaryForLoan. repeat refine_step. Qed.

Lemma processDeployment_refines :
  refines (Async.processDeployment config programDeployer)
          (processDeployment config programDeployer).
Proof.
  unfold Async.processDeployment, processDeployment.
  do 5 (refine_step; [refine_step |]).
  refine_step; [refine_step; apply fetchBinaryForLoan_refines |].
  match goal with
  | |- context [validateBinary ?b] => destruct (negb (valid (validateBinary b)))
  end; [refine_step |].
  refine_step; [refine_step; apply storeBinary_refines |].
  refine_step; [refine_step |].
  refine_step; [refine_step; apply deployProgram_refines |].
  match goal with
  | keys : (PublicKey * PublicKey * string)%type |- _ =>
      destruct keys as [[programKey bufferKey] signature]
  end.
  do 3 (refine_step; [refine_step |]).
  refine_step; [refine_step; apply setDeployedProgram_refines |].
  repeat refine_step.
Qed.

Lemma retryLoop_refines (fuel : nat) :
  ∀ attempts, maxRetries config - attempts <= Z.of_nat fuel →
    refines (Async.retryLoop config programDeployer fuel attempts)
            (retryLoop config programDeployer attempts).
Proof.
  induction fuel as [|fuel IH]; intros attempts Hfuel st; rewrite retryLoop_step.
  - destruct (decide (attempts < maxRetries config)); [lia | reflexivity].
  - cbn [Async.retryLoop].
    destruct (decide (attempts < maxRetries config)); [| reflexivity].
    rewrite finish_try_catch, processDeployment_refines.
    destruct (processDeployment config programDeployer st) as [[[]|e] st1]; [reflexivity |].
    destruct (decide (attempts + 1 >= maxRetries config)).
    + assert (Hfail : refines
                (sync (assign (set_status failed));;
                 sync (assign (set_error (String_of_Error e)));;
                 await save_this)
                (assign (set_status failed);;
                 assign (set_error (String_of_Error e));;
                 (save_this : Prog (DeploymentRecord * Sys W) unit)))
        by repeat refine_step.
      apply Hfail.
    + rewrite finish_bind. cbn [finish await fst snd].
      apply IH. lia.
Qed.

Lemma processDeploymentWithRetries_refines :
  refines (Async.processDeploymentWithRetries config programDeployer)
          (processDeploymentWithRetries config programDeployer).
Proof. apply retryLoop_refines. lia. Qed.

Lemma handleLoanRequested_refines (event : LoanRequested) :
  refines (Async.handleLoanRequested config programDeployer event)
          (handleLoanRequested config programDeployer event).
Proof.
  unfold Async.handleLoanRequested, handleLoanRequested.
  refine_step; [refine_step |].
  match goal with
  | |- context [already_processing ?x] => destruct (already_processing x)
  end; [refine_step |].
  do 3 (refine_step; [refine_step |]).
  refine_step. apply processDeploymentWithRetries_refines.
Qed.

Lemma recoveryBody_refines (loan : string) :
  refines (Async.recoveryBody programDeployer loan) (recoveryBody programDeployer loan).
Proof.
  unfold Async.recoveryBody, recoveryBody.
  do 5 (refine_step; [refine_step |]).
  match goal with
  | |- context [truthy ?x] => destruct (truthy x)
  end; [| refine_step].
  refine_step; [refine_step |].
  refine_step; [refine_step; apply closeProgram_refines |].
  match goal with
  | closed : (number * string)%type |- _ => destruct closed as [reclaimedSol signature]
  end.
  refine_step; [refine_step; apply returnReclaimedSol_refines |].
  repeat refine_step.
Qed.

Lemma processRecovery_refines (loan : string) :
  refines (Async.processRecovery programDeployer loan) (processRecovery programDeployer loan).
Proof.
  unfold Async.processRecovery, processRecovery.
  refine_step; [refine_step |].
  match goal with
  | existing : option DeploymentRecord |- _ =>
      destruct (not_deployed existing); [refine_step |];
      destruct existing as [deployment|]; [| refine_step]
  end.
  refine_step. refine_step; [apply recoveryBody_refines |]. repeat refine_step.
Qed.

(** Each listener, run without interruption, is the handler of the
    sequential model. *)
Lemma handle_refines (ev : Event) :
  refines (Async.handle config programDeployer ev) (handle config programDeployer ev).
Proof.
  destruct ev; cbn [Async.handle handle].
  - apply handleLoanRequested_refines.
  - apply processRecovery_refines.
  - apply processRecovery_refines.
Qed.

End MethodsRefine.

(** ** Handlers in flight *)

Section Scheduling.

Context {W : Type} `{!Platform W}.
Variable config : DeployerConfig.
Variable programDeployer : ProgramDeployer.

Lemma settle_finish {A} (t : Task (Sys W) A) (s : Sys W) :
  finish (settle t s).1 (settle t s).2 = finish t s.
Proof.
  revert s. induction t as [r|next IH effect|next IH effect]; intros s;
    cbn [settle finish fst snd]; try reflexivity.
  apply IH.
Qed.

Lemma exec_cons (a : Action) (l : list Action) (n : Node W) :
  exec config programDeployer (a :: l) n
  = exec config programDeployer l (act config programDeployer a n).
Proof. reflexivity. Qed.

Lemma exec_app (a b : list Action) (n : Node W) :
  exec config programDeployer (a ++ b) n
  = exec config programDeployer b (exec config programDeployer a n).
Proof. apply foldl_app. Qed.

(** A handler that is resumed as often as it awaits has settled, with the
    result and in the state that the handler of the sequential model
    gives. *)
Lemma exec_until_settled (t : Task (Sys W) unit) :
  ∀ (i : nat) (ts : list (Task (Sys W) unit)) (s : Sys W),
    (i < length ts)%nat →
    exec config programDeployer (replicate (awaits t s) (Resume i))
      {| inflight := <[i := (settle t s).1]> ts; shared := (settle t s).2 |}
    = {| inflight := <[i := Settled (finish t s).1]> ts; shared := (finish t s).2 |}.
Proof.
  induction t as [r|next IH effect|next IH effect]; intros i ts s Hi.
  - reflexivity.
  - cbn [awaits settle finish]. apply IH, Hi.
  - cbn [awaits settle finish fst snd replicate exec foldl act].
    unfold resume. cbn [inflight shared].
    rewrite list_lookup_insert_eq by exact Hi.
    rewrite list_insert_insert_eq.
    apply (IH s), Hi.
Qed.

Lemma insert_at_end {A} (l : list A) (x y : A) : <[length l := x]> (l ++ [y]) = l ++ [x].
Proof.
  rewrite <- (Nat.add_0_r (length l)). rewrite insert_app_r. reflexivity.
Qed.

(** An event whose handler is resumed until it has settled: the process
    is left as the handler of the sequential model leaves the system. *)
Lemma emit_until_settled (ev : Event) (n : Node W) :
  exec config programDeployer
    (Emit ev :: replicate (awaits (Async.handle config programDeployer ev) (shared n))
                  (Resume (length (inflight n)))) n
  = and_settled (handle config programDeployer ev (shared n)).1
      {| inflight := inflight n; shared := (handle config programDeployer ev (shared n)).2 |}.
Proof.
  cbn [exec foldl act]. unfold spawn.
  rewrite <- (insert_at_end (inflight n) _ (Settled (Ok tt))).
  pose proof (exec_until_settled (Async.handle config programDeployer ev)
                (length (inflight n)) (inflight n ++ [Settled (Ok tt)]) (shared n)) as Hrun.
  unfold exec in Hrun. rewrite Hrun by (rewrite length_app; cbn [length]; lia).
  rewrite insert_at_end, (handle_refines config programDeployer ev (shared n)).
  reflexivity.
Qed.

(** A handler that has settled stays so, whatever happens next. *)
Lemma act_keeps_settled (a : Action) (n : Node W) (i : nat) (r : result unit) :
  inflight n !! i = Some (Settled r) →
  inflight (act config programDeployer a n) !! i = Some (Settled r).
Proof.
  intros Hi. destruct a as [ev|j]; cbn [act].
  - unfold spawn. cbn [inflight]. apply lookup_app_l_Some, Hi.
  - unfold resume.
    destruct (inflight n !! j) as [[r'|next effect|next effect]|] eqn:Hj; try exact Hi.
    cbn [inflight].
    destruct (decide (j = i)) as [->|Hne]; [congruence |].
    rewrite list_lookup_insert_ne by exact Hne. exact Hi.
Qed.

Lemma exec_keeps_settled (actions : list Action) :
  ∀ (n : Node W) (i : nat) (r : result unit),
    inflight n !! i = Some (Settled r) →
    inflight (exec config programDeployer actions n) !! i = Some (Settled r).
Proof.
  induction actions as [|a actions IH]; intros n i r Hi; [exact Hi |].
  rewrite exec_cons. apply IH, act_keeps_settled, Hi.
Qed.

(** The sequential model is the process in which every handler has
    settled before the next event is emitted. *)
Lemma run_one_at_a_time (evs : list Event) :
  ∀ n : Node W,
    let n' := exec config programDeployer
                (one_at_a_time config programDeployer evs (length (inflight n)) (shared n)) n in
    shared n' = run config programDeployer evs (shared n)
    ∧ length (inflight n') = (length (inflight n) + length evs)%nat
    ∧ ∀ i t, (length (inflight n) <= i)%nat → inflight n' !! i = Some t → ∃ r, t = Settled r.
Proof.
  induction evs as [|ev evs IH]; intros n; cbv zeta.
  - cbn [one_at_a_time exec foldl run length]. split; [reflexivity |].
    split; [lia |]. intros i t Hi Ht. apply lookup_lt_Some in Ht. lia.
  - cbn [one_at_a_time run length].
    change (Emit ev :: ?a ++ ?b) with ((Emit ev :: a) ++ b).
    rewrite exec_app, emit_until_settled.
    set (n1 := and_settled _ _).
    specialize (IH n1). cbv zeta in IH.
    assert (Hlen : length (inflight n1) = Datatypes.S (length (inflight n))).
    { unfold n1, and_settled. cbn [inflight]. rewrite length_app. cbn [length]. lia. }
    rewrite Hlen in IH. change (shared n1) with (handle config programDeployer ev (shared n)).2 in IH.
    destruct IH as (Hshared & Hlength & Hsettled).
    split; [exact Hshared |]. split; [lia |].
    intros i t Hi Ht.
    destruct (decide (i = length (inflight n))) as [->|Hne].
    + assert (Hhere : inflight n1 !! length (inflight n)
                      = Some (Settled (handle config programDeployer ev (shared n)).1)).
      { unfold n1, and_settled. cbn [inflight]. apply list_lookup_middle. reflexivity. }
      apply (exec_keeps_settled
               (one_at_a_time config programDeployer evs
                  (Datatypes.S (length (inflight n)))
                  (handle config programDeployer ev (shared n)).2)) in Hhere.
      rewrite Hhere in Ht. injection Ht as <-. eauto.
    + apply (Hsettled i t); [lia | exact Ht].
Qed.

(** A handler that has settled stays as it is, and is in nobody's way. *)
Lemma resume_and_settled (i : nat) (r : result unit) (n : Node W) :
  resume i (and_settled r n) = and_settled r (resume i n).
Proof.
  unfold resume, and_settled. cbn [inflight shared].
  destruct (decide (i < length (inflight n))%nat) as [Hi|Hi].
  - rewrite lookup_app_l by exact Hi.
    destruct (inflight n !! i) as [[| |next effect]|]; try reflexivity.
    cbn [inflight shared]. rewrite insert_app_l by exact Hi. reflexivity.
  - rewrite (lookup_ge_None_2 (inflight n) i) by lia.
    destruct (decide (i = length (inflight n))) as [->|Hne].
    + rewrite list_lookup_middle by reflexivity. reflexivity.
    + rewrite lookup_ge_None_2; [reflexivity |].
      rewrite length_app. cbn [length]. lia.
Qed.

Lemma exec_and_settled (idxs : list nat) (r : result unit) :
  ∀ n : Node W,
    exec config programDeployer (Resume <$> idxs) (and_settled r n)
    = and_settled r (exec config programDeployer (Resume <$> idxs) n).
Proof.
  induction idxs as [|i idxs IH]; intros n; [reflexivity |].
  rewrite fmap_cons, !exec_cons. cbn [act]. rewrite resume_and_settled. apply IH.
Qed.

(** The guard, in the process: the listener of [loanRequested], taking its
    first step while the store holds a record of the loan that is not
    [failed], settles at once and changes nothing. *)
Lemma emit_guarded (event : LoanRequested) (n : Node W) (d : DeploymentRecord) :
  db (shared n) !! deployment_key (ev_loanId event) = Some d →
  status d ≠ failed →
  exec config programDeployer
    [Emit (loanRequested event); Resume (length (inflight n))] n
  = and_settled (Ok tt) n.
Proof.
  intros Hd Hst. cbn [exec foldl act Async.handle]. unfold spawn, resume.
  cbn [Async.handleLoanRequested await mbind Task_bind task_bind settle fst snd
       inflight shared].
  rewrite list_lookup_middle by reflexivity.
  cbn [getDeployment fst snd task_bind]. rewrite Hd. cbn [already_processing].
  rewrite bool_decide_eq_true_2 by exact Hst.
  cbn [mret Task_ret settle fst snd]. rewrite insert_at_end. reflexivity.
Qed.

(** A handler on its own: however often it is resumed, what remains of it
    ends as the whole would have. *)
Lemma exec_lone (idxs : list nat) :
  ∀ (t : Task (Sys W) unit) (s : Sys W),
    let n' := exec config programDeployer (Resume <$> idxs) {| inflight := [t]; shared := s |} in
    ∃ t', inflight n' = [t'] ∧ finish t' (shared n') = finish t s.
Proof.
  induction idxs as [|i idxs IH]; intros t s; cbv zeta.
  - exists t. split; reflexivity.
  - rewrite fmap_cons, exec_cons. cbn [act]. unfold resume. cbn [inflight shared].
    destruct i as [|i]; cbn [lookup list_lookup].
    + destruct t as [r|next effect|next effect]; try apply IH.
      cbn [insert list_insert].
      destruct (IH (settle (next s) (effect s)).1 (settle (next s) (effect s)).2)
        as (t' & Ht' & Hfinish).
      exists t'. split; [exact Ht' |]. rewrite Hfinish, settle_finish. reflexivity.
    + apply IH.
Qed.

End Scheduling.

(** ** One sequence of attempts for each handler that passes the guard *)

Lemma sequences_started_app (loan : string) (t1 t2 : list Effect) :
  sequences_started loan (t1 ++ t2)
  = (sequences_started loan t1 + sequences_started loan t2)%nat.
Proof. unfold sequences_started. rewrite filter_app, length_app. reflexivity. Qed.

Lemma sequences_started_none (loan : string) (t : list Effect) :
  pending ∉ written_statuses t → sequences_started loan t = 0%nat.
Proof.
  induction t as [|e t IH]; intros Hnot; [reflexivity |].
  unfold sequences_started in *.
  destruct e as [key r| | | | | | | | |];
    try (rewrite filter_cons_False by (cbn; discriminate); apply IH, Hnot).
  change (written_statuses (EDbPut key r :: t)) with (status r :: written_statuses t) in Hnot.
  rewrite not_elem_of_cons in Hnot. destruct Hnot as [Hne Hnot].
  rewrite filter_cons_False; [apply IH, Hnot |].
  cbn [starts_sequence]. rewrite (bool_decide_eq_false_2 (status r = pending)) by congruence.
  rewrite andb_false_r. discriminate.
Qed.

Section InFlight.

Context {W : Type} `{!Platform W}.
Variable config : DeployerConfig.
Variable programDeployer : ProgramDeployer.

(** A handler of [loanRequested] that passes the guard starts one
    sequence of attempts: it writes the record as [pending] once, and
    makes as many attempts as the retry loop allows, at least one when
    [maxRetries] is at least 1. *)
Lemma handleLoanRequested_sequence (event : LoanRequested) (s : Sys W) :
  let loan := ev_loanId event in
  let did := since s (handleLoanRequested config programDeployer event s).2 in
  already_processing (db s !! deployment_key loan) = false →
  sequences_started loan did = 1%nat
  ∧ Z.of_nat (attempts_started loan did) <= Z.max 0 (maxRetries config)
  ∧ (1 <= maxRetries config → (1 <= attempts_started loan did)%nat).
Proof.
  cbv zeta. intros Hguard. rewrite handleLoanRequested_step, Hguard. cbv zeta.
  unfold with_object, processDeploymentWithRetries.
  set (deployment := {| loanId := ev_loanId event; status := pending |}).
  set (s1 := {| db := _; files := files s; world := _; trace := _ |}).
  destruct (retryLoop_run config programDeployer (Z.to_nat (maxRetries config)) 0
              (deployment, s1) ltac:(lia))
    as (_ & _ & t & Ht & _ & _ & Hmax & Hmin & _).
  destruct (retryLoop_history config programDeployer (Z.to_nat (maxRetries config)) 0
              (deployment, s1) ltac:(lia)) as (t' & Ht' & Hhistory).
  cbv zeta in *. cbn [fst snd] in *.
  assert (t' = t) as -> by (rewrite Ht in Ht'; apply app_inv_head in Ht'; auto).
  assert (Hnone : pending ∉ written_statuses t).
  { destruct Hhistory as [(_ & ->) | (k & _ & [-> | ->])].
    - apply not_elem_of_nil.
    - rewrite elem_of_app, elem_of_replicate, list_elem_of_singleton.
      intros [[? _] | ?]; discriminate.
    - rewrite elem_of_app, elem_of_replicate, list_elem_of_singleton.
      intros [[? _] | ?]; discriminate. }
  erewrite since_app by (rewrite Ht; unfold s1; cbn [trace]; rewrite <- app_assoc; reflexivity).
  change (?x :: t) with ([x] ++ t).
  rewrite sequences_started_app, attempts_started_app, (sequences_started_none _ t Hnone).
  assert (Hone : sequences_started (ev_loanId event)
                   [EDbPut (deployment_key (ev_loanId event)) deployment] = 1%nat).
  { unfold sequences_started. rewrite filter_cons_True; [reflexivity |].
    cbn [starts_sequence]. rewrite !bool_decide_eq_true_2; reflexivity. }
  assert (Hzero : attempts_started (ev_loanId event)
                    [EDbPut (deployment_key (ev_loanId event)) deployment] = 0%nat).
  { unfold attempts_started. rewrite filter_cons_False; [reflexivity |].
    cbn [starts_attempt]. rewrite (bool_decide_eq_false_2 (status deployment = deploying))
      by discriminate.
    rewrite andb_false_r. discriminate. }
  rewrite Hone, Hzero. cbn [Nat.add loanId deployment] in *.
  split; [reflexivity |]. split; [lia |]. intros Hpos. apply Hmin. lia.
Qed.

(** Two emissions in a row.  The emitter does not wait for a listener:
    when [loanRequested] is emitted twice for a loan that has no record,
    or a [failed] one, and each handler then takes one step, both handlers
    have read the store before either has written to it.  Both have
    passed the guard, and each of them is about to write a record of the
    loan as [pending] and to enter the retry loop. *)
Lemma both_pass_the_guard (event : LoanRequested) (s : Sys W) :
  let loan := ev_loanId event in
  let key := deployment_key loan in
  let e := Emit (loanRequested event) in
  let n := exec config programDeployer [e; e; Resume 0%nat; Resume 1%nat] (quiescent s) in
  already_processing (db s !! key) = false →
  db (shared n) = db s
  ∧ trace (shared n) = trace s
  ∧ ∀ i, (i < 2)%nat →
      ∃ d next effect,
        inflight n !! i = Some (Awaiting next effect)
        ∧ loanId d = loan ∧ status d = pending
        ∧ ∀ s', trace (effect s') = trace s' ++ [EDbPut key d].
Proof.
  cbv zeta. intros Hguard.
  unfold exec, quiescent. cbn [foldl act Async.handle]. unfold spawn, resume.
  cbn [Async.handleLoanRequested await sync mbind Task_bind task_bind settle fst snd
       inflight shared app lookup list_lookup insert list_insert getDeployment].
  rewrite Hguard.
  cbn [Async.handleLoanRequested await sync mbind Task_bind task_bind settle fst snd
       inflight shared app lookup list_lookup insert list_insert getDeployment ask db trace].
  rewrite Hguard.
  cbn [Async.handleLoanRequested await sync mbind Task_bind task_bind settle fst snd
       inflight shared app lookup list_lookup insert list_insert getDeployment ask db trace].
  split; [reflexivity |]. split; [reflexivity |].
  intros [|[|i]] Hi; [| | lia]; cbn [lookup list_lookup];
    eexists _, _, _; (split; [reflexivity |]);
    cbn [saveDeployment snd trace];
    (split; [| split]; [| | intros s'; reflexivity]; reflexivity).
Qed.

(** C1.  The guard of [handleLoanRequested], and what follows from it.

    When the listener of [loanRequested] takes its first step, which is
    the reading of the store, while the store holds a record of the loan
    whose status is not [failed], it settles at once: nothing is written,
    no deployment attempt is started, and whatever the handlers in flight
    do afterwards, the process goes on exactly as if the event had not
    been emitted.

    Consequently, when [loanRequested] is emitted for a loan that has no
    record, or a [failed] one, and is emitted a second time once the
    first handler has written its record, before or after that handler
    has finished, the record not being [failed] when the second handler
    reads it, then the second emission leaves no mark.  Once the first
    handler has settled, the system is as the first handler alone leaves
    it: the record was written as [pending] once, so there is one sequence
    of attempts, of at most [maxRetries] attempts and at least one when
    [maxRetries] is at least 1, and the store holds a record of the loan,
    exactly one when it is filed by loan. *)
Theorem handleLoanRequested_idempotent (event : LoanRequested) (s : Sys W) (n : Node W)
    (before after more : list nat) :
  let loan := ev_loanId event in
  let key := deployment_key loan in
  let e := Emit (loanRequested event) in
  let go := exec config programDeployer in
  ((∃ d, db (shared n) !! key = Some d ∧ status d ≠ failed) →
   handleLoanRequested config programDeployer event (shared n) = (Ok tt, shared n)
   ∧ go ([e; Resume (length (inflight n))] ++ (Resume <$> more)) n
     = and_settled (Ok tt) (go (Resume <$> more) n))
  ∧ (let first := go (e :: (Resume <$> before)) (quiescent s) in
     let both := go ([e; Resume 1%nat] ++ (Resume <$> after)) first in
     already_processing (db s !! key) = false →
     (∃ d, db (shared first) !! key = Some d ∧ status d ≠ failed) →
     both = and_settled (Ok tt) (go (Resume <$> after) first)
     ∧ ∀ r, inflight both !! 0%nat = Some (Settled r) →
         let did := since s (shared both) in
         shared both = (handleLoanRequested config programDeployer event s).2
         ∧ sequences_started loan did = 1%nat
         ∧ Z.of_nat (attempts_started loan did) <= Z.max 0 (maxRetries config)
         ∧ (1 <= maxRetries config → (1 <= attempts_started loan did)%nat)
         ∧ is_Some (db (shared both) !! key)
         ∧ (store_keyed (db s) →
            size (records_of loan (db (shared both))) = 1%nat
            ∧ length (deployments_of loan (shared both)) = 1%nat)).
Proof.
  cbv zeta. split.
  - intros (d & Hd & Hst). split.
    + apply (handle_inert config programDeployer (loanRequested event) (shared n) d Hd).
      cbn [triggers]. apply bool_decide_eq_false_2. exact Hst.
    + rewrite exec_app, (emit_guarded config programDeployer event n d Hd Hst).
      apply exec_and_settled.
  - intros Hguard (d & Hd & Hst).
    assert (Hfirst : ∃ t1, inflight (exec config programDeployer
                                       (Emit (loanRequested event) :: (Resume <$> before))
                                       (quiescent s)) = [t1]
                           ∧ finish t1 (shared (exec config programDeployer
                                                  (Emit (loanRequested event)
                                                   :: (Resume <$> before)) (quiescent s)))
                             = handleLoanRequested config programDeployer event s).
    { rewrite exec_cons. cbn [act]. unfold spawn, quiescent. cbn [inflight shared app].
      destruct (exec_lone config programDeployer before
                  (settle (Async.handle config programDeployer (loanRequested event)) s).1
                  (settle (Async.handle config programDeployer (loanRequested event)) s).2)
        as (t1 & Ht1 & Hfinish).
      exists t1. split; [exact Ht1 |].
      rewrite Hfinish, settle_finish.
      apply (handle_refines config programDeployer (loanRequested event)). }
    destruct Hfirst as (t1 & Ht1 & Hfinish1).
    set (first := exec config programDeployer
                    (Emit (loanRequested event) :: (Resume <$> before)) (quiescent s)) in *.
    assert (Hboth : exec config programDeployer
                      ([Emit (loanRequested event); Resume 1%nat] ++ (Resume <$> after)) first
                    = and_settled (Ok tt)
                        (exec config programDeployer (Resume <$> after) first)).
    { rewrite exec_app.
      replace 1%nat with (length (inflight first)) by (rewrite Ht1; reflexivity).
      rewrite (emit_guarded config programDeployer event first d Hd Hst).
      apply exec_and_settled. }
    rewrite Hboth. split; [reflexivity |].
    intros r Hsettled.
    assert (Heta : first = {| inflight := [t1]; shared := shared first |})
      by (destruct first; cbn [inflight shared] in *; congruence).
    destruct (exec_lone config programDeployer after t1 (shared first))
      as (t2 & Ht2 & Hfinish2).
    cbv zeta in Ht2, Hfinish2. rewrite <- Heta in Ht2, Hfinish2.
    set (alone := exec config programDeployer (Resume <$> after) first) in *.
    unfold and_settled in Hsettled. cbn [inflight shared and_settled] in *.
    rewrite Ht2 in Hsettled. cbn [app lookup list_lookup] in Hsettled.
    injection Hsettled as ->. cbn [finish] in Hfinish2.
    assert (Hshared : shared alone = (handleLoanRequested config programDeployer event s).2)
      by (rewrite <- Hfinish1, <- Hfinish2; reflexivity).
    rewrite Hshared.
    destruct (handleLoanRequested_sequence event s Hguard) as (Hone & Hmax & Hmin).
    split; [reflexivity |]. split; [exact Hone |]. split; [exact Hmax |].
    split; [exact Hmin |].
    assert (Hsome : is_Some (db (handleLoanRequested config programDeployer event s).2
                             !! deployment_key (ev_loanId event))).
    { destruct (handleLoanRequested_run config programDeployer event s) as (_ & Hcases).
      cbv zeta in Hcases. destruct Hcases as [(Hproc & _) | (_ & Hsome & _)]; [| exact Hsome].
      congruence. }
    split; [exact Hsome |].
    intros Hk. destruct Hsome as [d1 Hd1].
    pose proof (handle_store_keyed config programDeployer (loanRequested event) s Hk) as Hk1.
    cbn [handle] in Hk1.
    rewrite (records_of_keyed (ev_loanId event) d1 _ Hk1 Hd1).
    rewrite (deployments_of_keyed (ev_loanId event) d1 _ Hk1 Hd1).
    split; [apply map_size_singleton | reflexivity].
Qed.

End InFlight.

(** The claim C1 as it is stated, at a concrete input.  Loan 42 is
    requested, and the event is emitted twice in a row; then the two
    handlers advance in turn, as they do when their operations take the
    same time.  No attempt fails.  Both handlers run a sequence of
    attempts: the record is written as [pending] twice and as [deploying]
    twice, two deployment transactions are sent and two programs are
    deployed, of which the one record of the loan names the second. *)
Lemma loanRequested_emitted_twice :
  let e := Emit (loanRequested loan42) in
  let turns := concat (replicate 10 [0%nat; 1%nat]) in
  let n := exec (sim_config 3) sim_deployer ([e; e] ++ (Resume <$> turns))
             (quiescent (sim_start 5 0)) in
  let did := since (sim_start 5 0) (shared n) in
  inflight n = [Settled (Ok tt); Settled (Ok tt)]
  ∧ written_statuses did = [pending; pending; deploying; deploying; deployed; deployed]
  ∧ fst <$> map_to_list (db (shared n)) = ["deployment:42"]
  ∧ sequences_started "42" did = 2%nat
  ∧ attempts_started "42" did = 2%nat
  ∧ fst <$> map_to_list (programs (world (shared n)))
    = [sim_address "key-3"; sim_address "key-1"]
  ∧ programId <$> db (shared n) !! "deployment:42" = Some (Some (sim_address "key-3"))
  ∧ sequences_started "42" did ≠ 1%nat.
Proof. cbv zeta. vm_compute. repeat split; try reflexivity. discriminate. Qed.

(** Loan 42 is requested; the event is emitted again while the first
    handler is in flight, after it has written the record as [pending]
    and as [deploying]; and once more after the loan has been deployed. *)
Lemma handleLoanRequested_idempotent_witness :
  let e := Emit (loanRequested loan42) in
  let go := exec (sim_config 3) sim_deployer in
  let first := go (e :: (Resume <$> [0; 0; 0]%nat)) (quiescent (sim_start 5 0)) in
  let both := go ([e; Resume 1%nat] ++ (Resume <$> replicate 7 0%nat)) first in
  let did := since (sim_start 5 0) (shared both) in
  (already_processing (db (sim_start 5 0) !! deployment_key "42") = false
   ∧ status <$> db (shared first) !! deployment_key "42" = Some deploying
   ∧ inflight both = [Settled (Ok tt); Settled (Ok tt)]
   ∧ shared both = sim_deployed 5
   ∧ sequences_started "42" did = 1%nat
   ∧ (1 <= attempts_started "42" did)%nat)
  ∧ go [e; Resume 0%nat] (quiescent (sim_deployed 5))
    = and_settled (Ok tt) (quiescent (sim_deployed 5)).
Proof.
  cbv zeta.
  set (first := exec (sim_config 3) sim_deployer
                  (Emit (loanRequested loan42) :: (Resume <$> [0; 0; 0]%nat))
                  (quiescent (sim_start 5 0))).
  set (both := exec (sim_config 3) sim_deployer
                 ([Emit (loanRequested loan42); Resume 1%nat]
                  ++ (Resume <$> replicate 7 0%nat)) first).
  assert (Hguard : already_processing (db (sim_start 5 0) !! deployment_key "42") = false)
    by (vm_compute; reflexivity).
  assert (Hstatus : status <$> db (shared first) !! deployment_key "42" = Some deploying)
    by (vm_compute; reflexivity).
  assert (Hrecord : ∃ d, db (shared first) !! deployment_key "42" = Some d ∧ status d ≠ failed).
  { destruct (db (shared first) !! deployment_key "42") as [d|]; [| discriminate].
    exists d. split; [reflexivity |]. injection Hstatus as ->. discriminate. }
  assert (Hsettled : inflight both = [Settled (Ok tt); Settled (Ok tt)])
    by (vm_compute; reflexivity).
  assert (Hdeployed : ∃ d, db (shared (quiescent (sim_deployed 5))) !! deployment_key "42"
                           = Some d ∧ status d ≠ failed).
  { exists (record_of "42" (sim_deployed 5)).
    split; [vm_compute; reflexivity | vm_compute; discriminate]. }
  destruct (handleLoanRequested_idempotent (sim_config 3) sim_deployer loan42
              (sim_start 5 0) (quiescent (sim_deployed 5)) [0; 0; 0]%nat
              (replicate 7 0%nat) [])
    as [Hfirst Hsecond].
  cbv zeta in Hfirst, Hsecond.
  destruct (Hsecond Hguard Hrecord) as (_ & Hcount).
  fold first both in Hcount.
  destruct (Hcount (Ok tt) ltac:(rewrite Hsettled; reflexivity))
    as (Hshared & Hone & _ & Hmin & _).
  split.
  - split; [exact Hguard |]. split; [exact Hstatus |]. split; [exact Hsettled |].
    split; [exact Hshared |]. split; [exact Hone |]. apply Hmin. cbn. lia.
  - exact (proj2 (Hfirst Hdeployed)).
Defined.
